(** * Sightglass: package categorizer, build-vs-buy detector and install hook

    A shallow embedding of [src/classifiers/categories.ts],
    [src/classifiers/build-vs-buy.ts] and the PreToolUse install hook,
    with the properties the specification states about them.

    Strings.  A JavaScript string is a sequence of UTF-16 code units.  The
    embedding uses Rocq's [string], whose characters are the code units
    0..255 (the Latin-1 range).  On that range [toLowerCase], [\s], [\d]
    and [.] below follow ECMAScript exactly; code units above 255 are out
    of the model.

    Numbers.  Counts and confidences are integers and live in [nat] and [Z];
    the one place where the program divides ([customBuildPct]) is modelled
    in IEEE binary64 through [SpecFloat]. *)

From Stdlib Require Import ZArith Lia Bool Ascii String List.
From Stdlib Require Import Sorting.Permutation Sorting.Sorted.
From Stdlib Require Import Floats.SpecFloat.
From stdpp Require Import gmap strings.
Import ListNotations.

Open Scope string_scope.
Open Scope list_scope.
Open Scope nat_scope.

Set Warnings "-register-all".

(** ** JavaScript strings *)

Module JsString.

Definition code (c : ascii) : nat := nat_of_ascii c.

(** [String.prototype.toLowerCase] on one code unit of the Latin-1 range:
    A-Z and the accented capitals 0xC0-0xDE (but not the multiplication
    sign 0xD7) move up by 32, everything else is kept. *)
Definition lowerChar (c : ascii) : ascii :=
  let n := code c in
  if (65 <=? n) && (n <=? 90) then ascii_of_nat (n + 32)
  else if (192 <=? n) && (n <=? 222) && negb (n =? 215) then ascii_of_nat (n + 32)
  else c.

Fixpoint toLowerCase (s : string) : string :=
  match s with
  | EmptyString => EmptyString
  | String c s' => String (lowerChar c) (toLowerCase s')
  end.

(** [s.startsWith(p)] *)
Fixpoint startsWith (s p : string) {struct p} : bool :=
  match p with
  | EmptyString => true
  | String c p' =>
      match s with
      | EmptyString => false
      | String d s' => Ascii.eqb c d && startsWith s' p'
      end
  end.

(** [s.includes(sub)] *)
Fixpoint includes (s sub : string) : bool :=
  startsWith s sub ||
  match s with
  | EmptyString => false
  | String _ s' => includes s' sub
  end.

(** Truthiness of a string value: only the empty string is falsy. *)
Definition truthy (s : string) : bool :=
  match s with EmptyString => false | _ => true end.

(** [s.slice(n)] for [n <= s.length] *)
Fixpoint drop (n : nat) (s : string) {struct n} : string :=
  match n, s with
  | S n', String _ s' => drop n' s'
  | _, _ => s
  end.

(** [s.slice(0, n)] *)
Fixpoint take (n : nat) (s : string) {struct n} : string :=
  match n, s with
  | S n', String c s' => String c (take n' s')
  | _, _ => EmptyString
  end.

End JsString.
Import JsString.

(** ** Regular expressions

    A backtracking matcher with ECMAScript's priorities: alternatives are
    tried left to right, quantifiers are greedy, and an iteration of a
    quantifier that consumes nothing is rejected.  One capture group is
    enough for the program's patterns. *)

Module Re.

Inductive cset : Type :=
| CAny                      (* .      : all but line terminators *)
| CSpace                    (* \s *)
| CNotSpace                 (* [^\s] *)
| CDigit                    (* \d *)
| CNot (c : ascii)          (* [^c] *)
| COneOf (cs : list ascii). (* [abc] *)

Definition isSpace (c : ascii) : bool :=
  let n := code c in
  (n =? 9) || (n =? 10) || (n =? 11) || (n =? 12) || (n =? 13)
  || (n =? 32) || (n =? 160).

Definition isLineTerminator (c : ascii) : bool :=
  let n := code c in (n =? 10) || (n =? 13).

Definition isDigit (c : ascii) : bool :=
  let n := code c in (48 <=? n) && (n <=? 57).

Definition cset_mem (cs : cset) (c : ascii) : bool :=
  match cs with
  | CAny => negb (isLineTerminator c)
  | CSpace => isSpace c
  | CNotSpace => negb (isSpace c)
  | CDigit => isDigit c
  | CNot d => negb (Ascii.eqb c d)
  | COneOf l => existsb (Ascii.eqb c) l
  end.

Inductive regex : Type :=
| Chr (cs : cset)
| Lit (s : string)
| Seq (r1 r2 : regex)
| Alt (r1 r2 : regex)
| Star (r : regex)
| Plus (r : regex)
| Opt (r : regex)
| Group (r : regex)
| Bol
| Eol.

(** Matcher state: index of the next code unit, the input from there on,
    and the text of capture group 1 if it has matched. *)
Record mstate : Type := MState
  { pos : nat; rest : string; grp : option string }.

Definition cont : Type := mstate -> option mstate.
Definition matcher : Type := mstate -> cont -> option mstate.

Definition orElse (a b : option mstate) : option mstate :=
  match a with Some x => Some x | None => b end.

(** Greedy iteration.  Every accepted iteration consumes at least one
    code unit, so [S (length (rest st))] rounds of fuel never run out. *)
Fixpoint star (ma : matcher) (fuel : nat) (st : mstate) (k : cont)
  : option mstate :=
  match fuel with
  | O => k st
  | S fuel' =>
      orElse
        (ma st (fun st' =>
                  if String.length (rest st') <? String.length (rest st)
                  then star ma fuel' st' k
                  else None))
        (k st)
  end.

Fixpoint m (r : regex) : matcher :=
  fun st k =>
  match r with
  | Chr cs =>
      match rest st with
      | String c s' =>
          if cset_mem cs c
          then k (MState (S (pos st)) s' (grp st))
          else None
      | EmptyString => None
      end
  | Lit l =>
      if startsWith (rest st) l
      then k (MState (pos st + String.length l)
                     (drop (String.length l) (rest st)) (grp st))
      else None
  | Seq r1 r2 => m r1 st (fun st' => m r2 st' k)
  | Alt r1 r2 => orElse (m r1 st k) (m r2 st k)
  | Star r1 => star (m r1) (S (String.length (rest st))) st k
  | Plus r1 =>
      m r1 st (fun st' => star (m r1) (S (String.length (rest st'))) st' k)
  | Opt r1 => orElse (m r1 st k) (k st)
  | Group r1 =>
      m r1 st (fun st' =>
                 k (MState (pos st') (rest st')
                           (Some (take (pos st' - pos st) (rest st)))))
  | Bol => if pos st =? 0 then k st else None
  | Eol => match rest st with EmptyString => k st | _ => None end
  end.

(** Result of a successful match: where it starts, where it ends, what is
    left of the input after it, and capture group 1. *)
Record result : Type := Result
  { index : nat; stop : nat; after : string; group1 : option string }.

(** One attempt at a fixed start position. *)
Definition matchAt (r : regex) (i : nat) (s : string) : option result :=
  match m r (MState i s None) Some with
  | Some st => Some (Result i (pos st) (rest st) (grp st))
  | None => None
  end.

(** Leftmost match: start positions are tried from the left. *)
Fixpoint search (r : regex) (i : nat) (s : string) : option result :=
  match matchAt r i s with
  | Some res => Some res
  | None =>
      match s with
      | String _ s' => search r (S i) s'
      | EmptyString => None
      end
  end.

(** [s.match(r)] / [r.exec(s)] for a pattern without the g or y flag. *)
Definition exec (r : regex) (s : string) : option result := search r 0 s.

(** [r.test(s)] for a pattern without the g or y flag. *)
Definition test (r : regex) (s : string) : bool :=
  match exec r s with Some _ => true | None => false end.

(** [s.replace(r, by)] for a pattern without the g flag and a replacement
    text without [$]: the first match is replaced. *)
Definition replace (r : regex) (by_ : string) (s : string) : string :=
  match exec r s with
  | Some res => take (index res) s +:+ by_ +:+ after res
  | None => s
  end.

(** [s.split(r)] for a pattern without capture groups, following
    RegExp.prototype[Symbol.split]: [cur] is the text between the end of
    the last separator (p) and the position under test (q);
    [q] is that position and [s] the input from there on. *)
Fixpoint splitLoop (r : regex) (fuel : nat) (cur : string) (q : nat)
  (s : string) : list string :=
  match fuel with
  | O => [cur +:+ s]
  | S fuel' =>
      match s with
      | EmptyString => [cur]
      | String c s' =>
          match matchAt r q s with
          | Some res =>
              if (stop res =? q) && negb (truthy cur)
              then splitLoop r fuel' (cur +:+ String c EmptyString) (S q) s'
              else cur :: splitLoop r fuel' EmptyString (stop res) (after res)
          | None => splitLoop r fuel' (cur +:+ String c EmptyString) (S q) s'
          end
      end
  end.

Definition split (r : regex) (s : string) : list string :=
  match s with
  | EmptyString =>
      match matchAt r 0 s with Some _ => [] | None => [s] end
  | _ => splitLoop r (2 * String.length s + 2) EmptyString 0 s
  end.

(** [st'] is reached from [st] by consuming input: the positions and the
    remaining lengths move together. *)
Definition advances (st st' : mstate) : Prop :=
  pos st' + String.length (rest st') = pos st + String.length (rest st) /\
  String.length (rest st') <= String.length (rest st).

(** A matcher is sound when every result comes from its continuation,
    called on a state that the input leads to. *)
Definition sound (ma : matcher) : Prop :=
  forall st k res,
    ma st k = Some res -> exists st', advances st st' /\ k st' = Some res.

(** A matcher is extensional when two continuations that agree everywhere
    give the same result. *)
Definition extensional (ma : matcher) : Prop :=
  forall st k k', (forall st', k st' = k' st') -> ma st k = ma st k'.

(** What bounds the number of rounds of [splitLoop]. *)
Definition splitMeasure (cur s : string) : nat :=
  2 * String.length s + (if truthy cur then 1 else 0).

(** [r1 r2 ... rn] and [r1|r2|...|rn] *)
Fixpoint seqs (rs : list regex) : regex :=
  match rs with
  | [] => Lit ""
  | [r] => r
  | r :: rs' => Seq r (seqs rs')
  end.

Fixpoint alts (rs : list regex) : regex :=
  match rs with
  | [] => Chr (COneOf [])
  | [r] => r
  | r :: rs' => Alt r (alts rs')
  end.

End Re.

(** ** Tool category taxonomy ([categories.ts]) *)

Definition TOOL_CATEGORIES : list (string * list string) :=
  [ ("CI/CD", ["github-actions"; "gitlab-ci"; "circleci"; "jenkins"; "travis-ci"; "drone"; "buildkite"; "woodpecker"]);
    ("Authentication", ["passport"; "jsonwebtoken"; "bcrypt"; "bcryptjs"; "jose"; "next-auth"; "clerk"; "auth0"; "firebase-auth"; "supabase-auth"; "lucia"; "arctic"; "oslo"; "better-auth"; "devise"; "authlib"]);
    ("State Management", ["zustand"; "redux"; "mobx"; "jotai"; "recoil"; "valtio"; "xstate"; "pinia"; "nanostores"; "effector"; "redux-toolkit"; "@reduxjs/toolkit"]);
    ("ORM/Database", ["prisma"; "drizzle"; "drizzle-orm"; "sequelize"; "typeorm"; "mongoose"; "knex"; "kysely"; "sqlalchemy"; "gorm"; "diesel"; "sea-orm"; "mikro-orm"; "objection"; "bookshelf"; "activerecord"]);
    ("UI Components", ["shadcn-ui"; "@shadcn/ui"; "material-ui"; "@mui/material"; "chakra-ui"; "@chakra-ui/react"; "ant-design"; "antd"; "radix-ui"; "@radix-ui/react-dialog"; "headless-ui"; "@headlessui/react"; "daisyui"; "mantine"; "@mantine/core"]);
    ("CSS/Styling", ["tailwindcss"; "styled-components"; "@emotion/react"; "emotion"; "sass"; "css-modules"; "vanilla-extract"; "linaria"; "stitches"; "unocss"; "windicss"]);
    ("Testing", ["jest"; "vitest"; "mocha"; "pytest"; "playwright"; "@playwright/test"; "cypress"; "testing-library"; "@testing-library/react"; "supertest"; "rspec"; "nock"; "msw"]);
    ("HTTP Client", ["axios"; "node-fetch"; "undici"; "got"; "ky"; "requests"; "httpx"; "reqwest"; "superagent"; "ofetch"]);
    ("Payments", ["stripe"; "@stripe/stripe-js"; "paypal"; "square"; "braintree"; "lemonsqueezy"; "@lemonsqueezy/lemonsqueezy.js"]);
    ("Deployment", ["vercel"; "railway"; "netlify"; "fly-io"; "render"; "cloudflare-pages"; "wrangler"; "docker"; "dockerfile"]);
    ("Observability", ["sentry"; "@sentry/node"; "datadog"; "dd-trace"; "pino"; "winston"; "opentelemetry"; "@opentelemetry/sdk-node"; "newrelic"; "bunyan"; "morgan"; "loglevel"]);
    ("Caching", ["redis"; "ioredis"; "memcached"; "keyv"; "node-cache"; "lru-cache"; "cacheable"; "catbox"]);
    ("Validation", ["zod"; "yup"; "joi"; "class-validator"; "ajv"; "valibot"; "typebox"; "@sinclair/typebox"; "superstruct"; "io-ts"]);
    ("API Framework", ["express"; "fastapi"; "hono"; "koa"; "fastify"; "nestjs"; "@nestjs/core"; "django"; "flask"; "gin"; "echo"; "fiber"; "actix-web"; "axum"; "chi"; "rails"; "sinatra"]);
    ("Real-time", ["socket.io"; "ws"; "pusher"; "ably"; "livekit"; "phoenix-channels"; "sockjs"; "engine.io"; "partykit"]);
    ("File Upload", ["multer"; "formidable"; "busboy"; "uploadthing"; "filepond"; "tus"; "uppy"]);
    ("Email", ["nodemailer"; "resend"; "@sendgrid/mail"; "sendgrid"; "ses"; "postmark"; "mailgun"; "react-email"]);
    ("Job Queue", ["bullmq"; "bull"; "celery"; "bee-queue"; "agenda"; "pg-boss"; "temporal"; "sidekiq"; "graphile-worker"]);
    ("Feature Flags", ["launchdarkly"; "unleash"; "flagsmith"; "growthbook"; "@growthbook/growthbook"; "flipt"; "posthog"]);
    ("Package Manager", ["npm"; "yarn"; "pnpm"; "bun"]) ].

(** A JavaScript [Map<string, string>]: entries in insertion order.
    [set] on a key that is present overwrites the value where the entry is;
    on a new key it appends. *)
Module JsMap.

Definition t : Type := list (string * string).

Fixpoint set (k v : string) (mp : t) : t :=
  match mp with
  | [] => [(k, v)]
  | (k', v') :: mp' =>
      if String.eqb k' k then (k', v) :: mp' else (k', v') :: set k v mp'
  end.

Fixpoint get (k : string) (mp : t) : option string :=
  match mp with
  | [] => None
  | (k', v') :: mp' => if String.eqb k' k then Some v' else get k mp'
  end.

End JsMap.

(** Reverse lookup, package name to category: the module-level loop
    [for ... of Object.entries(TOOL_CATEGORIES)) for (pkg of packages)
     _packageToCategory.set(pkg.toLowerCase(), category)]. *)
Definition _packageToCategory : JsMap.t :=
  fold_left
    (fun mp '(category, packages) =>
       fold_left (fun mp pkg => JsMap.set (toLowerCase pkg) category mp)
                 packages mp)
    TOOL_CATEGORIES [].

(** [/^@[^/]+\//] *)
Definition scopePrefix : Re.regex :=
  Re.Seq Re.Bol
    (Re.Seq (Re.Lit "@") (Re.Seq (Re.Plus (Re.Chr (Re.CNot "/"%char))) (Re.Lit "/"))).

(** The fuzzy loop [for (const [pkg, cat] of _packageToCategory.entries())]:
    the first entry for which one string contains the other. *)
Fixpoint fuzzy (name : string) (entries : JsMap.t) : option string :=
  match entries with
  | [] => None
  | (pkg, cat) :: entries' =>
      if includes (toLowerCase name) pkg || includes pkg (toLowerCase name)
      then Some cat
      else fuzzy name entries'
  end.

(** [if (x) return x] on the result of a [Map.get]: [undefined] and the
    empty string are falsy. *)
Definition truthyGet (o : option string) : option string :=
  match o with
  | Some c => if truthy c then Some c else None
  | None => None
  end.

(** [categorizePackage(name)]; [None] is [null]. *)
Definition categorizePackage (name : string) : option string :=
  match truthyGet (JsMap.get (toLowerCase name) _packageToCategory) with
  | Some direct => Some direct
  | None =>
      match
        (if startsWith name "@"
         then
           let withoutScope := Re.replace scopePrefix "" name in
           truthyGet (JsMap.get (toLowerCase withoutScope) _packageToCategory)
         else None)
      with
      | Some scopeless => Some scopeless
      | None => fuzzy name _packageToCategory
      end
  end.

(** [getCategories()] *)
Definition getCategories : list string := map fst TOOL_CATEGORIES.

(** ** Build-vs-buy detector ([build-vs-buy.ts]) *)

(** Modelled from the spec: the declaration of [RawEvent]
    ([collectors/types]) is not among the sources; the fields are the ones
    the data model lists, and the detector reads [action], [raw] and
    [result] only. *)
Record RawEvent : Type := mkRawEvent
  { eventId : string;
    sessionId : string;
    timestamp : Z;
    agent : string;
    action : string;
    raw : string;
    result : option string;
    exitCode : option Z;
    cwd : option string }.


Record CustomBuildEvent : Type := mkCustomBuildEvent
  { event : RawEvent;
    category : string;
    matchedKeywords : list string;
    confidence : Z }.

Definition DOMAIN_KEYWORDS : list (string * list string) :=
  [ ("Authentication", ["jwt"; "jsonwebtoken"; "bcrypt"; "hash-password"; "hashPassword"; "verifyToken"; "signToken"; "auth-middleware"; "authMiddleware"; "login"; "session-token"]);
    ("Caching", ["cache"; "ttl"; "lru"; "memoize"; "invalidate-cache"; "cacheKey"; "cache-control"; "redis-client"]);
    ("Validation", ["validate"; "schema"; "sanitize"; "parse-input"; "validateInput"; "validateBody"; "field-validation"]);
    ("Feature Flags", ["feature-flag"; "featureFlag"; "isEnabled"; "toggle"; "feature-toggle"; "flagEnabled"]);
    ("Job Queue", ["job-queue"; "jobQueue"; "enqueue"; "dequeue"; "worker"; "processJob"; "schedule-job"]);
    ("Real-time", ["websocket"; "ws-server"; "socket"; "onMessage"; "broadcast"; "pubsub"; "subscribe"]);
    ("Email", ["send-email"; "sendEmail"; "smtp"; "mailer"; "email-template"; "transporter"]);
    ("File Upload", ["upload"; "multipart"; "file-upload"; "handleUpload"; "parseFile"]);
    ("HTTP Client", ["http-client"; "httpClient"; "fetchWrapper"; "apiClient"; "request-wrapper"]);
    ("Observability", ["logger"; "log-level"; "logLevel"; "structured-log"; "tracing"; "metrics"; "instrumenting"]) ].

(** [/text$/] and [/text/] *)
Definition atEnd (s : string) : Re.regex := Re.Seq (Re.Lit s) Re.Eol.
Definition anywhere (s : string) : Re.regex := Re.Lit s.

Definition DOMAIN_FILE_PATTERNS : list (string * list Re.regex) :=
  [ ("Authentication", [atEnd "auth.ts"; atEnd "auth.js"; anywhere "middleware/auth"; anywhere "lib/auth"; anywhere "utils/auth"; anywhere "helpers/auth"]);
    ("Caching", [atEnd "cache.ts"; atEnd "cache.js"; anywhere "lib/cache"; anywhere "utils/cache"]);
    ("Validation", [atEnd "validator.ts"; atEnd "validator.js"; atEnd "validation.ts"; atEnd "validation.js"; anywhere "lib/validate"]);
    ("Feature Flags", [anywhere "feature-flag"; anywhere "featureFlag"; atEnd "flags.ts"; atEnd "flags.js"]);
    ("Job Queue", [atEnd "queue.ts"; atEnd "queue.js"; atEnd "worker.ts"; atEnd "worker.js"; anywhere "lib/queue"]);
    ("Real-time", [anywhere "websocket"; atEnd "socket.ts"; atEnd "socket.js"; anywhere "ws-server"]);
    ("Email", [atEnd "mailer.ts"; atEnd "mailer.js"; atEnd "email.ts"; atEnd "email.js"; anywhere "lib/mail"]);
    ("File Upload", [atEnd "upload.ts"; atEnd "upload.js"; anywhere "lib/upload"; anywhere "middleware/upload"]);
    ("Observability", [atEnd "logger.ts"; atEnd "logger.js"; anywhere "lib/logger"; anywhere "utils/logger"]) ].

(** *** [extractPackageNames] *)

Definition ws1 : Re.regex := Re.Plus (Re.Chr Re.CSpace).         (* \s+ *)
Definition capture_rest : Re.regex := Re.Group (Re.Plus (Re.Chr Re.CAny)). (* (.+) *)

Definition installPatterns : list Re.regex :=
  [ (* /(?:npm|yarn|pnpm|bun)\s+(?:install|add|i)\s+(?:--[^\s]+\s+)*(.+)/ *)
    Re.seqs [ Re.alts [Re.Lit "npm"; Re.Lit "yarn"; Re.Lit "pnpm"; Re.Lit "bun"]; ws1;
              Re.alts [Re.Lit "install"; Re.Lit "add"; Re.Lit "i"]; ws1;
              Re.Star (Re.seqs [Re.Lit "--"; Re.Plus (Re.Chr Re.CNotSpace); ws1]);
              capture_rest ];
    (* /pip3?\s+install\s+(.+)/ *)
    Re.seqs [Re.Lit "pip"; Re.Opt (Re.Lit "3"); ws1; Re.Lit "install"; ws1; capture_rest];
    (* /cargo\s+add\s+(.+)/ *)
    Re.seqs [Re.Lit "cargo"; ws1; Re.Lit "add"; ws1; capture_rest];
    (* /go\s+get\s+(.+)/ *)
    Re.seqs [Re.Lit "go"; ws1; Re.Lit "get"; ws1; capture_rest];
    (* /gem\s+install\s+(.+)/ *)
    Re.seqs [Re.Lit "gem"; ws1; Re.Lit "install"; ws1; capture_rest] ].

(** [/@[^/].*$/] *)
Definition versionSuffix : Re.regex :=
  Re.seqs [Re.Lit "@"; Re.Chr (Re.CNot "/"%char); Re.Star (Re.Chr Re.CAny); Re.Eol].

(** [match?.[1]] when it is truthy *)
Definition truthyGroup1 (mt : option Re.result) : option string :=
  match mt with
  | Some res => truthyGet (Re.group1 res)
  | None => None
  end.

(** The loop over [installPatterns]: the first pattern with a truthy
    group 1 decides. *)
Fixpoint extractFrom (patterns : list Re.regex) (command : string) : list string :=
  match patterns with
  | [] => []
  | pattern :: patterns' =>
      match truthyGroup1 (Re.exec pattern command) with
      | Some g =>
          map (fun p => Re.replace versionSuffix "" p)
              (List.filter (fun p => negb (startsWith p "-")) (Re.split ws1 g))
      | None => extractFrom patterns' command
      end
  end.

Definition extractPackageNames (command : string) : list string :=
  extractFrom installPatterns command.

(** *** [detectCustomImplementation] *)

(** The key [`__cat__${category}`] of the [installedPackages] set. *)
Definition catKey (category : string) : string := "__cat__" +:+ category.

(** Whether a string holds one of the letters A-Z. *)
Fixpoint hasCapital (s : string) : bool :=
  match s with
  | EmptyString => false
  | String c s' => ((65 <=? code c) && (code c <=? 90)) || hasCapital s'
  end.

(** Body of the inner loop [for (const pkg of pkgs)]. *)
Definition addPackage (installedPackages : gset string) (pkg : string) : gset string :=
  let installedPackages := installedPackages ∪ {[ toLowerCase pkg ]} in
  match truthyGet (categorizePackage pkg) with
  | Some cat => installedPackages ∪ {[ catKey cat ]}
  | None => installedPackages
  end.

(** Body of the first loop over the events. *)
Definition addEvent (installedPackages : gset string) (ev : RawEvent) : gset string :=
  if String.eqb (action ev) "bash"
  then fold_left addPackage (extractPackageNames (raw ev)) installedPackages
  else installedPackages.

Definition collectInstalled (events : list RawEvent) : gset string :=
  fold_left addEvent events ∅.

(** [installedPackages.has(key)] *)
Definition has (installedPackages : gset string) (key : string) : bool :=
  bool_decide (key ∈ installedPackages).

(** An element of the local [detections] array. *)
Record Detection : Type := mkDetection
  { d_category : string; d_keywords : list string; d_confidence : Z }.

(** [for (const pattern of patterns) if (pattern.test(filePath)) {...; break}]:
    whether the loop reaches its [push]. *)
Fixpoint firstPatternHit (patterns : list Re.regex) (filePath : string) : bool :=
  match patterns with
  | [] => false
  | pattern :: patterns' =>
      if Re.test pattern filePath then true else firstPatternHit patterns' filePath
  end.

(** Body of the loop over [Object.entries(DOMAIN_FILE_PATTERNS)]. *)
Definition pathStep (installedPackages : gset string) (filePath : string)
  (detections : list Detection) (entry : string * list Re.regex) : list Detection :=
  let '(category, patterns) := entry in
  if has installedPackages (catKey category) then detections
  else if firstPatternHit patterns filePath
       then detections ++ [mkDetection category [filePath] 60]
       else detections.

(** [keywords.filter(kw => content.toLowerCase().includes(kw.toLowerCase()))] *)
Definition matchedKeywordsOf (content : string) (keywords : list string) : list string :=
  List.filter (fun kw => includes (toLowerCase content) (toLowerCase kw)) keywords.

(** [existing.keywords.push(...matched); existing.confidence =
    Math.min(95, existing.confidence + matched.length * 10)] *)
Definition merged (matched : list string) (d : Detection) : Detection :=
  mkDetection (d_category d) (d_keywords d ++ matched)
    (Z.min 95 (d_confidence d + Z.of_nat (length matched) * 10)).

(** [detections.find(d => d.category === category)] followed by the update
    of the element found, in place; [None] when [find] returns
    [undefined]. *)
Fixpoint mergeExisting (category : string) (matched : list string)
  (detections : list Detection) : option (list Detection) :=
  match detections with
  | [] => None
  | d :: ds =>
      if String.eqb (d_category d) category
      then Some (merged matched d :: ds)
      else option_map (cons d) (mergeExisting category matched ds)
  end.

(** Body of the loop over [Object.entries(DOMAIN_KEYWORDS)]. *)
Definition keywordStep (installedPackages : gset string) (content : string)
  (detections : list Detection) (entry : string * list string) : list Detection :=
  let '(category, keywords) := entry in
  if has installedPackages (catKey category) then detections
  else
    let matched := matchedKeywordsOf content keywords in
    if 2 <=? length matched
    then match mergeExisting category matched detections with
         | Some detections' => detections'
         | None =>
             detections ++
               [mkDetection category matched (40 + Z.of_nat (length matched) * 10)]
         end
    else detections.

(** The [detections] array after the loop over the path patterns. *)
Definition pathDetections (installedPackages : gset string) (filePath : string)
  : list Detection :=
  fold_left (pathStep installedPackages filePath) DOMAIN_FILE_PATTERNS [].

(** The [detections] array of one [file_write] event. *)
Definition detectionsOf (installedPackages : gset string) (ev : RawEvent) : list Detection :=
  let filePath := raw ev in
  let content := match result ev with Some r => r | None => "" end in
  let detections := pathDetections installedPackages filePath in
  fold_left (keywordStep installedPackages content) DOMAIN_KEYWORDS detections.

(** The object pushed on [results] for one detection. *)
Definition customBuildOf (ev : RawEvent) (detection : Detection) : CustomBuildEvent :=
  mkCustomBuildEvent ev (d_category detection) (d_keywords detection)
    (d_confidence detection).

(** Body of the second loop over the events. *)
Definition detectStep (installedPackages : gset string)
  (results : list CustomBuildEvent) (ev : RawEvent) : list CustomBuildEvent :=
  if negb (String.eqb (action ev) "file_write") then results
  else results ++ map (customBuildOf ev) (detectionsOf installedPackages ev).

Definition detectCustomImplementation (events : list RawEvent) : list CustomBuildEvent :=
  let installedPackages := collectInstalled events in
  fold_left (detectStep installedPackages) events [].

(** What one event contributes to the result, and the detections of one
    category in a [detections] array. *)
Definition resultsOf (installedPackages : gset string) (ev : RawEvent)
  : list CustomBuildEvent :=
  if String.eqb (action ev) "file_write"
  then map (customBuildOf ev) (detectionsOf installedPackages ev)
  else [].

Definition forCategory (cat : string) (detections : list Detection) : list Detection :=
  List.filter (fun d => String.eqb (d_category d) cat) detections.

(** *** [getBuildVsBuySummary] *)

(** JavaScript numbers where the program divides: IEEE binary64. *)
Module Number.

Definition prec : Z := 53.
Definition emax : Z := 1024.

(** The Number value of an integer. *)
Definition ofZ (z : Z) : spec_float := binary_normalize prec emax z 0 false.
Definition ofNat (n : nat) : spec_float := ofZ (Z.of_nat n).

Definition div (x y : spec_float) : spec_float := SFdiv prec emax x y.
Definition mul (x y : spec_float) : spec_float := SFmul prec emax x y.

(** [Math.round]: the closest integer, a tie going towards +infinity; a
    result of zero keeps the sign of the argument. *)
Definition round (x : spec_float) : spec_float :=
  match x with
  | S754_finite sg mant e =>
      if (0 <=? e)%Z then x
      else
        let v := if sg then Z.neg mant else Z.pos mant in
        let n := ((2 * v + 2 ^ (- e)) / 2 ^ (1 - e))%Z in
        if (n =? 0)%Z then S754_zero sg else ofZ n
  | _ => x
  end.

End Number.

(** An element of [installEvents]: both fields are optional. *)
Record InstallEvent : Type := mkInstallEvent
  { i_packageName : option string; i_category : option string }.

(** An element of the summary. *)
Record SummaryRow : Type := mkSummaryRow
  { s_category : string;
    installCount : nat;
    customBuildCount : nat;
    customBuildPct : spec_float }.

(** [customBuilds.filter(b => b.category === category).length] *)
Definition customCountOf (customBuilds : list CustomBuildEvent) (cat : string) : nat :=
  length (List.filter (fun b => String.eqb (category b) cat) customBuilds).

(** The predicate of [installEvents.filter(e => ...)]. *)
Definition countsAsInstall (cat : string) (e : InstallEvent) : bool :=
  if (match i_category e with Some c => String.eqb c cat | None => false end)
  then true
  else match i_packageName e with
       | Some p =>
           if truthy p
           then match categorizePackage p with
                | Some c => String.eqb c cat
                | None => false
                end
           else false
       | None => false
       end.

Definition instCountOf (installEvents : list InstallEvent) (cat : string) : nat :=
  length (List.filter (countsAsInstall cat) installEvents).

(** [Math.round((customCount / total) * 10000) / 100] *)
Definition pctOf (customCount total : nat) : spec_float :=
  Number.div
    (Number.round
       (Number.mul (Number.div (Number.ofNat customCount) (Number.ofNat total))
                   (Number.ofZ 10000)))
    (Number.ofZ 100).

(** Body of the loop over the categories. *)
Definition summaryStep (customBuilds : list CustomBuildEvent)
  (installEvents : list InstallEvent) (summary : list SummaryRow) (cat : string)
  : list SummaryRow :=
  let customCount := customCountOf customBuilds cat in
  let instCount := instCountOf installEvents cat in
  let total := instCount + customCount in
  if total =? 0 then summary
  else summary ++ [mkSummaryRow cat instCount customCount (pctOf customCount total)].

Definition totalOf (r : SummaryRow) : nat := installCount r + customBuildCount r.


(** The row the loop pushes for a category. *)
Definition rowFor (customBuilds : list CustomBuildEvent)
  (installEvents : list InstallEvent) (cat : string) : SummaryRow :=
  mkSummaryRow cat (instCountOf installEvents cat) (customCountOf customBuilds cat)
    (pctOf (customCountOf customBuilds cat)
           (instCountOf installEvents cat + customCountOf customBuilds cat)).

(** [summary.sort((a, b) => total(b) - total(a))].  [Array.prototype.sort]
    is stable, and every stable sort returns the same array for this
    comparator; insertion from the right is one. *)
Fixpoint insertRow (x : SummaryRow) (l : list SummaryRow) : list SummaryRow :=
  match l with
  | [] => [x]
  | y :: l' => if totalOf y <=? totalOf x then x :: l else y :: insertRow x l'
  end.

Fixpoint sortRows (l : list SummaryRow) : list SummaryRow :=
  match l with
  | [] => []
  | x :: l' => insertRow x (sortRows l')
  end.

Definition getBuildVsBuySummary (customBuilds : list CustomBuildEvent)
  (installEvents : list InstallEvent) : list SummaryRow :=
  let categories := map fst TOOL_CATEGORIES in
  sortRows (fold_left (summaryStep customBuilds installEvents) categories []).

(** ** The install hook (PreToolUse) *)

Module Hook.

(** A value produced by [JSON.parse]. *)
Inductive json : Type :=
| JNull
| JBool (b : bool)
| JNum (z : Z)
| JStr (s : string)
| JArr (items : list json)
| JObj (fields : list (string * json)).

(** A JavaScript value read from such a value: [None] is [undefined]. *)
Definition value : Type := option json.

Definition truthyValue (v : value) : bool :=
  match v with
  | None | Some JNull | Some (JBool false) => false
  | Some (JNum z) => negb (z =? 0)%Z
  | Some (JStr s) => truthy s
  | Some _ => true
  end.

Fixpoint lookupField (k : string) (fields : list (string * json)) : value :=
  match fields with
  | [] => None
  | (k', v) :: fields' => if String.eqb k' k then Some v else lookupField k fields'
  end.

(** How a computation ends: with a value, with an exception, or with
    [process.exit(code)], which no [catch] intercepts. *)
Inductive outcome (A : Type) : Type :=
| Ret (a : A)
| Throw
| Exit (code : Z).
Arguments Ret {A} a.
Arguments Throw {A}.
Arguments Exit {A} code.

(** A file, seen through [JSON.parse(fs.readFileSync(path))]: text that
    does not parse, or the value it parses to.  [JSON.stringify] followed
    by [JSON.parse] gives the value back. *)
Inductive file : Type :=
| Unparsable
| Json (j : json).

(** The files under the temporary directory, by path. *)
Abbreviation files := (gmap string file).

(** Computations over the files. *)
Definition M (A : Type) : Type := files -> outcome A * files.

Definition ret {A} (a : A) : M A := fun fs => (Ret a, fs).
Definition throw {A} : M A := fun fs => (Throw, fs).
Definition exit {A} (code : Z) : M A := fun fs => (Exit code, fs).
Definition lift {A} (o : outcome A) : M A := fun fs => (o, fs).

Definition bind {A B} (c : M A) (k : A -> M B) : M B :=
  fun fs =>
    match c fs with
    | (Ret a, fs') => k a fs'
    | (Throw, fs') => (Throw, fs')
    | (Exit code, fs') => (Exit code, fs')
    end.

(** [try { c } catch { h }] *)
Definition tryCatch {A} (c : M A) (h : M A) : M A :=
  fun fs =>
    match c fs with
    | (Throw, fs') => h fs'
    | r => r
    end.

Notation "'let!' x ':=' c 'in' k" := (bind c (fun x => k))
  (at level 10, x name, c at level 100, k at level 200).
Notation "c '>>' k" := (bind c (fun _ => k))
  (at level 100, k at level 200, right associativity).

(** [v.name]: reading a property of [null] throws; on a value that is not
    an object the property is [undefined]. *)
Definition getProp (v : json) (name : string) : outcome value :=
  match v with
  | JNull => Throw
  | JObj fields => Ret (lookupField name fields)
  | _ => Ret None
  end.

(** [v?.name] *)
Definition getPropOpt (v : value) (name : string) : outcome value :=
  match v with
  | None | Some JNull => Ret None
  | Some j => getProp j name
  end.

(** [s.trim()] *)
Fixpoint trimStart (s : string) : string :=
  match s with
  | String c s' => if Re.isSpace c then trimStart s' else s
  | EmptyString => s
  end.

Fixpoint trimEnd (s : string) : string :=
  match s with
  | EmptyString => EmptyString
  | String c s' =>
      match trimEnd s' with
      | EmptyString => if Re.isSpace c then EmptyString else String c EmptyString
      | t => String c t
      end
  end.

Definition trim (s : string) : string := trimEnd (trimStart s).

(** [/@[\^~]?[\d].*$/] *)
Definition versionRange : Re.regex :=
  Re.seqs [Re.Lit "@"; Re.Opt (Re.Chr (Re.COneOf ["^"%char; "~"%char]));
           Re.Chr Re.CDigit; Re.Star (Re.Chr Re.CAny); Re.Eol].

Record SightglassHookConfig : Type := mkConfig { apiUrl : string; apiKey : string }.

Record InstallMatch : Type := mkInstallMatch
  { packageName : string; packageManager : string }.

(** The fields of [EvaluationResponse] the exit code depends on. *)
Record EvaluationResponse : Type := mkEvaluation
  { verdict : string; status : string }.

(** What [response.json()] does, and what [fetch] does: the promise is
    rejected (network error, or the abort after 15 s), or it resolves. *)
Inductive bodyOutcome : Type :=
| BodyRejects
| Body (evaluation : EvaluationResponse).

Inductive fetchOutcome : Type :=
| FetchRejects
| Response (ok : bool) (body : bodyOutcome).

(** What the hook reads from standard input. *)
Inductive stdinOutcome : Type :=
| Unreadable            (* [fs.readFileSync(0)] throws *)
| NotJson               (* [JSON.parse(input)] throws *)
| Parsed (hookData : json).

(** The world outside of one run of the hook. *)
Record Env : Type := mkEnv
  { stdin : stdinOutcome;
    config : option SightglassHookConfig;      (* [loadConfig()] *)
    fetch : SightglassHookConfig -> InstallMatch -> string -> fetchOutcome;
    writable : bool }.                         (* [fs.writeFileSync] succeeds *)

(** Modelled from the spec: [INSTALL_PATTERNS] ([classifiers/types]) is not
    among the sources (a per-package-manager set of install-command
    patterns).  A pattern is taken through [command.match(pattern)].
    [digest12] is the first 12 hex digits of SHA-256 and [tmpdir] is
    [os.tmpdir()]. *)
Class Platform : Type := mkPlatform
  { INSTALL_PATTERNS : list (string * list (string -> option Re.result));
    digest12 : string -> string;
    tmpdir : string }.

Section Definitions.
Context `{Platform}.

(** [getSessionId]: hashing a value that is not a string throws. *)
Definition getSessionId (hookData : json) : outcome string :=
  match getProp hookData "session_id" with
  | Ret v =>
      if truthyValue v
      then match v with
           | Some (JStr raw) => Ret (digest12 raw)
           | _ => Throw
           end
      else Ret (digest12 "unknown")
  | Throw => Throw
  | Exit c => Exit c
  end.

Definition getAllowedPath (sessionId : string) : string :=
  tmpdir +:+ "/sightglass-allowed-" +:+ sessionId +:+ ".json".

(** [data.includes(x)] for a string [x] *)
Definition arrayIncludes (data : list json) (x : string) : bool :=
  existsb (fun j => match j with JStr s => String.eqb s x | _ => false end) data.

Definition isAlreadyAllowed (sessionId packageName : string) : M bool :=
  fun fs =>
    match fs !! getAllowedPath sessionId with
    | Some (Json (JArr data)) => (Ret (arrayIncludes data (toLowerCase packageName)), fs)
    | _ => (Ret false, fs)
    end.

Definition markAllowed (writable : bool) (sessionId packageName : string) : M unit :=
  fun fs =>
    let filePath := getAllowedPath sessionId in
    let existing :=
      match fs !! filePath with
      | Some (Json (JArr data)) => data
      | _ => []
      end in
    let existing := existing ++ [JStr (toLowerCase packageName)] in
    if writable
    then (Ret tt, <[filePath := Json (JArr existing)]> fs)
    else (Throw, fs).

(** The body of the inner loop of [matchInstallCommand] for one pattern;
    [None] when the loop goes on. *)
Definition matchOne (manager : string) (pattern : string -> option Re.result)
  (command : string) : option InstallMatch :=
  match truthyGroup1 (pattern command) with
  | Some g =>
      let raw := trim g in
      let parts := List.filter (fun p => negb (startsWith p "-")) (Re.split ws1 raw) in
      match parts with
      | packageName :: _ =>
          if truthy packageName
          then Some (mkInstallMatch (Re.replace versionRange "" packageName) manager)
          else None
      | [] => None
      end
  | None => None
  end.

Fixpoint matchPatterns (manager : string) (patterns : list (string -> option Re.result))
  (command : string) : option InstallMatch :=
  match patterns with
  | [] => None
  | pattern :: patterns' =>
      match matchOne manager pattern command with
      | Some r => Some r
      | None => matchPatterns manager patterns' command
      end
  end.

Fixpoint matchManagers (table : list (string * list (string -> option Re.result)))
  (command : string) : option InstallMatch :=
  match table with
  | [] => None
  | (manager, patterns) :: table' =>
      match matchPatterns manager patterns command with
      | Some r => Some r
      | None => matchManagers table' command
      end
  end.

Definition matchInstallCommand (command : string) : option InstallMatch :=
  matchManagers INSTALL_PATTERNS command.

(** [matchInstallCommand(command)] as [main] calls it, on a truthy value
    that need not be a string: [command.match] is not a function then, and
    the call throws as soon as a pattern is tried. *)
Definition callMatchInstallCommand (command : json) : outcome (option InstallMatch) :=
  match command with
  | JStr c => Ret (matchInstallCommand c)
  | _ =>
      if existsb (fun '(_, patterns) => negb (Nat.eqb (length patterns) 0)) INSTALL_PATTERNS
      then Throw
      else Ret None
  end.

(** The [try] block around the API call.  [logDecision] catches every
    error of its own and writes a file that the hook never reads, and the
    card written to standard output has no part in the exit code: both are
    left out, here and in [main]. *)
Definition evaluate (env : Env) (cfg : SightglassHookConfig) (im : InstallMatch)
  (command sessionId : string) : M unit :=
  match fetch env cfg im command with
  | FetchRejects => throw
  | Response ok body =>
      if ok
      then match body with
           | BodyRejects => throw
           | Body evaluation =>
               if String.eqb (verdict evaluation) "PROCEED"
               then exit 0%Z
               else markAllowed (writable env) sessionId (packageName im) >>
                    exit 2%Z
           end
      else ret tt
  end.

Definition main (env : Env) : M unit :=
  let! hookData := (match stdin env with
                    | Unreadable => exit 0%Z
                    | NotJson => exit 0%Z
                    | Parsed j => ret j
                    end) in
  let! tool_name := lift (getProp hookData "tool_name") in
  if negb (match tool_name with Some (JStr t) => String.eqb t "Bash" | _ => false end)
  then exit 0%Z
  else
    let! toolInput := lift (getProp hookData "tool_input") in
    let! command := lift (getPropOpt toolInput "command") in
    if negb (truthyValue command) then exit 0%Z
    else
      let! installMatch := lift (match command with
                                 | Some c => callMatchInstallCommand c
                                 | None => Ret None
                                 end) in
      match installMatch with
      | None => exit 0%Z
      | Some im =>
          let! sessionId := lift (getSessionId hookData) in
          let! allowed := isAlreadyAllowed sessionId (packageName im) in
          if allowed then exit 0%Z
          else
            (match config env with
             | Some cfg =>
                 tryCatch
                   (evaluate env cfg im
                      (match command with Some (JStr c) => c | _ => "" end)
                      sessionId)
                   (ret tt)
             | None => ret tt
             end) >>
            exit 0%Z
      end.

(** One run of the hook, [main().catch(() => process.exit(0))]: the exit
    code and the files it leaves. *)
Definition run (env : Env) (fs : files) : Z * files :=
  match main env fs with
  | (Exit code, fs') => (code, fs')
  | (Throw, fs') => (0%Z, fs')
  | (Ret _, fs') => (0%Z, fs')
  end.

(** [hookData.tool_input?.command] as [main] reads it. *)
Definition commandValue (hookData : json) : outcome value :=
  match getProp hookData "tool_input" with
  | Ret toolInput => getPropOpt toolInput "command"
  | Throw => Throw
  | Exit code => Exit code
  end.


(** The input of the run is an attempt to install [name] in the session
    whose identifier hashes to [sessionId]: this is how far [main] gets
    before it asks [isAlreadyAllowed]. *)
Definition attempt (env : Env) (sessionId name : string) : Prop :=
  exists hookData command im,
    stdin env = Parsed hookData /\
    getProp hookData "tool_name" = Ret (Some (JStr "Bash")) /\
    commandValue hookData = Ret (Some (JStr command)) /\
    truthy command = true /\
    matchInstallCommand command = Some im /\
    getSessionId hookData = Ret sessionId /\
    packageName im = name.


End Definitions.

(** A platform to run the hook on: one npm pattern, the first of
    [extractPackageNames]; the digest is a stand-in. *)
Definition examplePlatform : Platform :=
  mkPlatform
    [("npm", [Re.exec (Re.seqs [Re.Lit "npm"; ws1; Re.Lit "install"; ws1; capture_rest])])]
    (fun raw => take 12 raw)
    "/tmp".

Definition exampleInput (command : string) : json :=
  JObj [("session_id", JStr "session-1"); ("tool_name", JStr "Bash");
        ("tool_input", JObj [("command", JStr command)])].

Definition exampleEnv (command : string) (v : string) : Env :=
  mkEnv (Parsed (exampleInput command))
        (Some (mkConfig "https://api.example" "key"))
        (fun _ _ _ => Response true (Body (mkEvaluation v "deprecated")))
        true.

End Hook.

(** ** Regular-expression objects

    The path patterns of the detector are [RegExp] objects created once,
    when the module is loaded, and shared by every call.  A [RegExp] object
    carries [lastIndex], which [test] reads and writes when the g or the y
    flag is set.  This section runs the detector on the objects, to show
    what state survives a call. *)

Module Objects.

Record RegExp : Type := mkRegExp
  { source : Re.regex; global : bool; sticky : bool; lastIndex : nat }.

Definition setLastIndex (r : RegExp) (i : nat) : RegExp :=
  mkRegExp (source r) (global r) (sticky r) i.

(** [r.test(s)] (RegExpBuiltinExec). *)
Definition test (r : RegExp) (s : string) : bool * RegExp :=
  if global r || sticky r
  then
    if String.length s <? lastIndex r then (false, setLastIndex r 0)
    else
      let tail := drop (lastIndex r) s in
      match (if sticky r
             then Re.matchAt (source r) (lastIndex r) tail
             else Re.search (source r) (lastIndex r) tail) with
      | Some res => (true, setLastIndex r (Re.stop res))
      | None => (false, setLastIndex r 0)
      end
  else (Re.test (source r) s, r).

(** [/.../] without flags *)
Definition literal (r : Re.regex) : RegExp := mkRegExp r false false 0.

Definition table : Type := list (string * list RegExp).

(** The objects of [DOMAIN_FILE_PATTERNS] when the module has been loaded. *)
Definition loaded : table :=
  map (fun '(category, patterns) => (category, map literal patterns))
      DOMAIN_FILE_PATTERNS.

Fixpoint firstPatternHit (patterns : list RegExp) (filePath : string)
  : bool * list RegExp :=
  match patterns with
  | [] => (false, [])
  | pattern :: patterns' =>
      let '(hit, pattern') := test pattern filePath in
      if hit then (true, pattern' :: patterns')
      else
        let '(hit', patterns'') := firstPatternHit patterns' filePath in
        (hit', pattern' :: patterns'')
  end.

Fixpoint pathLoop (installedPackages : gset string) (filePath : string)
  (tbl : table) (detections : list Detection) : list Detection * table :=
  match tbl with
  | [] => (detections, [])
  | (category, patterns) :: tbl' =>
      if has installedPackages (catKey category)
      then
        let '(ds, t) := pathLoop installedPackages filePath tbl' detections in
        (ds, (category, patterns) :: t)
      else
        let '(hit, patterns') := firstPatternHit patterns filePath in
        let detections' :=
          if hit then detections ++ [mkDetection category [filePath] 60]
          else detections in
        let '(ds, t) := pathLoop installedPackages filePath tbl' detections' in
        (ds, (category, patterns') :: t)
  end.

Definition detectionsOf (installedPackages : gset string) (ev : RawEvent)
  (tbl : table) : list Detection * table :=
  let filePath := raw ev in
  let content := match result ev with Some r => r | None => "" end in
  let '(detections, tbl') := pathLoop installedPackages filePath tbl [] in
  (fold_left (keywordStep installedPackages content) DOMAIN_KEYWORDS detections, tbl').

Fixpoint detectLoop (installedPackages : gset string) (events : list RawEvent)
  (results : list CustomBuildEvent) (tbl : table) : list CustomBuildEvent * table :=
  match events with
  | [] => (results, tbl)
  | ev :: events' =>
      if negb (String.eqb (action ev) "file_write")
      then detectLoop installedPackages events' results tbl
      else
        let '(detections, tbl') := detectionsOf installedPackages ev tbl in
        detectLoop installedPackages events'
          (results ++ map (customBuildOf ev) detections)
          tbl'
  end.

(** One call of [detectCustomImplementation] on the objects [tbl]: the
    array it returns and the objects as it leaves them. *)
Definition detectCustomImplementation (tbl : table) (events : list RawEvent)
  : list CustomBuildEvent * table :=
  detectLoop (collectInstalled events) events [] tbl.

Definition flagless (tbl : table) : Prop :=
  Forall (fun entry => Forall (fun r => global r = false /\ sticky r = false) (snd entry)) tbl.

Definition sources (tbl : table) : list (string * list Re.regex) :=
  map (fun '(category, patterns) => (category, map source patterns)) tbl.

End Objects.

(** ** The categorizer as the specification words it

    Section 4.1: exact case-insensitive match against the reverse index;
    else, for a name of the form [@scope/pkg], the same match on [pkg];
    else the first known package, in taxonomy order, such that one of the
    two names contains the other, case-insensitively. *)

Module CategorizerSpec.

(** The reverse index in taxonomy iteration order. *)
Definition reverseIndex : list (string * string) :=
  flat_map (fun '(category, packages) => map (fun pkg => (pkg, category)) packages)
           TOOL_CATEGORIES.

Definition exact (name : string) : option string :=
  option_map snd
    (find (fun '(pkg, _) => String.eqb (toLowerCase pkg) (toLowerCase name))
          reverseIndex).

(** The text after the first [/] *)
Fixpoint afterSlash (s : string) : option string :=
  match s with
  | EmptyString => None
  | String c s' => if Ascii.eqb c "/" then Some s' else afterSlash s'
  end.

(** [Some pkg] when the name reads [@scope/pkg] with a scope that is not
    empty. *)
Definition scoped (name : string) : option string :=
  match name with
  | String "@" (String c s') => if Ascii.eqb c "/" then None else afterSlash s'
  | _ => None
  end.

Definition contains (a b : string) : bool :=
  includes (toLowerCase a) (toLowerCase b).

Definition fuzzyMatch (name : string) : option string :=
  option_map snd
    (find (fun '(pkg, _) => contains name pkg || contains pkg name) reverseIndex).

Definition categorize (name : string) : option string :=
  match exact name with
  | Some c => Some c
  | None =>
      match (match scoped name with Some pkg => exact pkg | None => None end) with
      | Some c => Some c
      | None => fuzzyMatch name
      end
  end.

End CategorizerSpec.

(** ** More of the taxonomy ([categories.ts]) *)

(** The names that every object inherits from [Object.prototype]: a lookup
    [TOOL_CATEGORIES[category]] with one of them finds the inherited member,
    not [undefined]. *)
Definition objectPrototypeNames : list string :=
  [ "constructor"; "__defineGetter__"; "__defineSetter__"; "hasOwnProperty";
    "__lookupGetter__"; "__lookupSetter__"; "isPrototypeOf";
    "propertyIsEnumerable"; "toString"; "valueOf"; "__proto__"; "toLocaleString" ].

(** What [getCategoryPackages] returns: an array of package names, or a
    member inherited from [Object.prototype]. *)
Inductive packagesResult : Type :=
| Packages (packages : list string)
| Inherited.

(** An own property of the object literal [TOOL_CATEGORIES]. *)
Fixpoint ownCategory (key : string) (table : list (string * list string))
  : option (list string) :=
  match table with
  | [] => None
  | (category, packages) :: table' =>
      if String.eqb category key then Some packages else ownCategory key table'
  end.

(** [getCategoryPackages(category)]: [TOOL_CATEGORIES[category] ?? []] *)
Definition getCategoryPackages (category : string) : packagesResult :=
  match ownCategory category TOOL_CATEGORIES with
  | Some packages => Packages packages
  | None =>
      if existsb (String.eqb category) objectPrototypeNames
      then Inherited
      else Packages []
  end.

(** ** What the detector reads of an event *)

(** [event.result ?? ''] *)
Definition contentOf (ev : RawEvent) : string :=
  match result ev with Some r => r | None => "" end.

(** The two actions the loops of [detectCustomImplementation] test for. *)
Definition relevant (ev : RawEvent) : bool :=
  String.eqb (action ev) "bash" || String.eqb (action ev) "file_write".

(** Two events the detector cannot tell apart: same action, same [raw],
    same content up to letter case. *)
Definition sameForDetector (e1 e2 : RawEvent) : Prop :=
  action e1 = action e2 /\ raw e1 = raw e2 /\
  toLowerCase (contentOf e1) = toLowerCase (contentOf e2).

(** A result without its event. *)
Definition finding (b : CustomBuildEvent) : string * list string * Z :=
  (category b, matchedKeywords b, confidence b).


(** ** The hook with its evaluation card, and its session files over
    several runs

    Between [markAllowed] and [process.exit(2)] the hook formats the
    evaluation card.  [formatEvaluationCard] reads
    [evaluation.cves.length]: on a response body without [cves] it throws,
    inside the [try] block of the API call, and the hook goes on to
    [process.exit(0)].  Here [main] is taken up again with that step;
    [formattable] tells whether [formatEvaluationCard] returns on the body
    received. *)

Module HookFiles.
Import Hook.

Section Definitions.
Context `{Platform}.

(** The [try] block around the API call, with the card. *)
Definition evaluateCard (formattable : EvaluationResponse -> bool) (env : Env)
  (cfg : SightglassHookConfig) (im : InstallMatch) (command sessionId : string)
  : M unit :=
  match fetch env cfg im command with
  | FetchRejects => throw
  | Response ok body =>
      if ok
      then match body with
           | BodyRejects => throw
           | Body evaluation =>
               if String.eqb (verdict evaluation) "PROCEED"
               then exit 0%Z
               else markAllowed (writable env) sessionId (packageName im) >>
                    if formattable evaluation then exit 2%Z else throw
           end
      else ret tt
  end.

(** [main], for any body of the [try] block. *)
Definition mainWith
  (tryBlock : Env -> SightglassHookConfig -> InstallMatch -> string -> string -> M unit)
  (env : Env) : M unit :=
  let! hookData := (match stdin env with
                    | Unreadable => exit 0%Z
                    | NotJson => exit 0%Z
                    | Parsed j => ret j
                    end) in
  let! tool_name := lift (getProp hookData "tool_name") in
  if negb (match tool_name with Some (JStr t) => String.eqb t "Bash" | _ => false end)
  then exit 0%Z
  else
    let! toolInput := lift (getProp hookData "tool_input") in
    let! command := lift (getPropOpt toolInput "command") in
    if negb (truthyValue command) then exit 0%Z
    else
      let! installMatch := lift (match command with
                                 | Some c => callMatchInstallCommand c
                                 | None => Ret None
                                 end) in
      match installMatch with
      | None => exit 0%Z
      | Some im =>
          let! sessionId := lift (getSessionId hookData) in
          let! allowed := isAlreadyAllowed sessionId (packageName im) in
          if allowed then exit 0%Z
          else
            (match config env with
             | Some cfg =>
                 tryCatch
                   (tryBlock env cfg im
                      (match command with Some (JStr c) => c | _ => "" end)
                      sessionId)
                   (ret tt)
             | None => ret tt
             end) >>
            exit 0%Z
      end.

(** One run of the hook with the card: the exit code and the files it
    leaves. *)
Definition runCard (formattable : EvaluationResponse -> bool) (env : Env) (fs : files)
  : Z * files :=
  match mainWith (evaluateCard formattable) env fs with
  | (Exit code, fs') => (code, fs')
  | (Throw, fs') => (0%Z, fs')
  | (Ret _, fs') => (0%Z, fs')
  end.

(** What a session file holds for the hook: the array parsed from it, and
    nothing when the file is missing, does not parse or holds another
    value. *)
Definition allowedList (fs : files) (sessionId : string) : list json :=
  match fs !! getAllowedPath sessionId with
  | Some (Json (JArr data)) => data
  | _ => []
  end.

(** The files after one run of the hook for each input, in order. *)
Definition runs (inputs : list ((EvaluationResponse -> bool) * Env)) (fs : files) : files :=
  fold_left (fun fs input => snd (runCard (fst input) (snd input) fs)) inputs fs.

(** The run gets as far as the API call: an install attempt that the
    session does not allow yet, with a configuration. *)
Definition reachesApi (env : Env) (fs : files) (command : string) (im : InstallMatch)
  (sessionId : string) (cfg : SightglassHookConfig) : Prop :=
  attempt env sessionId (packageName im) /\
  matchInstallCommand command = Some im /\
  (exists hookData, stdin env = Parsed hookData /\
                    commandValue hookData = Ret (Some (JStr command))) /\
  isAlreadyAllowed sessionId (packageName im) fs = (Ret false, fs) /\
  config env = Some cfg.

End Definitions.

End HookFiles.

(** ** The [hook] commands and the hook step of [setup] ([cli.ts])

    The commands work on [~/.claude/settings.json], read through
    [JSON.parse] and written through [JSON.stringify].  The other calls on
    the file system (creating a directory, copying the script) are taken
    to succeed.  An exception that nothing catches ends the command:
    [Throw]. *)

Module Cli.
Import Hook.

(** [~/.claude] and the settings file in it. *)
Inductive settingsState : Type :=
| NoDirectory
| NoFile
| HasFile (f : file).

(** What the commands read and write: the settings, and whether
    [~/.sightglass/hooks/pretooluse.js] exists. *)
Record World : Type := mkWorld
  { settings : settingsState; canonicalHook : bool }.

(** What a command does not change: whether the package ships the hook
    script ([fs.existsSync(packageHookPath)]) and [os.homedir()]. *)
Record Host : Type := mkHost { packageHook : bool; homedir : string }.

(** The last message of a command. *)
Inductive report : Type :=
| AlreadyInstalled      (* Sightglass hook already installed. *)
| Installed             (* Installed PreToolUse hook in Claude Code *)
| NoSettings            (* No Claude Code settings found. *)
| NoPreToolUse          (* No PreToolUse hooks found. *)
| NotFound              (* Sightglass hook not found in settings. *)
| Removed               (* Removed Sightglass PreToolUse hook *)
| StatusNoSettings      (* Not installed - no Claude Code settings found. *)
| CouldNotParse         (* Could not parse settings.json *)
| IsInstalled           (* Sightglass PreToolUse hook is installed *)
| IsNotInstalled        (* Sightglass PreToolUse hook is not installed *)
| SetupInstalled        (* PreToolUse hook installed in Claude Code *)
| SetupScriptMissing.   (* Hook script not found - run: sightglass hook install *)

(** [path.join(os.homedir(), ".sightglass", "hooks", "pretooluse.js")],
    for a home directory in normal form. *)
Definition hookScriptPath (env : Host) : string :=
  homedir env +:+ "/.sightglass/hooks/pretooluse.js".

(** The object the commands push. *)
Definition hookEntry (env : Host) : json :=
  JObj [("type", JStr "command"); ("command", JStr ("node " +:+ hookScriptPath env))].

(** [h.type === "command" && h.command?.includes("sightglass")], as a
    condition.  Reading a property of [null] throws; so does calling
    [includes] on a number, a boolean or an object, which have no such
    method; an array has one. *)
Definition isSightglassHook (h : json) : outcome bool :=
  match h with
  | JNull => Throw
  | JObj fields =>
      match lookupField "type" fields with
      | Some (JStr t) =>
          if String.eqb t "command"
          then match lookupField "command" fields with
               | None | Some JNull => Ret false
               | Some (JStr c) => Ret (includes c "sightglass")
               | Some (JArr items) => Ret (arrayIncludes items "sightglass")
               | Some _ => Throw
               end
          else Ret false
      | _ => Ret false
      end
  | _ => Ret false
  end.

(** [preToolUse.some(h => ...)] *)
Fixpoint someHook (items : list json) : outcome bool :=
  match items with
  | [] => Ret false
  | h :: items' =>
      match isSightglassHook h with
      | Ret true => Ret true
      | Ret false => someHook items'
      | Throw => Throw
      | Exit code => Exit code
      end
  end.

(** [preToolUse.filter(h => !(...))] *)
Fixpoint filterHooks (items : list json) : outcome (list json) :=
  match items with
  | [] => Ret []
  | h :: items' =>
      match isSightglassHook h with
      | Ret isHook =>
          match filterHooks items' with
          | Ret kept => Ret (if isHook then kept else h :: kept)
          | Throw => Throw
          | Exit code => Exit code
          end
      | Throw => Throw
      | Exit code => Exit code
      end
  end.

(** [object[k] = v]: the value of a key that is there is replaced in
    place, a new key comes last. *)
Fixpoint setField (k : string) (v : json) (fields : list (string * json))
  : list (string * json) :=
  match fields with
  | [] => [(k, v)]
  | (k', v') :: fields' =>
      if String.eqb k' k then (k', v) :: fields' else (k', v') :: setField k v fields'
  end.

(** [settings] as [hook install] and [setup] start from: [{}] when the
    file is missing or does not parse. *)
Definition readSettings (s : settingsState) : json :=
  match s with
  | HasFile (Json j) => j
  | _ => JObj []
  end.

(** From [if (!settings.hooks)] to the [push], the same statements in
    [hook install] and in [setup]: [Ret None] when a hook is found,
    [Ret (Some settings')] with the value to write when one is pushed.
    The module is strict code, so that creating a property on a number, a
    boolean or a string throws.  On an array the property is created, but
    [JSON.stringify] does not write it. *)
Definition register (env : Host) (settings : json) : outcome (option json) :=
  match settings with
  | JNull | JBool _ | JNum _ | JStr _ => Throw
  | JArr _ => Ret (Some settings)
  | JObj fields =>
      let hooks :=
        if truthyValue (lookupField "hooks" fields)
        then match lookupField "hooks" fields with Some h => h | None => JObj [] end
        else JObj [] in
      match hooks with
      | JNull | JBool _ | JNum _ | JStr _ => Throw
      | JArr _ => Ret (Some settings)
      | JObj hfields =>
          let preToolUse :=
            if truthyValue (lookupField "PreToolUse" hfields)
            then match lookupField "PreToolUse" hfields with Some p => p | None => JArr [] end
            else JArr [] in
          match preToolUse with
          | JArr items =>
              match someHook items with
              | Ret true => Ret None
              | Ret false =>
                  Ret (Some (JObj (setField "hooks"
                                     (JObj (setField "PreToolUse"
                                              (JArr (items ++ [hookEntry env])) hfields))
                                     fields)))
              | Throw => Throw
              | Exit code => Exit code
              end
          | _ => Throw
          end
      end
  end.

(** [fs.mkdirSync(settingsDir, { recursive: true })] *)
Definition mkdirSettings (s : settingsState) : settingsState :=
  match s with
  | NoDirectory => NoFile
  | _ => s
  end.

(** [sightglass hook install] *)
Definition install (env : Host) (w : World) : outcome report * World :=
  if negb (packageHook env || canonicalHook w) then (Exit 1%Z, w)
  else
    match register env (readSettings (settings w)) with
    | Ret None => (Ret AlreadyInstalled, mkWorld (mkdirSettings (settings w)) true)
    | Ret (Some settings') => (Ret Installed, mkWorld (HasFile (Json settings')) true)
    | Throw => (Throw, mkWorld (mkdirSettings (settings w)) true)
    | Exit code => (Exit code, mkWorld (mkdirSettings (settings w)) true)
    end.

(** Step 5 of [sightglass setup].  It does not create [~/.claude]:
    without the directory [fs.writeFileSync] throws. *)
Definition setupHook (env : Host) (w : World) : outcome report * World :=
  if packageHook env
  then
    match register env (readSettings (settings w)) with
    | Ret None => (Ret SetupInstalled, mkWorld (settings w) true)
    | Ret (Some settings') =>
        match settings w with
        | NoDirectory => (Throw, mkWorld NoDirectory true)
        | _ => (Ret SetupInstalled, mkWorld (HasFile (Json settings')) true)
        end
    | Throw => (Throw, mkWorld (settings w) true)
    | Exit code => (Exit code, mkWorld (settings w) true)
    end
  else (Ret SetupScriptMissing, w).

(** [hooks.PreToolUse = filtered] in [settings]. *)
Definition setPreToolUse (settings : json) (filtered : list json) : json :=
  match settings with
  | JObj fields =>
      match lookupField "hooks" fields with
      | Some (JObj hfields) =>
          JObj (setField "hooks" (JObj (setField "PreToolUse" (JArr filtered) hfields)) fields)
      | _ => settings
      end
  | _ => settings
  end.

(** [sightglass hook uninstall] *)
Definition uninstall (w : World) : outcome report * World :=
  match settings w with
  | NoDirectory | NoFile => (Ret NoSettings, w)
  | HasFile Unparsable => (Exit 1%Z, w)
  | HasFile (Json settings) =>
      match getProp settings "hooks" with
      | Ret hooks =>
          match getPropOpt hooks "PreToolUse" with
          | Ret preToolUse =>
              if negb (truthyValue preToolUse) then (Ret NoPreToolUse, w)
              else
                match preToolUse with
                | Some (JArr items) =>
                    match filterHooks items with
                    | Ret filtered =>
                        if length filtered =? length items then (Ret NotFound, w)
                        else (Ret Removed,
                              mkWorld (HasFile (Json (setPreToolUse settings filtered)))
                                      (canonicalHook w))
                    | Throw => (Throw, w)
                    | Exit code => (Exit code, w)
                    end
                | _ => (Throw, w)
                end
          | Throw => (Throw, w)
          | Exit code => (Exit code, w)
          end
      | Throw => (Throw, w)
      | Exit code => (Exit code, w)
      end
  end.

(** [sightglass hook status] *)
Definition status (w : World) : outcome report :=
  match settings w with
  | NoDirectory | NoFile => Ret StatusNoSettings
  | HasFile Unparsable => Ret CouldNotParse
  | HasFile (Json settings) =>
      match getProp settings "hooks" with
      | Ret hooks =>
          match getPropOpt hooks "PreToolUse" with
          | Ret preToolUse =>
              match (match preToolUse with
                     | None | Some JNull => JArr []
                     | Some p => p
                     end) with
              | JArr items =>
                  match someHook items with
                  | Ret true => Ret IsInstalled
                  | Ret false => Ret IsNotInstalled
                  | Throw => Throw
                  | Exit code => Exit code
                  end
              | _ => Throw
              end
          | Throw => Throw
          | Exit code => Exit code
          end
      | Throw => Throw
      | Exit code => Exit code
      end
  end.

(** Settings on which [hook install] writes what it pushes: not an array,
    and no array under [hooks]. *)
Definition plainSettings (settings : json) : bool :=
  match settings with
  | JArr _ => false
  | JObj fields =>
      match lookupField "hooks" fields with
      | Some (JArr _) => false
      | _ => true
      end
  | _ => true
  end.

(** The [PreToolUse] array of settings, when there is one. *)
Definition preToolUseOf (settings : json) : option (list json) :=
  match settings with
  | JObj fields =>
      match lookupField "hooks" fields with
      | Some (JObj hfields) =>
          match lookupField "PreToolUse" hfields with
          | Some (JArr items) => Some items
          | _ => None
          end
      | _ => None
      end
  | _ => None
  end.

(** Two settings objects that differ at most in [hooks.PreToolUse]. *)
Definition sameElsewhere (j j' : json) : Prop :=
  exists fields fields',
    j = JObj fields /\ j' = JObj fields' /\
    (forall k, k <> "hooks" -> lookupField k fields' = lookupField k fields) /\
    (forall hfields hfields' k,
        lookupField "hooks" fields = Some (JObj hfields) ->
        lookupField "hooks" fields' = Some (JObj hfields') ->
        k <> "PreToolUse" -> lookupField k hfields' = lookupField k hfields).

(** Settings for the examples. *)
Definition exampleSettings : json :=
  JObj [("model", JStr "opus");
        ("hooks", JObj [("PostToolUse", JArr []);
                        ("PreToolUse",
                         JArr [JObj [("type", JStr "command"); ("command", JStr "lint.sh")]])])].

End Cli.

(** ** The change handler of [sightglass watch] ([cli.ts]) *)

Module Watcher.





End Watcher.

(** ** The counts of the report of [sightglass analyze] ([cli.ts]) *)

Module Report.

Inductive DiscoveryType : Type :=
| TRAINING_RECALL
| CONTEXT_INHERITANCE
| REACTIVE_SEARCH
| PROACTIVE_SEARCH
| USER_DIRECTED
| UNKNOWN.

(** Modelled from the spec: the declaration of [ClassifiedEvent]
    ([classifiers/types]) is not among the sources; these are the fields
    of the data model that [analyze] reads. *)
Record ClassifiedEvent : Type := mkClassifiedEvent
  { isInstall : bool;
    classification : DiscoveryType;
    abandoned : bool;
    alternatives : list string }.

(** The object [distribution], by key. *)
Definition distribution : Type := DiscoveryType -> nat.

Definition sameType (a b : DiscoveryType) : bool :=
  match a, b with
  | TRAINING_RECALL, TRAINING_RECALL
  | CONTEXT_INHERITANCE, CONTEXT_INHERITANCE
  | REACTIVE_SEARCH, REACTIVE_SEARCH
  | PROACTIVE_SEARCH, PROACTIVE_SEARCH
  | USER_DIRECTED, USER_DIRECTED
  | UNKNOWN, UNKNOWN => true
  | _, _ => false
  end.

(** [distribution[event.classification]++] *)
Definition increment (d : distribution) (event : ClassifiedEvent) : distribution :=
  fun t => if sameType t (classification event) then S (d t) else d t.

(** [classified.filter(e => e.isInstall)] *)
Definition installEventsOf (classified : list ClassifiedEvent) : list ClassifiedEvent :=
  List.filter isInstall classified.

(** The loop [for (const event of installEvents)] from the object of six
    zeros. *)
Definition distributionOf (installEvents : list ClassifiedEvent) : distribution :=
  fold_left increment installEvents (fun _ => 0).

(** [installEvents.filter(e => !e.abandoned && e.alternatives.length === 0
    && e.classification === 'TRAINING_RECALL').length] *)
Definition alternativesNeverConsidered (installEvents : list ClassifiedEvent) : nat :=
  length
    (List.filter
       (fun e => negb (abandoned e) && (length (alternatives e) =? 0)
                 && sameType (classification e) TRAINING_RECALL)
       installEvents).

Definition allTypes : list DiscoveryType :=
  [TRAINING_RECALL; CONTEXT_INHERITANCE; REACTIVE_SEARCH; PROACTIVE_SEARCH;
   USER_DIRECTED; UNKNOWN].

End Report.

(** * Properties *)

(** ** Strings and the matcher *)

#[local] Arguments Ascii.eqb : simpl never.
#[local] Arguments String.eqb : simpl never.

Lemma includes_empty (s : string) : includes s "" = true.
Proof. destruct s; reflexivity. Qed.

Lemma includes_empty_left (s : string) : includes "" s = true -> s = "".
Proof. destruct s; [reflexivity | discriminate]. Qed.

Lemma truthy_nonempty (s : string) : truthy s = true <-> s <> "".
Proof. destruct s; simpl; split; congruence. Qed.

Lemma truthyGet_Some (o : option string) (c : string) :
  truthyGet o = Some c <-> o = Some c /\ truthy c = true.
Proof.
  destruct o as [d|]; simpl.
  - destruct (truthy d) eqn:E; split.
    + intros [= ->]. auto.
    + intros [[= ->] _]. reflexivity.
    + discriminate.
    + intros [[= ->] E']. congruence.
  - split; [discriminate | intros [? _]; discriminate].
Qed.

Lemma search_unfold (r : Re.regex) (i : nat) (s : string) :
  Re.search r i s =
  match Re.matchAt r i s with
  | Some res => Some res
  | None =>
      match s with
      | String _ s' => Re.search r (S i) s'
      | EmptyString => None
      end
  end.
Proof. destruct s; reflexivity. Qed.

(** *** The fuel of the matcher is never used up *)

Section Matcher.

Import Re.

Lemma startsWith_drop (l : string) : forall s,
  startsWith s l = true ->
  String.length (drop (String.length l) s) + String.length l = String.length s.
Proof.
  induction l as [|c l IH]; intros s Hs; cbn [String.length drop]; [lia|].
  destruct s as [|d s]; cbn [startsWith] in Hs; [discriminate|].
  apply andb_prop in Hs as [_ Hs]. cbn [String.length]. rewrite <- (IH s Hs). lia.
Qed.

Lemma advances_refl (st : mstate) : advances st st.
Proof. split; lia. Qed.

Lemma advances_trans (st1 st2 st3 : mstate) :
  advances st1 st2 -> advances st2 st3 -> advances st1 st3.
Proof. unfold advances. intros [? ?] [? ?]. split; lia. Qed.

Lemma star_sound (ma : matcher) (fuel : nat) : sound ma -> sound (star ma fuel).
Proof.
  intros Hma. induction fuel as [|fuel IH]; intros st k res; cbn [star].
  - intros Hk. exists st. split; [apply advances_refl | exact Hk].
  - unfold orElse.
    destruct (ma st _) as [res'|] eqn:E.
    + intros [= ->]. apply Hma in E as (st1 & Hadv & Hk).
      destruct (String.length (rest st1) <? String.length (rest st)); [|discriminate].
      apply IH in Hk as (st2 & Hadv' & Hk). exists st2.
      split; [exact (advances_trans _ _ _ Hadv Hadv') | exact Hk].
    + intros Hk. exists st. split; [apply advances_refl | exact Hk].
Qed.

Lemma m_sound (r : regex) : sound (m r).
Proof.
  induction r as [cs|l|r1 IH1 r2 IH2|r1 IH1 r2 IH2|r1 IH1|r1 IH1|r1 IH1|r1 IH1| |];
    intros st k res; cbn [m].
  - destruct (rest st) as [|c s'] eqn:Erest; [discriminate|].
    destruct (cset_mem cs c); [|discriminate]. intros Hk.
    eexists. split; [|exact Hk]. unfold advances. cbn [pos rest]. rewrite Erest.
    cbn [String.length]. split; lia.
  - destruct (startsWith (rest st) l) eqn:El; [|discriminate]. intros Hk.
    eexists. split; [|exact Hk]. unfold advances. cbn [pos rest].
    pose proof (startsWith_drop l (rest st) El). split; lia.
  - intros H. apply IH1 in H as (st1 & Hadv & H). apply IH2 in H as (st2 & Hadv' & H).
    exists st2. split; [exact (advances_trans _ _ _ Hadv Hadv') | exact H].
  - unfold orElse. destruct (m r1 st k) eqn:E.
    + intros [= ->]. exact (IH1 _ _ _ E).
    + apply IH2.
  - apply (star_sound _ _ IH1).
  - intros H. apply IH1 in H as (st1 & Hadv & H).
    apply (star_sound _ _ IH1) in H as (st2 & Hadv' & H).
    exists st2. split; [exact (advances_trans _ _ _ Hadv Hadv') | exact H].
  - unfold orElse. destruct (m r1 st k) eqn:E.
    + intros [= ->]. exact (IH1 _ _ _ E).
    + intros Hk. exists st. split; [apply advances_refl | exact Hk].
  - intros H. apply IH1 in H as (st1 & Hadv & H). eexists. split; [|exact H].
    exact Hadv.
  - destruct (pos st =? 0); [|discriminate]. intros Hk.
    exists st. split; [apply advances_refl | exact Hk].
  - destruct (rest st); [|discriminate]. intros Hk.
    exists st. split; [apply advances_refl | exact Hk].
Qed.

(** A match at [i] on [s] ends inside [s], and what is left after it is
    what the match did not consume. *)
Lemma matchAt_span (r : regex) (i : nat) (s : string) (res : result) :
  matchAt r i s = Some res ->
  index res = i /\
  stop res + String.length (after res) = i + String.length s /\
  String.length (after res) <= String.length s.
Proof.
  unfold matchAt. destruct (m r (MState i s None) Some) as [st|] eqn:E; [|discriminate].
  intros [= <-]. apply m_sound in E as (st' & [Hpos Hlen] & [= ->]).
  cbn [index stop after pos rest] in *. auto.
Qed.

Lemma star_extensional (ma : matcher) (fuel : nat) :
  extensional ma -> extensional (star ma fuel).
Proof.
  intros Hma. induction fuel as [|fuel IH]; intros st k k' Hk; cbn [star]; [apply Hk|].
  rewrite (Hk st). f_equal. apply Hma. intros st'.
  destruct (String.length (rest st') <? String.length (rest st)); [|reflexivity].
  apply IH, Hk.
Qed.

Lemma m_extensional (r : regex) : extensional (m r).
Proof.
  induction r as [cs|l|r1 IH1 r2 IH2|r1 IH1 r2 IH2|r1 IH1|r1 IH1|r1 IH1|r1 IH1| |];
    intros st k k' Hk; cbn [m].
  - destruct (rest st); [reflexivity|]. destruct (cset_mem cs a); [apply Hk | reflexivity].
  - destruct (startsWith (rest st) l); [apply Hk | reflexivity].
  - apply IH1. intros st'. apply IH2, Hk.
  - rewrite (IH1 st k k' Hk), (IH2 st k k' Hk). reflexivity.
  - apply (star_extensional _ _ IH1), Hk.
  - apply IH1. intros st'. apply (star_extensional _ _ IH1), Hk.
  - rewrite (IH1 st k k' Hk), (Hk st). reflexivity.
  - apply IH1. intros st'. apply Hk.
  - destruct (pos st =? 0); [apply Hk | reflexivity].
  - destruct (rest st); [apply Hk | reflexivity].
Qed.

(** More fuel than the input is long changes nothing: the iteration never
    stops for lack of fuel. *)
Lemma star_fuel (r : regex) (n : nat) : forall fuel fuel' st k,
  String.length (rest st) <= n -> n < fuel -> n < fuel' ->
  star (m r) fuel st k = star (m r) fuel' st k.
Proof.
  induction n as [|n IH]; intros fuel fuel' st k Hlen Hf Hf';
    (destruct fuel as [|fuel]; [lia|]); (destruct fuel' as [|fuel']; [lia|]);
    cbn [star]; f_equal; apply m_extensional; intros st';
    destruct (Nat.ltb_spec (String.length (rest st')) (String.length (rest st)));
    try reflexivity.
  - lia.
  - apply IH; lia.
Qed.

Lemma truthy_append (cur : string) (c : ascii) :
  truthy (cur +:+ String c EmptyString) = true.
Proof. destruct cur; reflexivity. Qed.

(** The same for [split]: [2 * length + 2] rounds are never used up. *)
Lemma splitLoop_fuel (r : regex) (n : nat) : forall fuel fuel' cur q s,
  splitMeasure cur s <= n -> n < fuel -> n < fuel' ->
  splitLoop r fuel cur q s = splitLoop r fuel' cur q s.
Proof.
  induction n as [|n IH]; intros fuel fuel' cur q s Hm Hf Hf';
    (destruct fuel as [|fuel]; [lia|]); (destruct fuel' as [|fuel']; [lia|]);
    cbn [splitLoop]; (destruct s as [|c s']; [reflexivity|]);
    unfold splitMeasure in Hm; cbn [String.length] in Hm; [lia|].
  assert (Hnext : splitLoop r fuel (cur +:+ String c EmptyString) (S q) s' =
                  splitLoop r fuel' (cur +:+ String c EmptyString) (S q) s').
  { apply IH; [|lia|lia]. unfold splitMeasure. rewrite truthy_append. lia. }
  destruct (matchAt r q (String c s')) as [res|] eqn:E; [|exact Hnext].
  destruct ((stop res =? q) && negb (truthy cur)) eqn:Eempty; [exact Hnext|].
  f_equal. apply IH; [|lia|lia].
  apply matchAt_span in E as (_ & Hstop & Hafter). cbn [String.length] in *.
  unfold splitMeasure. cbn [truthy].
  apply andb_false_iff in Eempty as [Hq|Hcur].
  - apply Nat.eqb_neq in Hq. lia.
  - apply negb_false_iff in Hcur. rewrite Hcur in Hm. lia.
Qed.

End Matcher.

Section ScopePrefix.

Import Re CategorizerSpec.

Let notSlash : regex := Chr (CNot "/"%char).
Let slashThenDone : cont := fun st => m (Lit "/") st Some.

Lemma afterSlash_shorter (s t : string) :
  afterSlash s = Some t -> String.length t < String.length s.
Proof.
  revert t. induction s as [|c s IH]; intros t; simpl; [discriminate|].
  destruct (Ascii.eqb c "/").
  - intros [= ->]. lia.
  - intros E. apply IH in E. lia.
Qed.

(** The greedy run of [[^/]] followed by [/]: the run stops at the first
    slash, and giving characters back never helps. *)
Lemma star_notSlash (fuel : nat) : forall (s : string) (p : nat) (g : option string),
  String.length s < fuel ->
  star (m notSlash) fuel (MState p s g) slashThenDone =
  match afterSlash s with
  | Some t => Some (MState (p + (String.length s - String.length t)) t g)
  | None => None
  end.
Proof.
  induction fuel as [|fuel IH]; intros s p g Hlen; [lia|].
  destruct s as [|c s].
  - reflexivity.
  - cbn [star notSlash m rest pos grp cset_mem afterSlash].
    destruct (Ascii.eqb c "/") eqn:Ec.
    + apply Ascii.eqb_eq in Ec. subst c. cbn.
      do 2 f_equal. lia.
    + cbn [negb].
      assert (Hlt : (String.length s <? String.length (String c s)) = true)
        by (apply Nat.ltb_lt; simpl; lia).
      rewrite Hlt, IH by (simpl in Hlen; lia).
      destruct (afterSlash s) as [t|] eqn:Et.
      * apply afterSlash_shorter in Et. cbn. do 2 f_equal.
        change (String.length (String c s)) with (S (String.length s)). lia.
      * cbn. rewrite Ascii.eqb_sym, Ec. reflexivity.
Qed.

Lemma scopePrefix_at_start (name : string) :
  option_map after (matchAt scopePrefix 0 name) = scoped name /\
  (forall res, matchAt scopePrefix 0 name = Some res -> index res = 0).
Proof.
  split.
  2:{ unfold matchAt. intros res.
      destruct (m scopePrefix _ _); [intros [= <-]; reflexivity | discriminate]. }
  unfold matchAt, scopePrefix.
  destruct name as [|a t]; [reflexivity|].
  cbn [m pos rest grp Nat.eqb startsWith].
  destruct (Ascii.eqb "@" a) eqn:Ea.
  2:{ cbn. destruct a as [[] [] [] [] [] [] [] []]; try reflexivity; discriminate. }
  apply Ascii.eqb_eq in Ea. subst a.
  cbn [andb String.length drop cset_mem].
  destruct t as [|c s]; [reflexivity|].
  cbn [scoped].
  destruct (Ascii.eqb c "/"); cbn [negb]; [reflexivity|].
  cbn [rest].
  change (fun st' : mstate => m (Lit "/") st' Some) with slashThenDone.
  change (m (Chr (CNot "/"))) with (m notSlash).
  rewrite star_notSlash by lia.
  destruct (afterSlash s); reflexivity.
Qed.

Lemma scopePrefix_not_later (s : string) (i : nat) :
  i <> 0 -> search scopePrefix i s = None.
Proof.
  revert i. induction s as [|c s IH]; intros i Hi.
  - cbn. destruct i; [congruence | reflexivity].
  - cbn [search]. assert (E : matchAt scopePrefix i (String c s) = None).
    { unfold matchAt, scopePrefix. cbn [m pos].
      destruct i; [congruence | reflexivity]. }
    rewrite E. apply IH. lia.
Qed.

(** [name.replace(/^@[^/]+\//, "")] strips the scope of [@scope/pkg] and
    leaves every other name as it is. *)
Lemma replace_scopePrefix (name : string) :
  replace scopePrefix "" name =
  match scoped name with Some pkg => pkg | None => name end.
Proof.
  unfold replace, exec.
  destruct (scopePrefix_at_start name) as [Hafter Hindex].
  rewrite search_unfold.
  destruct (matchAt scopePrefix 0 name) as [res|] eqn:E;
    cbn [option_map] in Hafter; rewrite <- Hafter.
  - rewrite (Hindex res eq_refl). reflexivity.
  - destruct name; [reflexivity|]. rewrite scopePrefix_not_later by lia. reflexivity.
Qed.

End ScopePrefix.

(** ** The categorizer *)

Section Categorizer.

Import CategorizerSpec.

Let lowerKey : string * string -> string * string :=
  fun '(pkg, cat) => (toLowerCase pkg, cat).

(** The module-level loop fills the map with the taxonomy in iteration
    order: no package is listed twice, so no [set] overwrites. *)
Lemma packageToCategory_entries :
  _packageToCategory = map lowerKey reverseIndex.
Proof. vm_compute. reflexivity. Qed.

Lemma reverseIndex_categories :
  forallb (fun '(_, cat) => truthy cat && existsb (String.eqb cat) getCategories)
          reverseIndex = true.
Proof. vm_compute. reflexivity. Qed.

Lemma reverseIndex_category (pkg cat : string) :
  In (pkg, cat) reverseIndex -> truthy cat = true /\ In cat getCategories.
Proof.
  intros Hin.
  pose proof (proj1 (forallb_forall _ _) reverseIndex_categories _ Hin) as H.
  cbn beta iota in H. apply andb_prop in H as [Ht Hc]. split; [exact Ht|].
  apply existsb_exists in Hc as (c & Hc & E). apply String.eqb_eq in E. subst c. exact Hc.
Qed.

Lemma find_category {f : string * string -> bool} {c : string} :
  option_map snd (find f reverseIndex) = Some c ->
  truthy c = true /\ In c getCategories.
Proof.
  destruct (find f reverseIndex) as [[pkg cat]|] eqn:E; [|discriminate].
  intros [= <-]. apply find_some in E as [Hin _].
  exact (reverseIndex_category _ _ Hin).
Qed.

Lemma get_lowerKey (k : string) (l : list (string * string)) :
  JsMap.get k (map lowerKey l) =
  option_map snd (find (fun '(pkg, _) => String.eqb (toLowerCase pkg) k) l).
Proof.
  induction l as [|[pkg cat] l IH]; [reflexivity|].
  cbn [map lowerKey JsMap.get find].
  destruct (String.eqb (toLowerCase pkg) k); [reflexivity | exact IH].
Qed.

Lemma fuzzy_lowerKey (name : string) (l : list (string * string)) :
  fuzzy name (map lowerKey l) =
  option_map snd (find (fun '(pkg, _) => contains name pkg || contains pkg name) l).
Proof.
  induction l as [|[pkg cat] l IH]; [reflexivity|].
  cbn [map lowerKey fuzzy find]. unfold contains at 1 2.
  destruct (includes (toLowerCase name) (toLowerCase pkg)
            || includes (toLowerCase pkg) (toLowerCase name));
    [reflexivity | exact IH].
Qed.

(** Rule 1 of the code is rule 1 of the specification. *)
Lemma direct_is_exact (name : string) :
  truthyGet (JsMap.get (toLowerCase name) _packageToCategory) = exact name.
Proof.
  rewrite packageToCategory_entries, get_lowerKey. fold (exact name).
  destruct (exact name) as [c|] eqn:E; [|reflexivity].
  apply find_category in E as [Ht _]. cbn. rewrite Ht. reflexivity.
Qed.

(** Rule 3 of the code is rule 3 of the specification. *)
Lemma fuzzy_is_fuzzyMatch (name : string) :
  fuzzy name _packageToCategory = fuzzyMatch name.
Proof. rewrite packageToCategory_entries. apply fuzzy_lowerKey. Qed.

Lemma scoped_startsWith (name pkg : string) :
  scoped name = Some pkg -> startsWith name "@" = true.
Proof.
  destruct name as [|a t]; [discriminate|].
  destruct a as [[] [] [] [] [] [] [] []]; try discriminate. reflexivity.
Qed.

(** The code and the three rules of the specification agree on every
    name. *)
Lemma categorizePackage_refines (name : string) :
  categorizePackage name = categorize name.
Proof.
  unfold categorizePackage, categorize.
  rewrite direct_is_exact.
  destruct (exact name) as [c|] eqn:Eexact; [reflexivity|].
  cbn zeta. rewrite replace_scopePrefix, fuzzy_is_fuzzyMatch.
  destruct (scoped name) as [pkg|] eqn:Escoped.
  - rewrite (scoped_startsWith _ _ Escoped), direct_is_exact. reflexivity.
  - rewrite direct_is_exact, Eexact. destruct (startsWith name "@"); reflexivity.
Qed.

Lemma categorizePackage_in_taxonomy (name c : string) :
  categorizePackage name = Some c -> truthy c = true /\ In c getCategories.
Proof.
  rewrite categorizePackage_refines. unfold categorize.
  destruct (exact name) as [c1|] eqn:E1.
  { intros [= ->]. unfold exact in E1. exact (find_category E1). }
  destruct (scoped name) as [pkg|].
  - destruct (exact pkg) as [c2|] eqn:E2.
    + intros [= ->]. unfold exact in E2. exact (find_category E2).
    + unfold fuzzyMatch. apply find_category.
  - unfold fuzzyMatch. apply find_category.
Qed.

End Categorizer.

(** C4: on every name the code computes what the three rules of the
    specification give, tried in order, and [null] when none fires; the
    scoped name [@myorg/jsonwebtoken] has no exact match, its package part
    [jsonwebtoken] has one, and the answer is [Authentication]. *)
Theorem C4_categorize_rules_in_order (name : string) :
  categorizePackage name = CategorizerSpec.categorize name /\
  CategorizerSpec.exact "@myorg/jsonwebtoken" = None /\
  CategorizerSpec.scoped "@myorg/jsonwebtoken" = Some "jsonwebtoken" /\
  CategorizerSpec.exact "jsonwebtoken" = Some "Authentication" /\
  categorizePackage "@myorg/jsonwebtoken" = Some "Authentication".
Proof.
  split; [apply categorizePackage_refines|].
  repeat split; vm_compute; reflexivity.
Qed.

(** C9: for the empty name the exact rule finds nothing, the name does not
    start with [@], and [pkg.includes("")] holds for every package, so the
    fuzzy loop stops at the first entry of the map, which belongs to the
    first category of the taxonomy, [CI/CD]. *)
Theorem C9_empty_name_is_first_category :
  categorizePackage "" = Some "CI/CD" /\
  JsMap.get (toLowerCase "") _packageToCategory = None /\
  startsWith "" "@" = false /\
  (forall pkg, includes pkg (toLowerCase "") = true) /\
  hd_error (map snd _packageToCategory) = Some "CI/CD" /\
  hd_error (map fst TOOL_CATEGORIES) = Some "CI/CD".
Proof.
  split; [vm_compute; reflexivity|].
  split; [vm_compute; reflexivity|].
  split; [reflexivity|].
  split; [intros pkg; apply includes_empty|].
  split; vm_compute; reflexivity.
Qed.

(** ** The detector: installed categories *)

Section Installed.

Implicit Types (s : gset string) (ev : RawEvent) (events : list RawEvent).

Lemma addPackage_mono s pkg x : x ∈ s -> x ∈ addPackage s pkg.
Proof.
  unfold addPackage. intros Hx.
  destruct (truthyGet (categorizePackage pkg)); set_solver.
Qed.

Lemma addPackage_category s pkg cat :
  categorizePackage pkg = Some cat -> catKey cat ∈ addPackage s pkg.
Proof.
  intros E. unfold addPackage.
  destruct (categorizePackage_in_taxonomy _ _ E) as [Ht _].
  rewrite E. cbn [truthyGet]. rewrite Ht.
  apply elem_of_union_r, elem_of_singleton. reflexivity.
Qed.

Lemma addPackages_mono pkgs : forall s x, x ∈ s -> x ∈ fold_left addPackage pkgs s.
Proof.
  induction pkgs as [|p pkgs IH]; intros s x Hx; [exact Hx|].
  cbn [fold_left]. apply IH, addPackage_mono, Hx.
Qed.

Lemma addPackages_category pkgs pkg cat : forall s,
  In pkg pkgs -> categorizePackage pkg = Some cat ->
  catKey cat ∈ fold_left addPackage pkgs s.
Proof.
  induction pkgs as [|p pkgs IH]; intros s Hin E; [destruct Hin|].
  cbn [fold_left]. destruct Hin as [->|Hin].
  - apply addPackages_mono, addPackage_category, E.
  - apply IH; assumption.
Qed.

Lemma addEvent_mono s ev x : x ∈ s -> x ∈ addEvent s ev.
Proof.
  unfold addEvent. intros Hx. destruct (String.eqb (action ev) "bash"); [|exact Hx].
  apply addPackages_mono, Hx.
Qed.

Lemma addEvents_mono events : forall s x, x ∈ s -> x ∈ fold_left addEvent events s.
Proof.
  induction events as [|e events IH]; intros s x Hx; [exact Hx|].
  cbn [fold_left]. apply IH, addEvent_mono, Hx.
Qed.

(** Pass 1: the category of every package extracted from a bash event of
    the list is in the set. *)
Lemma collectInstalled_category events ev pkg cat :
  In ev events -> action ev = "bash" ->
  In pkg (extractPackageNames (raw ev)) -> categorizePackage pkg = Some cat ->
  has (collectInstalled events) (catKey cat) = true.
Proof.
  intros Hev Hbash Hpkg Hcat. apply bool_decide_eq_true.
  unfold collectInstalled. generalize (∅ : gset string) as s.
  induction events as [|e events IH]; intros s; [destruct Hev|].
  destruct Hev as [->|Hev].
  - cbn [fold_left]. apply addEvents_mono. unfold addEvent.
    rewrite Hbash. cbn. eapply addPackages_category; eassumption.
  - cbn [fold_left]. apply IH, Hev.
Qed.

Lemma lowerChar_not_capital (c : ascii) :
  (65 <=? code (lowerChar c)) && (code (lowerChar c) <=? 90) = false.
Proof. destruct c as [[] [] [] [] [] [] [] []]; vm_compute; reflexivity. Qed.

Lemma toLowerCase_no_capital (x : string) : hasCapital (toLowerCase x) = false.
Proof.
  induction x as [|c x IH]; [reflexivity|].
  cbn [toLowerCase hasCapital]. rewrite lowerChar_not_capital, IH. reflexivity.
Qed.

Lemma catKey_inj (c c' : string) : catKey c = catKey c' -> c = c'.
Proof. unfold catKey. cbn. intros [= E]. exact E. Qed.

(** What the first loop puts in the set: lower-cased package names, and
    the keys of the categories of the packages. *)
Lemma addPackage_inv s pkg x :
  x ∈ addPackage s pkg ->
  x ∈ s \/ x = toLowerCase pkg \/
  exists cat, categorizePackage pkg = Some cat /\ x = catKey cat.
Proof.
  unfold addPackage.
  destruct (truthyGet (categorizePackage pkg)) as [cat|] eqn:E.
  - apply truthyGet_Some in E as [E _].
    rewrite !elem_of_union, !elem_of_singleton. intros [[Hx|Hx]|Hx].
    + left. exact Hx.
    + right. left. exact Hx.
    + right. right. exists cat. split; [exact E | exact Hx].
  - rewrite elem_of_union, elem_of_singleton. intros [Hx|Hx].
    + left. exact Hx.
    + right. left. exact Hx.
Qed.

Lemma addPackages_inv pkgs : forall s x,
  x ∈ fold_left addPackage pkgs s ->
  x ∈ s \/ (exists pkg, x = toLowerCase pkg) \/
  exists pkg cat, In pkg pkgs /\ categorizePackage pkg = Some cat /\ x = catKey cat.
Proof.
  induction pkgs as [|p pkgs IH]; intros s x Hx; [left; exact Hx|].
  cbn [fold_left] in Hx. apply IH in Hx as [Hx|[Hx|(pkg & cat & Hin & E & ->)]].
  - apply addPackage_inv in Hx as [Hx|[->|(cat & E & ->)]]; eauto.
    right. right. exists p, cat. split; [left; reflexivity | auto].
  - eauto.
  - right. right. exists pkg, cat. split; [right; exact Hin | auto].
Qed.

Lemma addEvents_inv events : forall s x,
  x ∈ fold_left addEvent events s ->
  x ∈ s \/ (exists pkg, x = toLowerCase pkg) \/
  exists ev pkg cat,
    In ev events /\ action ev = "bash" /\ In pkg (extractPackageNames (raw ev)) /\
    categorizePackage pkg = Some cat /\ x = catKey cat.
Proof.
  induction events as [|e events IH]; intros s x Hx; [left; exact Hx|].
  cbn [fold_left] in Hx.
  apply IH in Hx as [Hx|[Hx|(ev & pkg & cat & Hin & Hb & Hp & E & ->)]].
  - unfold addEvent in Hx.
    destruct (String.eqb_spec (action e) "bash") as [Hb|_]; [|left; exact Hx].
    apply addPackages_inv in Hx as [Hx|[Hx|(pkg & cat & Hin & E & ->)]]; eauto.
    right. right. exists e, pkg, cat. split; [left; reflexivity | auto].
  - eauto.
  - right. right. exists ev, pkg, cat. split; [right; exact Hin | auto].
Qed.

(** A category is suppressed exactly when a bash event of the list
    installs a package of that category.  (The key of a category with a
    capital letter is never a lower-cased package name.) *)
Lemma suppressed_iff events cat :
  hasCapital (catKey cat) = true ->
  has (collectInstalled events) (catKey cat) = true <->
  exists ev pkg,
    In ev events /\ action ev = "bash" /\ In pkg (extractPackageNames (raw ev)) /\
    categorizePackage pkg = Some cat.
Proof.
  intros Hcap. split.
  - intros Hs. apply bool_decide_eq_true in Hs. unfold collectInstalled in Hs.
    apply addEvents_inv in Hs as [Hx|[(pkg & E)|(ev & pkg & c & Hin & Hb & Hp & E & Ec)]].
    + apply not_elem_of_empty in Hx. destruct Hx.
    + rewrite E, toLowerCase_no_capital in Hcap. discriminate.
    + apply catKey_inj in Ec. subst c. exists ev, pkg. auto.
  - intros (ev & pkg & Hin & Hb & Hp & E).
    eapply collectInstalled_category; eassumption.
Qed.

End Installed.

(** ** The detector: the [detections] array of one event *)

Section Detections.

Variable inst : gset string.

Implicit Types (c cat path content : string) (ds : list Detection).

Lemma forCategory_app c ds ds' :
  forCategory c (ds ++ ds') = forCategory c ds ++ forCategory c ds'.
Proof. apply List.filter_app. Qed.

Lemma forCategory_In c ds d : In d ds -> d_category d = c -> In d (forCategory c ds).
Proof.
  intros Hin E. apply List.filter_In. split; [exact Hin|]. apply String.eqb_eq, E.
Qed.

Lemma forCategory_subset c ds d : In d (forCategory c ds) -> In d ds.
Proof. intros Hin. apply List.filter_In in Hin as [Hin _]. exact Hin. Qed.

Lemma forCategory_category c ds d : In d (forCategory c ds) -> d_category d = c.
Proof. intros Hin. apply List.filter_In in Hin as [_ E]. apply String.eqb_eq, E. Qed.

(** The [break]: the loop over the patterns of a category stops at the
    first pattern that matches; what follows it is not tried and cannot
    add a second detection. *)
Lemma firstPatternHit_first before p after path :
  Forall (fun q => Re.test q path = false) before -> Re.test p path = true ->
  firstPatternHit (before ++ p :: after) path = true.
Proof.
  induction 1 as [|q before Hq _ IH]; intros Hp; cbn [app firstPatternHit].
  - rewrite Hp. reflexivity.
  - rewrite Hq. apply IH, Hp.
Qed.

Lemma firstPatternHit_none patterns path :
  Forall (fun q => Re.test q path = false) patterns ->
  firstPatternHit patterns path = false.
Proof.
  induction 1 as [|q patterns Hq _ IH]; cbn [firstPatternHit]; [reflexivity|].
  rewrite Hq. exact IH.
Qed.

(** *** The loop over the path patterns *)

Lemma pathStep_same c patterns path ds :
  forCategory c (pathStep inst path ds (c, patterns)) =
  forCategory c ds ++
    (if has inst (catKey c) then []
     else if firstPatternHit patterns path then [mkDetection c [path] 60] else []).
Proof.
  unfold pathStep.
  destruct (has inst (catKey c)); [symmetry; apply app_nil_r|].
  destruct (firstPatternHit patterns path); [|symmetry; apply app_nil_r].
  rewrite forCategory_app. f_equal. unfold forCategory. cbn [List.filter d_category].
  rewrite String.eqb_refl. reflexivity.
Qed.

Lemma pathStep_other c path ds entry :
  fst entry <> c -> forCategory c (pathStep inst path ds entry) = forCategory c ds.
Proof.
  destruct entry as [c' patterns]. cbn [fst]. intros Hne. unfold pathStep.
  destruct (has inst (catKey c')); [reflexivity|].
  destruct (firstPatternHit patterns path); [|reflexivity].
  rewrite forCategory_app. unfold forCategory at 2. cbn [List.filter d_category].
  apply String.eqb_neq in Hne. rewrite Hne. apply app_nil_r.
Qed.

Lemma pathStep_suppressed c path ds entry :
  has inst (catKey c) = true ->
  forCategory c (pathStep inst path ds entry) = forCategory c ds.
Proof.
  intros Hs. destruct (String.eqb_spec (fst entry) c) as [E|Hne].
  - destruct entry as [c' patterns]. cbn [fst] in E. subst c'.
    rewrite pathStep_same, Hs. apply app_nil_r.
  - apply pathStep_other, Hne.
Qed.

Lemma pathLoop_other c path tbl : forall ds,
  ~ In c (map fst tbl) ->
  forCategory c (fold_left (pathStep inst path) tbl ds) = forCategory c ds.
Proof.
  induction tbl as [|entry tbl IH]; intros ds Hnot; [reflexivity|].
  cbn [fold_left]. cbn [map] in Hnot.
  rewrite IH by (intros Hin; apply Hnot; right; exact Hin).
  apply pathStep_other. intros E. apply Hnot. left. exact E.
Qed.

Lemma pathLoop_same c patterns path tbl : forall ds,
  List.NoDup (map fst tbl) -> In (c, patterns) tbl ->
  forCategory c (fold_left (pathStep inst path) tbl ds) =
  forCategory c (pathStep inst path ds (c, patterns)).
Proof.
  induction tbl as [|entry tbl IH]; intros ds Hnd Hin; [destruct Hin|].
  cbn [fold_left]. cbn [map] in Hnd. apply List.NoDup_cons_iff in Hnd as [Hfresh Hnd].
  destruct Hin as [->|Hin].
  - apply pathLoop_other. exact Hfresh.
  - rewrite (IH _ Hnd Hin). rewrite !pathStep_same. f_equal.
    apply pathStep_other. intros E. apply Hfresh. rewrite E.
    apply (in_map fst) in Hin. exact Hin.
Qed.

Lemma pathLoop_suppressed c path tbl : forall ds,
  has inst (catKey c) = true ->
  forCategory c (fold_left (pathStep inst path) tbl ds) = forCategory c ds.
Proof.
  induction tbl as [|entry tbl IH]; intros ds Hs; [reflexivity|].
  cbn [fold_left]. rewrite IH by exact Hs. apply pathStep_suppressed, Hs.
Qed.

(** *** The loop over the keywords *)

Lemma merged_category matched d : d_category (merged matched d) = d_category d.
Proof. reflexivity. Qed.

Lemma mergeExisting_forCategory c matched ds :
  match mergeExisting c matched ds with
  | Some ds' =>
      (exists d tl, forCategory c ds = d :: tl /\
                    forCategory c ds' = merged matched d :: tl) /\
      (forall c', c' <> c -> forCategory c' ds' = forCategory c' ds)
  | None => forCategory c ds = []
  end.
Proof.
  induction ds as [|d ds IH]; [reflexivity|].
  cbn [mergeExisting]. unfold forCategory in *. cbn [List.filter].
  destruct (String.eqb_spec (d_category d) c) as [E|Hne].
  - split.
    + exists d, (forCategory c ds). cbn [List.filter]. rewrite merged_category.
      apply String.eqb_eq in E. rewrite E. split; reflexivity.
    + intros c' Hc'. cbn [List.filter]. rewrite merged_category.
      assert (Hne : d_category d <> c') by congruence.
      apply String.eqb_neq in Hne. rewrite Hne. reflexivity.
  - destruct (mergeExisting c matched ds) as [ds'|]; cbn [option_map].
    + destruct IH as [(d0 & tl & E1 & E2) Hother]. split.
      * exists d0, tl. cbn [List.filter]. apply String.eqb_neq in Hne. rewrite Hne.
        split; assumption.
      * intros c' Hc'. cbn [List.filter]. rewrite (Hother c' Hc'). reflexivity.
    + exact IH.
Qed.

Lemma keywordStep_same c keywords content ds :
  forCategory c (keywordStep inst content ds (c, keywords)) =
  if has inst (catKey c) then forCategory c ds
  else
    let matched := matchedKeywordsOf content keywords in
    if 2 <=? length matched
    then match forCategory c ds with
         | [] => [mkDetection c matched (40 + Z.of_nat (length matched) * 10)]
         | d :: tl => merged matched d :: tl
         end
    else forCategory c ds.
Proof.
  unfold keywordStep. destruct (has inst (catKey c)); [reflexivity|].
  cbn zeta. destruct (2 <=? length (matchedKeywordsOf content keywords)); [|reflexivity].
  pose proof (mergeExisting_forCategory c (matchedKeywordsOf content keywords) ds) as H.
  destruct (mergeExisting c (matchedKeywordsOf content keywords) ds) as [ds'|].
  - destruct H as [(d & tl & E1 & E2) _]. rewrite E1, E2. reflexivity.
  - rewrite forCategory_app, H. unfold forCategory. cbn [List.filter d_category app].
    rewrite String.eqb_refl. reflexivity.
Qed.

Lemma keywordStep_other c content ds entry :
  fst entry <> c -> forCategory c (keywordStep inst content ds entry) = forCategory c ds.
Proof.
  destruct entry as [c' keywords]. cbn [fst]. intros Hne. unfold keywordStep.
  destruct (has inst (catKey c')); [reflexivity|].
  cbn zeta. destruct (2 <=? length (matchedKeywordsOf content keywords)); [|reflexivity].
  pose proof (mergeExisting_forCategory c' (matchedKeywordsOf content keywords) ds) as H.
  destruct (mergeExisting c' (matchedKeywordsOf content keywords) ds) as [ds'|].
  - destruct H as [_ H]. apply H. congruence.
  - rewrite forCategory_app. unfold forCategory at 2. cbn [List.filter d_category].
    apply String.eqb_neq in Hne. rewrite Hne. apply app_nil_r.
Qed.

Lemma keywordStep_suppressed c content ds entry :
  has inst (catKey c) = true ->
  forCategory c (keywordStep inst content ds entry) = forCategory c ds.
Proof.
  intros Hs. destruct (String.eqb_spec (fst entry) c) as [E|Hne].
  - destruct entry as [c' keywords]. cbn [fst] in E. subst c'.
    rewrite keywordStep_same, Hs. reflexivity.
  - apply keywordStep_other, Hne.
Qed.

Lemma keywordLoop_other c content tbl : forall ds,
  ~ In c (map fst tbl) ->
  forCategory c (fold_left (keywordStep inst content) tbl ds) = forCategory c ds.
Proof.
  induction tbl as [|entry tbl IH]; intros ds Hnot; [reflexivity|].
  cbn [fold_left]. cbn [map] in Hnot.
  rewrite IH by (intros Hin; apply Hnot; right; exact Hin).
  apply keywordStep_other. intros E. apply Hnot. left. exact E.
Qed.

Lemma keywordLoop_same c keywords content tbl : forall ds,
  List.NoDup (map fst tbl) -> In (c, keywords) tbl ->
  forCategory c (fold_left (keywordStep inst content) tbl ds) =
  forCategory c (keywordStep inst content ds (c, keywords)).
Proof.
  induction tbl as [|entry tbl IH]; intros ds Hnd Hin; [destruct Hin|].
  cbn [fold_left]. cbn [map] in Hnd. apply List.NoDup_cons_iff in Hnd as [Hfresh Hnd].
  destruct Hin as [->|Hin].
  - apply keywordLoop_other. exact Hfresh.
  - rewrite (IH _ Hnd Hin). rewrite !keywordStep_same.
    assert (E : forCategory c (keywordStep inst content ds entry) = forCategory c ds).
    { apply keywordStep_other. intros E. apply Hfresh. rewrite E.
      apply (in_map fst) in Hin. exact Hin. }
    rewrite E. reflexivity.
Qed.

Lemma keywordLoop_suppressed c content tbl : forall ds,
  has inst (catKey c) = true ->
  forCategory c (fold_left (keywordStep inst content) tbl ds) = forCategory c ds.
Proof.
  induction tbl as [|entry tbl IH]; intros ds Hs; [reflexivity|].
  cbn [fold_left]. rewrite IH by exact Hs. apply keywordStep_suppressed, Hs.
Qed.

End Detections.

(** ** The detector: the result for an event list *)

Lemma file_pattern_categories_distinct : List.NoDup (map fst DOMAIN_FILE_PATTERNS).
Proof.
  replace (map fst DOMAIN_FILE_PATTERNS)
    with (nodup string_dec (map fst DOMAIN_FILE_PATTERNS)) by (vm_compute; reflexivity).
  apply NoDup_nodup.
Qed.

Lemma keyword_categories_distinct : List.NoDup (map fst DOMAIN_KEYWORDS).
Proof.
  replace (map fst DOMAIN_KEYWORDS)
    with (nodup string_dec (map fst DOMAIN_KEYWORDS)) by (vm_compute; reflexivity).
  apply NoDup_nodup.
Qed.

Lemma detectLoop_flat_map (inst : gset string) (events : list RawEvent) :
  forall results,
    fold_left (detectStep inst) events results =
    results ++ flat_map (resultsOf inst) events.
Proof.
  induction events as [|ev events IH]; intros results; cbn [fold_left flat_map].
  - symmetry. apply app_nil_r.
  - rewrite IH. unfold detectStep, resultsOf.
    destruct (String.eqb (action ev) "file_write"); cbn [negb].
    + rewrite <- app_assoc. reflexivity.
    + reflexivity.
Qed.

(** The result is the concatenation, event by event, of the detections of
    the [file_write] events. *)
Lemma detect_flat_map (events : list RawEvent) :
  detectCustomImplementation events =
  flat_map (resultsOf (collectInstalled events)) events.
Proof. unfold detectCustomImplementation. cbn zeta. apply detectLoop_flat_map. Qed.

Lemma detect_In (events : list RawEvent) (b : CustomBuildEvent) :
  In b (detectCustomImplementation events) <->
  exists ev d, In ev events /\ action ev = "file_write" /\
               In d (detectionsOf (collectInstalled events) ev) /\
               b = customBuildOf ev d.
Proof.
  rewrite detect_flat_map, in_flat_map. unfold resultsOf. split.
  - intros (ev & Hev & Hb).
    destruct (String.eqb_spec (action ev) "file_write") as [E|_]; [|destruct Hb].
    apply in_map_iff in Hb as (d & <- & Hd). exists ev, d. auto.
  - intros (ev & d & Hev & E & Hd & ->). exists ev. split; [exact Hev|].
    rewrite E, String.eqb_refl. apply in_map, Hd.
Qed.

(** No detection for a category whose key is in the set. *)
Lemma detectionsOf_suppressed (inst : gset string) (ev : RawEvent) (c : string) :
  has inst (catKey c) = true -> forCategory c (detectionsOf inst ev) = [].
Proof.
  intros Hs. unfold detectionsOf, pathDetections. cbn zeta.
  rewrite keywordLoop_suppressed, pathLoop_suppressed by exact Hs. reflexivity.
Qed.

(** The path stage for a category whose pattern list has a first match. *)
Lemma pathDetections_hit (inst : gset string) (path c : string)
  (before after : list Re.regex) (p : Re.regex) :
  In (c, before ++ p :: after) DOMAIN_FILE_PATTERNS ->
  has inst (catKey c) = false ->
  Forall (fun q => Re.test q path = false) before -> Re.test p path = true ->
  forCategory c (pathDetections inst path) = [mkDetection c [path] 60].
Proof.
  intros Hin Hs Hbefore Hp. unfold pathDetections.
  rewrite (pathLoop_same inst c _ path _ [] file_pattern_categories_distinct Hin).
  rewrite pathStep_same, Hs, (firstPatternHit_first _ _ _ _ Hbefore Hp). reflexivity.
Qed.

(** The keyword stage for one category, from what the path stage left. *)
Lemma detectionsOf_category (inst : gset string) (ev : RawEvent) (c : string)
  (keywords : list string) :
  In (c, keywords) DOMAIN_KEYWORDS -> has inst (catKey c) = false ->
  forCategory c (detectionsOf inst ev) =
  let matched :=
    matchedKeywordsOf (match result ev with Some r => r | None => "" end) keywords in
  if 2 <=? length matched
  then match forCategory c (pathDetections inst (raw ev)) with
       | [] => [mkDetection c matched (40 + Z.of_nat (length matched) * 10)]
       | d :: tl => merged matched d :: tl
       end
  else forCategory c (pathDetections inst (raw ev)).
Proof.
  intros Hin Hs. unfold detectionsOf. cbn zeta.
  rewrite (keywordLoop_same inst c keywords _ _ _ keyword_categories_distinct Hin).
  rewrite keywordStep_same, Hs. reflexivity.
Qed.

Lemma pathDetections_at_most_one (inst : gset string) (path c : string) :
  length (forCategory c (pathDetections inst path)) <= 1.
Proof.
  unfold pathDetections.
  destruct (in_dec string_dec c (map fst DOMAIN_FILE_PATTERNS)) as [Hin|Hnot].
  - apply in_map_iff in Hin as ([c' patterns] & E & Hin). cbn [fst] in E. subst c'.
    rewrite (pathLoop_same inst c _ path _ [] file_pattern_categories_distinct Hin).
    rewrite pathStep_same. cbn [forCategory List.filter app].
    destruct (has inst (catKey c)); [cbn [length]; lia|].
    destruct (firstPatternHit patterns path); cbn [length]; lia.
  - rewrite pathLoop_other by exact Hnot. cbn [forCategory List.filter length]. lia.
Qed.

(** At most one detection per category in the array of one event. *)
Lemma detectionsOf_at_most_one (inst : gset string) (ev : RawEvent) (c : string) :
  length (forCategory c (detectionsOf inst ev)) <= 1.
Proof.
  pose proof (pathDetections_at_most_one inst (raw ev) c) as Hpath.
  destruct (in_dec string_dec c (map fst DOMAIN_KEYWORDS)) as [Hin|Hnot].
  - apply in_map_iff in Hin as ([c' keywords] & E & Hin). cbn [fst] in E. subst c'.
    destruct (has inst (catKey c)) eqn:Hs.
    + rewrite detectionsOf_suppressed by exact Hs. cbn [length]. lia.
    + rewrite (detectionsOf_category inst ev c keywords Hin Hs). cbn zeta.
      destruct (2 <=? _); [|exact Hpath].
      destruct (forCategory c (pathDetections inst (raw ev))); cbn [length] in *; lia.
  - unfold detectionsOf. cbn zeta. rewrite keywordLoop_other by exact Hnot.
    exact Hpath.
Qed.

(** What the code does for a category found by keywords only: the
    confidence is [40 + 10 * matchCount], with no cap. *)
Lemma keyword_only_detection (inst : gset string) (ev : RawEvent) (c : string)
  (keywords : list string) :
  In (c, keywords) DOMAIN_KEYWORDS -> has inst (catKey c) = false ->
  forCategory c (pathDetections inst (raw ev)) = [] ->
  let matched :=
    matchedKeywordsOf (match result ev with Some r => r | None => "" end) keywords in
  2 <= length matched ->
  forCategory c (detectionsOf inst ev) =
  [mkDetection c matched (40 + 10 * Z.of_nat (length matched))].
Proof.
  intros Hin Hs Hpath matched Hlen.
  rewrite (detectionsOf_category inst ev c keywords Hin Hs). cbn zeta. fold matched.
  apply Nat.leb_le in Hlen. rewrite Hlen, Hpath. do 2 f_equal. lia.
Qed.

(** Up to five matched keywords the cap of the specification is not
    reached, and the two formulas agree. *)
Lemma keyword_confidence_below_cap (n : nat) :
  n <= 5 -> (40 + 10 * Z.of_nat n = Z.min 95 (40 + 10 * Z.of_nat n))%Z.
Proof. lia. Qed.

(** The example of section 8: three keyword hits, no path match, nothing
    installed. *)
Example caching_example :
  let ev := mkRawEvent "e1" "s1" 0 "claude-code" "file_write" "src/store.ts"
              (Some "const cache = new Map(); const TTL = 60; export function memoize(f) {}")
              None None in
  detectCustomImplementation [ev] =
  [mkCustomBuildEvent ev "Caching" ["cache"; "ttl"; "memoize"] 70].
Proof. vm_compute. reflexivity. Qed.

(** C1: a [file_write] whose content holds seven Authentication keywords
    and whose path matches no pattern is reported with confidence
    [40 + 10 * 7 = 110], where the specification, like the cap of the
    merge branch, gives [min(95, 110) = 95], and the field is documented as
    a confidence from 0 to 100. *)
Theorem C1_keyword_confidence_exceeds_cap :
  let ev := mkRawEvent "e1" "s1" 0 "claude-code" "file_write" "src/security.ts"
              (Some "import jwt from 'jsonwebtoken'; import bcrypt from 'bcrypt'; function hashPassword() {} function verifyToken() {} function signToken() {} // login")
              None None in
  pathDetections (collectInstalled [ev]) (raw ev) = [] /\
  has (collectInstalled [ev]) (catKey "Authentication") = false /\
  detectCustomImplementation [ev] =
  [mkCustomBuildEvent ev "Authentication"
     ["jwt"; "jsonwebtoken"; "bcrypt"; "hashPassword"; "verifyToken"; "signToken"; "login"]
     110] /\
  (110 <> Z.min 95 (40 + 10 * 7))%Z.
Proof.
  cbn zeta. split; [|split; [|split]].
  - vm_compute. reflexivity.
  - vm_compute. reflexivity.
  - vm_compute. reflexivity.
  - lia.
Qed.



(** The name extracted from an install of a scoped package is empty:
    [/@[^/].*$/], meant for a version suffix, takes the whole of
    [@sentry/node].  The category suppressed is then the one of the empty
    name, and a logger written in the same event set is reported. *)
Example scoped_install_extracts_empty_name :
  let install := mkRawEvent "e1" "s1" 0 "claude-code" "bash" "npm install @sentry/node" None None None in
  let write := mkRawEvent "e2" "s1" 1 "claude-code" "file_write" "src/lib/logger.ts" None None None in
  extractPackageNames (raw install) = [""] /\
  categorizePackage "@sentry/node" = Some "Observability" /\
  detectCustomImplementation [install; write] =
  [mkCustomBuildEvent write "Observability" ["src/lib/logger.ts"] 60].
Proof. vm_compute. repeat split; reflexivity. Qed.

Lemma resultsOf_forCategory (inst : gset string) (ev : RawEvent) (c : string) :
  List.filter (fun b => String.eqb (category b) c) (resultsOf inst ev) =
  if String.eqb (action ev) "file_write"
  then map (customBuildOf ev) (forCategory c (detectionsOf inst ev))
  else [].
Proof.
  unfold resultsOf. destruct (String.eqb (action ev) "file_write"); [|reflexivity].
  unfold forCategory. induction (detectionsOf inst ev) as [|d ds IH]; [reflexivity|].
  cbn [map List.filter customBuildOf category].
  destruct (String.eqb (d_category d) c); cbn [map]; rewrite IH; reflexivity.
Qed.

Lemma detect_In_category (events : list RawEvent) (ev : RawEvent) (c : string)
  (d : Detection) :
  In ev events -> action ev = "file_write" ->
  forCategory c (detectionsOf (collectInstalled events) ev) = [d] ->
  In (customBuildOf ev d) (detectCustomImplementation events).
Proof.
  intros Hev Hwrite Hd. apply detect_In. exists ev, d.
  split; [exact Hev|]. split; [exact Hwrite|]. split; [|reflexivity].
  apply (forCategory_subset c). rewrite Hd. left. reflexivity.
Qed.

Lemma resultsOf_at_most_one (inst : gset string) (e : RawEvent) (c : string) :
  length (List.filter (fun b => String.eqb (category b) c) (resultsOf inst e)) <= 1.
Proof.
  rewrite resultsOf_forCategory.
  destruct (String.eqb (action e) "file_write"); [|cbn [length]; lia].
  rewrite length_map. apply detectionsOf_at_most_one.
Qed.

(** A path detection and the keywords of its category: merged when two or
    more keywords match, left alone otherwise. *)
Lemma detectionsOf_merged (inst : gset string) (ev : RawEvent) (c : string)
  (keywords : list string) :
  In (c, keywords) DOMAIN_KEYWORDS -> has inst (catKey c) = false ->
  forCategory c (pathDetections inst (raw ev)) = [mkDetection c [raw ev] 60] ->
  forCategory c (detectionsOf inst ev) =
  [ if 2 <=? length (matchedKeywordsOf
                       (match result ev with Some r => r | None => "" end) keywords)
    then mkDetection c
           (raw ev :: matchedKeywordsOf
                        (match result ev with Some r => r | None => "" end) keywords)
           (Z.min 95
              (60 + 10 * Z.of_nat
                        (length (matchedKeywordsOf
                                   (match result ev with Some r => r | None => "" end)
                                   keywords))))
    else mkDetection c [raw ev] 60 ].
Proof.
  intros Hkw Hs Hpath.
  rewrite (detectionsOf_category inst ev c keywords Hkw Hs). cbv zeta.
  rewrite Hpath.
  set (matched := matchedKeywordsOf _ keywords).
  destruct (2 <=? length matched); [|reflexivity].
  unfold merged. cbn [d_category d_keywords d_confidence app].
  do 2 f_equal. lia.
Qed.

(** C5: for a [file_write] event [ev] of the list and a category that is
    not suppressed, let [p] be the first pattern of the category that
    matches the path (the patterns [before] it fail; the patterns [after]
    it are not tried).  The path stage leaves one detection, of confidence
    60.  The array of the event then holds one detection for the category:
    with two or more matched keywords it is the path detection merged - the
    keywords appended to [[path]], the confidence [min(95, 60 + 10 * n)] -
    and otherwise the path detection as it was.  That detection is in the
    result, and no event contributes two elements of one category. *)
Theorem C5_path_detection_merged_once (events : list RawEvent) (ev : RawEvent)
  (cat : string) (before after : list Re.regex) (p : Re.regex)
  (keywords : list string) :
  In ev events -> action ev = "file_write" ->
  In (cat, before ++ p :: after) DOMAIN_FILE_PATTERNS ->
  In (cat, keywords) DOMAIN_KEYWORDS ->
  has (collectInstalled events) (catKey cat) = false ->
  Forall (fun q => Re.test q (raw ev) = false) before ->
  Re.test p (raw ev) = true ->
  let inst := collectInstalled events in
  let matched :=
    matchedKeywordsOf (match result ev with Some r => r | None => "" end) keywords in
  let n := Z.of_nat (length matched) in
  let detection :=
    if 2 <=? length matched
    then mkDetection cat (raw ev :: matched) (Z.min 95 (60 + 10 * n))
    else mkDetection cat [raw ev] 60 in
  forCategory cat (pathDetections inst (raw ev)) = [mkDetection cat [raw ev] 60] /\
  forCategory cat (detectionsOf inst ev) = [detection] /\
  In (customBuildOf ev detection) (detectCustomImplementation events) /\
  (forall e c,
     length (List.filter (fun b => String.eqb (category b) c) (resultsOf inst e)) <= 1) /\
  detectCustomImplementation events = flat_map (resultsOf inst) events.
Proof.
  intros Hev Hwrite Hpat Hkw Hs Hbefore Hp. cbv zeta.
  pose proof (pathDetections_hit _ (raw ev) cat before after p Hpat Hs Hbefore Hp)
    as Hpath.
  pose proof (detectionsOf_merged _ ev cat keywords Hkw Hs Hpath) as Hfinal.
  split; [exact Hpath|]. split; [exact Hfinal|]. split; [|split].
  - exact (detect_In_category events ev cat _ Hev Hwrite Hfinal).
  - intros e c. apply resultsOf_at_most_one.
  - apply detect_flat_map.
Qed.

Lemma C5_path_detection_merged_once_witness :
  let ev := mkRawEvent "e1" "s1" 0 "claude-code" "file_write" "src/lib/cache.ts"
              (Some "const cache = new Map(); const TTL = 60; export function memoize(f) {}")
              None None in
  forCategory "Caching" (pathDetections (collectInstalled [ev]) "src/lib/cache.ts")
    = [mkDetection "Caching" ["src/lib/cache.ts"] 60] /\
  forCategory "Caching" (detectionsOf (collectInstalled [ev]) ev)
    = [mkDetection "Caching" ["src/lib/cache.ts"; "cache"; "ttl"; "memoize"] 90] /\
  In (mkCustomBuildEvent ev "Caching" ["src/lib/cache.ts"; "cache"; "ttl"; "memoize"] 90)
     (detectCustomImplementation [ev]).
Proof.
  cbn zeta.
  pose proof
    (C5_path_detection_merged_once
       [mkRawEvent "e1" "s1" 0 "claude-code" "file_write" "src/lib/cache.ts"
          (Some "const cache = new Map(); const TTL = 60; export function memoize(f) {}")
          None None]
       (mkRawEvent "e1" "s1" 0 "claude-code" "file_write" "src/lib/cache.ts"
          (Some "const cache = new Map(); const TTL = 60; export function memoize(f) {}")
          None None)
       "Caching" [] [atEnd "cache.js"; anywhere "lib/cache"; anywhere "utils/cache"]
       (atEnd "cache.ts")
       ["cache"; "ttl"; "lru"; "memoize"; "invalidate-cache"; "cacheKey"; "cache-control"; "redis-client"])
    as H.
  destruct H as (H1 & H2 & H3 & _).
  - left. reflexivity.
  - reflexivity.
  - vm_compute. right. left. reflexivity.
  - vm_compute. right. left. reflexivity.
  - vm_compute. reflexivity.
  - constructor.
  - vm_compute. reflexivity.
  - vm_compute in H1, H2, H3. vm_compute. exact (conj H1 (conj H2 H3)).
Defined.

(** ** Unexpected input *)






(** ** The summary *)

Section Summary.

Variables (customBuilds : list CustomBuildEvent) (installEvents : list InstallEvent).


Lemma insertRow_perm (x : SummaryRow) (l : list SummaryRow) :
  Permutation (insertRow x l) (x :: l).
Proof.
  induction l as [|y l IH]; cbn [insertRow]; [reflexivity|].
  destruct (totalOf y <=? totalOf x); [reflexivity|].
  rewrite IH. apply perm_swap.
Qed.

Lemma sortRows_perm (l : list SummaryRow) : Permutation (sortRows l) l.
Proof.
  induction l as [|x l IH]; cbn [sortRows]; [reflexivity|].
  rewrite insertRow_perm, IH. reflexivity.
Qed.



(** The loop over the categories keeps, in taxonomy order, the rows of the
    categories whose total is not zero. *)
Lemma summaryLoop_rows (cats : list string) : forall summary,
  fold_left (summaryStep customBuilds installEvents) cats summary =
  summary ++
    map (rowFor customBuilds installEvents)
        (List.filter (fun cat => negb (totalOf (rowFor customBuilds installEvents cat) =? 0))
                     cats).
Proof.
  induction cats as [|cat cats IH]; intros summary; cbn [fold_left List.filter].
  - symmetry. apply app_nil_r.
  - rewrite IH. unfold summaryStep. cbv zeta.
    change (totalOf (rowFor customBuilds installEvents cat))
      with (instCountOf installEvents cat + customCountOf customBuilds cat).
    destruct (instCountOf installEvents cat + customCountOf customBuilds cat =? 0);
      cbn [negb map]; [reflexivity|].
    rewrite <- app_assoc. reflexivity.
Qed.

Lemma summary_perm :
  Permutation (getBuildVsBuySummary customBuilds installEvents)
    (map (rowFor customBuilds installEvents)
       (List.filter (fun cat => negb (totalOf (rowFor customBuilds installEvents cat) =? 0))
                    getCategories)).
Proof.
  unfold getBuildVsBuySummary. cbv zeta. rewrite sortRows_perm, summaryLoop_rows.
  reflexivity.
Qed.

Lemma categories_distinct : List.NoDup getCategories.
Proof.
  replace getCategories with (nodup string_dec getCategories) by (vm_compute; reflexivity).
  apply NoDup_nodup.
Qed.



End Summary.

(** The quotient is rounded to binary64 before [Math.round] sees it, so a
    tie between two hundredths can fall on either side: 57 of 800 is
    7.125 % and comes out as 7.12. *)
Example pct_tie_in_binary64 :
  pctOf 57 800 = Number.div (Number.ofZ 712) (Number.ofZ 100).
Proof. vm_compute. reflexivity. Qed.





(** ** The install hook *)

Module HookProps.
Import Hook.

Section WithPlatform.
Context `{Platform}.




Lemma getProp_exit (v : json) (name : string) (code : Z) :
  getProp v name <> Exit code.
Proof. destruct v; discriminate. Qed.

Lemma getPropOpt_exit (v : value) (name : string) (code : Z) :
  getPropOpt v name <> Exit code.
Proof. destruct v as [[]|]; discriminate. Qed.

Lemma callMatchInstallCommand_exit (command : json) (code : Z) :
  callMatchInstallCommand command <> Exit code.
Proof.
  destruct command; cbn [callMatchInstallCommand]; try discriminate;
    destruct (existsb _ INSTALL_PATTERNS); discriminate.
Qed.

Lemma getSessionId_exit (hookData : json) (code : Z) :
  getSessionId hookData <> Exit code.
Proof.
  unfold getSessionId. destruct (getProp hookData "session_id") as [v| |c] eqn:E.
  - destruct (truthyValue v); [|discriminate]. destruct v as [[]|]; discriminate.
  - discriminate.
  - destruct (getProp_exit _ _ _ E).
Qed.

Lemma isAlreadyAllowed_pure (sessionId packageName : string) (fs : files) :
  exists b, isAlreadyAllowed sessionId packageName fs = (Ret b, fs).
Proof.
  unfold isAlreadyAllowed.
  destruct (fs !! getAllowedPath sessionId) as [[|[]]|]; eauto.
Qed.






Lemma attempt_unique (env : Env) (sessionId sessionId' name name' : string) :
  attempt env sessionId name -> attempt env sessionId' name' ->
  sessionId = sessionId' /\ name = name'.
Proof.
  intros (hd & c & im & E1 & _ & E2 & _ & E3 & E4 & <-)
         (hd' & c' & im' & E1' & _ & E2' & _ & E3' & E4' & <-).
  rewrite E1 in E1'. injection E1' as <-.
  rewrite E2 in E2'. injection E2' as <-.
  rewrite E3 in E3'. injection E3' as <-.
  rewrite E4 in E4'. injection E4' as <-. auto.
Qed.



End WithPlatform.



End HookProps.

(** ** Determinism: what a call leaves behind *)

Module ObjectsProps.

Lemma test_flagless (r : Objects.RegExp) (s : string) :
  Objects.global r = false -> Objects.sticky r = false ->
  Objects.test r s = (Re.test (Objects.source r) s, r).
Proof. intros Hg Hy. unfold Objects.test. rewrite Hg, Hy. reflexivity. Qed.

Lemma firstPatternHit_flagless (patterns : list Objects.RegExp) (filePath : string) :
  Forall (fun r => Objects.global r = false /\ Objects.sticky r = false) patterns ->
  Objects.firstPatternHit patterns filePath =
  (firstPatternHit (map Objects.source patterns) filePath, patterns).
Proof.
  induction 1 as [|r patterns [Hg Hy] _ IH]; [reflexivity|].
  cbn [Objects.firstPatternHit map firstPatternHit].
  rewrite (test_flagless r filePath Hg Hy).
  destruct (Re.test (Objects.source r) filePath); [reflexivity|].
  rewrite IH. reflexivity.
Qed.

Lemma pathLoop_flagless (inst : gset string) (filePath : string) (tbl : Objects.table) :
  Objects.flagless tbl ->
  forall detections,
    Objects.pathLoop inst filePath tbl detections =
    (fold_left (pathStep inst filePath) (Objects.sources tbl) detections, tbl).
Proof.
  induction 1 as [|[category patterns] tbl Hflags _ IH]; intros detections;
    [reflexivity|].
  cbn [Objects.pathLoop Objects.sources map fold_left]. unfold pathStep at 2.
  destruct (has inst (catKey category)).
  - rewrite IH. reflexivity.
  - cbn [snd] in Hflags. rewrite (firstPatternHit_flagless _ _ Hflags).
    cbv beta iota. rewrite IH. reflexivity.
Qed.

Lemma loaded_flagless : Objects.flagless Objects.loaded.
Proof. repeat constructor. Qed.

Lemma loaded_sources : Objects.sources Objects.loaded = DOMAIN_FILE_PATTERNS.
Proof. reflexivity. Qed.

Lemma detectLoop_flagless (inst : gset string) (tbl : Objects.table) :
  Objects.flagless tbl -> Objects.sources tbl = DOMAIN_FILE_PATTERNS ->
  forall events results,
    Objects.detectLoop inst events results tbl =
    (fold_left (detectStep inst) events results, tbl).
Proof.
  intros Hflags Hsources.
  induction events as [|ev events IH]; intros results; [reflexivity|].
  cbn [Objects.detectLoop fold_left]. unfold detectStep at 2.
  destruct (negb (String.eqb (action ev) "file_write")); [apply IH|].
  unfold Objects.detectionsOf, detectionsOf, pathDetections. cbv zeta.
  rewrite (pathLoop_flagless inst (raw ev) tbl Hflags), Hsources.
  cbv beta iota. rewrite IH. reflexivity.
Qed.

(** A call on objects without flags returns what the function on the
    patterns returns and leaves the objects as they were. *)
Lemma detect_on_objects (tbl : Objects.table) (events : list RawEvent) :
  Objects.flagless tbl -> Objects.sources tbl = DOMAIN_FILE_PATTERNS ->
  Objects.detectCustomImplementation tbl events =
  (detectCustomImplementation events, tbl).
Proof.
  intros Hflags Hsources. unfold Objects.detectCustomImplementation.
  apply detectLoop_flagless; assumption.
Qed.

(** With the g flag the same [test] on the same string answers
    differently the second time: the objects of the detector must not
    have it. *)
Example global_flag_is_stateful :
  let r := Objects.mkRegExp (anywhere "lib/cache") true false 0 in
  let '(first, r1) := Objects.test r "src/lib/cache.ts" in
  let '(second, _) := Objects.test r1 "src/lib/cache.ts" in
  first = true /\ second = false.
Proof. vm_compute. split; reflexivity. Qed.

(** C8: two calls of [detectCustomImplementation] in a row on the same
    event list, the second on the pattern objects as the first leaves
    them, return equal arrays, and [categorizePackage] returns equal
    answers for equal names: the pattern objects have no flag, so no call
    moves a [lastIndex], and the map of the categorizer is only read. *)
Theorem C8_classification_deterministic (events : list RawEvent) (name : string) :
  let '(first, objects1) := Objects.detectCustomImplementation Objects.loaded events in
  let '(second, objects2) := Objects.detectCustomImplementation objects1 events in
  first = second /\
  first = detectCustomImplementation events /\
  objects1 = Objects.loaded /\ objects2 = Objects.loaded /\
  (forall name', name' = name -> categorizePackage name' = categorizePackage name).
Proof.
  rewrite (detect_on_objects Objects.loaded events loaded_flagless loaded_sources).
  rewrite (detect_on_objects Objects.loaded events loaded_flagless loaded_sources).
  repeat split. intros name' ->. reflexivity.
Qed.

End ObjectsProps.

(** * Further properties *)

(** ** Strings *)

Lemma lowerChar_idempotent (c : ascii) : lowerChar (lowerChar c) = lowerChar c.
Proof. destruct c as [[] [] [] [] [] [] [] []]; vm_compute; reflexivity. Qed.

Lemma toLowerCase_idempotent (s : string) : toLowerCase (toLowerCase s) = toLowerCase s.
Proof.
  induction s as [|c s IH]; [reflexivity|].
  cbn [toLowerCase]. rewrite lowerChar_idempotent, IH. reflexivity.
Qed.

Lemma append_cons (c : ascii) (a b : string) : String c a +:+ b = String c (a +:+ b).
Proof. reflexivity. Qed.

Lemma append_nil_l (b : string) : "" +:+ b = b.
Proof. reflexivity. Qed.

Lemma append_nil_r (b : string) : b +:+ "" = b.
Proof. induction b as [|c b IH]; [reflexivity|]. rewrite append_cons, IH. reflexivity. Qed.

Lemma toLowerCase_append (a b : string) :
  toLowerCase (a +:+ b) = toLowerCase a +:+ toLowerCase b.
Proof.
  induction a as [|c a IH]; [reflexivity|].
  rewrite append_cons. cbn [toLowerCase]. rewrite append_cons, IH. reflexivity.
Qed.

Lemma lowerChar_slash (c : ascii) : Ascii.eqb (lowerChar c) "/" = Ascii.eqb c "/".
Proof. destruct c as [[] [] [] [] [] [] [] []]; vm_compute; reflexivity. Qed.

Lemma lowerChar_at (c : ascii) : Ascii.eqb "@" (lowerChar c) = Ascii.eqb "@" c.
Proof. destruct c as [[] [] [] [] [] [] [] []]; vm_compute; reflexivity. Qed.

Lemma startsWith_refl (s : string) : startsWith s s = true.
Proof.
  induction s as [|c s IH]; [reflexivity|].
  cbn [startsWith]. rewrite Ascii.eqb_refl, IH. reflexivity.
Qed.

Lemma startsWith_append (s t : string) : startsWith (s +:+ t) s = true.
Proof.
  induction s as [|c s IH]; [reflexivity|].
  rewrite append_cons. cbn [startsWith]. rewrite Ascii.eqb_refl, IH. reflexivity.
Qed.

Lemma includes_unfold (s sub : string) :
  includes s sub =
  startsWith s sub || match s with EmptyString => false | String _ s' => includes s' sub end.
Proof. destruct s; reflexivity. Qed.

Lemma includes_refl (s : string) : includes s s = true.
Proof. rewrite includes_unfold, startsWith_refl. reflexivity. Qed.

(** A string includes each of its parts. *)
Lemma includes_middle (a b c : string) : includes (a +:+ b +:+ c) b = true.
Proof.
  induction a as [|x a IH].
  - rewrite append_nil_l, includes_unfold, startsWith_append. reflexivity.
  - rewrite append_cons, includes_unfold. cbn iota. rewrite IH. apply orb_true_r.
Qed.

Lemma includes_suffix (a b : string) : includes (a +:+ b) b = true.
Proof.
  pose proof (includes_middle a b "") as H. rewrite append_nil_r in H. exact H.
Qed.

(** ** The taxonomy and the categorizer *)

Section Taxonomy.

Import CategorizerSpec.

Lemma ownCategory_In (key : string) (packages : list string)
  (table : list (string * list string)) :
  ownCategory key table = Some packages -> In (key, packages) table.
Proof.
  induction table as [|[c ps] table IH]; cbn [ownCategory]; [discriminate|].
  destruct (String.eqb_spec c key) as [->|_].
  - intros [= ->]. left. reflexivity.
  - intros E. right. apply IH, E.
Qed.

Lemma getCategoryPackages_In (category pkg : string) (packages : list string) :
  getCategoryPackages category = Packages packages -> In pkg packages ->
  In (category, packages) TOOL_CATEGORIES.
Proof.
  unfold getCategoryPackages.
  destruct (ownCategory category TOOL_CATEGORIES) as [ps|] eqn:E.
  - intros [= <-] _. apply ownCategory_In, E.
  - destruct (existsb _ objectPrototypeNames); [discriminate|].
    intros [= <-] [].
Qed.

Lemma reverseIndex_In (category pkg : string) (packages : list string) :
  In (category, packages) TOOL_CATEGORIES -> In pkg packages ->
  In (pkg, category) reverseIndex.
Proof.
  intros Hc Hp. unfold reverseIndex. apply in_flat_map.
  exists (category, packages). split; [exact Hc|]. apply in_map_iff. exists pkg. auto.
Qed.

Lemma reverseIndex_In_inv (category pkg : string) :
  In (pkg, category) reverseIndex ->
  exists packages, In (category, packages) TOOL_CATEGORIES /\ In pkg packages.
Proof.
  unfold reverseIndex. intros H. apply in_flat_map in H as ([c ps] & Hc & H).
  apply in_map_iff in H as (p & [= <- <-] & Hp). eauto.
Qed.

(** No package is listed twice, whatever the letter case. *)
Lemma packages_distinct :
  List.NoDup (map (fun entry => toLowerCase (fst entry)) reverseIndex).
Proof.
  replace (map (fun entry => toLowerCase (fst entry)) reverseIndex)
    with (nodup string_dec (map (fun entry => toLowerCase (fst entry)) reverseIndex))
    by (vm_compute; reflexivity).
  apply NoDup_nodup.
Qed.

Lemma find_unique (l : list (string * string)) (pkg cat key : string) :
  List.NoDup (map (fun entry => toLowerCase (fst entry)) l) ->
  In (pkg, cat) l -> toLowerCase pkg = key ->
  find (fun '(p, _) => String.eqb (toLowerCase p) key) l = Some (pkg, cat).
Proof.
  induction l as [|[p c] l IH]; intros Hnd Hin Hkey; [destruct Hin|].
  cbn [map fst] in Hnd. apply List.NoDup_cons_iff in Hnd as [Hfresh Hnd].
  cbn [find]. destruct Hin as [[= -> ->]|Hin].
  - rewrite Hkey, String.eqb_refl. reflexivity.
  - destruct (String.eqb_spec (toLowerCase p) key) as [E|_]; [|apply IH; assumption].
    exfalso. apply Hfresh. rewrite E, <- Hkey.
    apply (in_map (fun entry => toLowerCase (fst entry)) _ _ Hin).
Qed.

(** The exact rule on a listed package, in any letter case. *)
Lemma exact_listed (category pkg name : string) (packages : list string) :
  In (category, packages) TOOL_CATEGORIES -> In pkg packages ->
  toLowerCase name = toLowerCase pkg ->
  exact name = Some category.
Proof.
  intros Hc Hp Hname. unfold exact.
  rewrite (find_unique reverseIndex pkg category (toLowerCase name) packages_distinct
             (reverseIndex_In _ _ _ Hc Hp) (eq_sym Hname)).
  reflexivity.
Qed.

Lemma exact_In (name c : string) :
  exact name = Some c ->
  exists pkg, In (pkg, c) reverseIndex /\ toLowerCase pkg = toLowerCase name.
Proof.
  unfold exact. destruct (find _ reverseIndex) as [[p c']|] eqn:E; [|discriminate].
  intros [= <-]. apply find_some in E as [Hin E]. apply String.eqb_eq in E. eauto.
Qed.

Lemma fuzzyMatch_None (name : string) :
  fuzzyMatch name = None <->
  forall pkg cat, In (pkg, cat) reverseIndex ->
                  contains name pkg = false /\ contains pkg name = false.
Proof.
  unfold fuzzyMatch. split.
  - intros H pkg cat Hin.
    destruct (find _ reverseIndex) eqn:E; [discriminate|].
    pose proof (find_none _ _ E _ Hin) as Hf. cbn beta iota in Hf.
    apply orb_false_iff in Hf. exact Hf.
  - intros H. destruct (find _ reverseIndex) as [[p c]|] eqn:E; [|reflexivity].
    apply find_some in E as [Hin E]. destruct (H p c Hin) as [E1 E2].
    rewrite E1, E2 in E. discriminate.
Qed.

Lemma afterSlash_suffix (s t : string) :
  afterSlash s = Some t -> exists pre, s = pre +:+ t.
Proof.
  revert t. induction s as [|c s IH]; intros t; cbn [afterSlash]; [discriminate|].
  destruct (Ascii.eqb c "/").
  - intros [= ->]. exists (String c ""). reflexivity.
  - intros E. apply IH in E as [pre ->]. exists (String c pre). reflexivity.
Qed.

Lemma scoped_suffix (name pkg : string) :
  scoped name = Some pkg -> exists pre, name = pre +:+ pkg.
Proof.
  destruct name as [|a [|c s]]; try discriminate.
  - destruct a as [[] [] [] [] [] [] [] []]; discriminate.
  - destruct a as [[] [] [] [] [] [] [] []]; try discriminate.
    cbn [scoped]. destruct (Ascii.eqb c "/"); [discriminate|].
    intros E. apply afterSlash_suffix in E as [pre ->].
    exists (String "@" (String c pre)). reflexivity.
Qed.

(** A name that the exact or the scoped rule accepts is also accepted by
    the fuzzy rule: the answer is [null] only when the fuzzy rule fails. *)
Lemma categorize_None (name : string) :
  categorize name = None <-> fuzzyMatch name = None.
Proof.
  unfold categorize. split.
  - destruct (exact name); [discriminate|].
    destruct (match scoped name with Some pkg => exact pkg | None => None end);
      [discriminate | auto].
  - intros Hf. pose proof (proj1 (fuzzyMatch_None name) Hf) as Hnone.
    destruct (exact name) as [c|] eqn:E.
    { apply exact_In in E as (pkg & Hin & Hlow). destruct (Hnone pkg c Hin) as [H1 _].
      unfold contains in H1. rewrite Hlow, includes_refl in H1. discriminate. }
    destruct (scoped name) as [p|] eqn:Es; [|exact Hf].
    destruct (exact p) as [c|] eqn:E'; [|exact Hf].
    apply exact_In in E' as (pkg & Hin & Hlow). destruct (Hnone pkg c Hin) as [H1 _].
    apply scoped_suffix in Es as [pre ->].
    unfold contains in H1. rewrite Hlow, toLowerCase_append, includes_suffix in H1.
    discriminate.
Qed.

End Taxonomy.

(** X1: a package listed under a category by [getCategoryPackages] is
    categorized to that category, in any letter case. *)
Theorem X1_listed_package_categorized (category pkg name : string)
  (packages : list string) :
  getCategoryPackages category = Packages packages ->
  In pkg packages ->
  toLowerCase name = toLowerCase pkg ->
  categorizePackage name = Some category /\ In category getCategories.
Proof.
  intros Hget Hp Hname.
  pose proof (getCategoryPackages_In _ _ _ Hget Hp) as Hc.
  rewrite categorizePackage_refines. unfold CategorizerSpec.categorize.
  rewrite (exact_listed category pkg name packages Hc Hp Hname).
  split; [reflexivity|]. apply (in_map fst _ _ Hc).
Qed.

Lemma X1_listed_package_categorized_witness :
  categorizePackage "Lru-Cache" = Some "Caching" /\ In "Caching" getCategories.
Proof.
  apply (X1_listed_package_categorized "Caching" "lru-cache" "Lru-Cache"
           ["redis"; "ioredis"; "memcached"; "keyv"; "node-cache"; "lru-cache";
            "cacheable"; "catbox"]).
  - vm_compute. reflexivity.
  - vm_compute. do 5 right. left. reflexivity.
  - vm_compute. reflexivity.
Defined.

(** X3: [categorizePackage] answers [null] exactly for the names that
    overlap with no listed package: no listed package is part of the name,
    and the name is part of no listed package (letter case apart). *)
Theorem X3_null_iff_no_overlap (name : string) :
  categorizePackage name = None <->
  forall category packages pkg,
    In (category, packages) TOOL_CATEGORIES -> In pkg packages ->
    includes (toLowerCase name) (toLowerCase pkg) = false /\
    includes (toLowerCase pkg) (toLowerCase name) = false.
Proof.
  rewrite categorizePackage_refines, categorize_None, fuzzyMatch_None. split.
  - intros H category packages pkg Hc Hp.
    exact (H pkg category (reverseIndex_In _ _ _ Hc Hp)).
  - intros H pkg cat Hin.
    apply reverseIndex_In_inv in Hin as (packages & Hc & Hp).
    exact (H cat packages pkg Hc Hp).
Qed.

Section LetterCase.

Import CategorizerSpec.

Lemma afterSlash_lower (s : string) :
  afterSlash (toLowerCase s) = option_map toLowerCase (afterSlash s).
Proof.
  induction s as [|c s IH]; [reflexivity|].
  cbn [toLowerCase afterSlash]. rewrite lowerChar_slash.
  destruct (Ascii.eqb c "/"); [reflexivity | exact IH].
Qed.

Lemma scoped_lower (name : string) :
  scoped (toLowerCase name) = option_map toLowerCase (scoped name).
Proof.
  destruct name as [|a [|c s]]; [reflexivity | |].
  - destruct a as [[] [] [] [] [] [] [] []]; reflexivity.
  - destruct a as [[] [] [] [] [] [] [] []]; try reflexivity.
    change (toLowerCase (String "@" (String c s)))
      with (String "@" (String (lowerChar c) (toLowerCase s))).
    cbn [scoped]. rewrite lowerChar_slash.
    destruct (Ascii.eqb c "/"); [reflexivity | apply afterSlash_lower].
Qed.

Lemma exact_lower (name : string) : exact (toLowerCase name) = exact name.
Proof. unfold exact. rewrite toLowerCase_idempotent. reflexivity. Qed.

Lemma scopedExact_lower (name : string) :
  match scoped (toLowerCase name) with Some pkg => exact pkg | None => None end =
  match scoped name with Some pkg => exact pkg | None => None end.
Proof.
  rewrite scoped_lower. destruct (scoped name) as [p|]; [|reflexivity].
  cbn [option_map]. apply exact_lower.
Qed.

Lemma categorize_lower (name : string) : categorize (toLowerCase name) = categorize name.
Proof.
  unfold categorize. rewrite exact_lower, scopedExact_lower.
  unfold fuzzyMatch, contains. rewrite toLowerCase_idempotent. reflexivity.
Qed.

Lemma afterSlash_append (scope pkg : string) :
  includes scope "/" = false -> afterSlash (scope +:+ "/" +:+ pkg) = Some pkg.
Proof.
  induction scope as [|c scope IH]; intros Hno; [reflexivity|].
  rewrite includes_unfold in Hno. cbn [startsWith] in Hno.
  apply orb_false_iff in Hno as [Hc Hno]. rewrite andb_true_r in Hc.
  rewrite append_cons. cbn [afterSlash]. rewrite Ascii.eqb_sym, Hc. apply IH, Hno.
Qed.

Lemma scoped_append (scope pkg : string) :
  scope <> "" -> includes scope "/" = false ->
  scoped ("@" +:+ scope +:+ "/" +:+ pkg) = Some pkg.
Proof.
  intros Hne Hno. destruct scope as [|c scope]; [congruence|].
  rewrite includes_unfold in Hno. cbn [startsWith] in Hno.
  apply orb_false_iff in Hno as [Hc Hno]. rewrite andb_true_r in Hc.
  change ("@" +:+ String c scope +:+ "/" +:+ pkg)
    with (String "@" (String c (scope +:+ "/" +:+ pkg))).
  cbn [scoped]. rewrite Ascii.eqb_sym, Hc. apply afterSlash_append, Hno.
Qed.

End LetterCase.

(** X2: [categorizePackage] does not look at the letter case: two names
    that are equal once lower-cased get the same answer. *)
Theorem X2_categorize_ignores_case (a b : string) :
  toLowerCase a = toLowerCase b -> categorizePackage a = categorizePackage b.
Proof.
  intros Hab. rewrite !categorizePackage_refines.
  rewrite <- (categorize_lower a), <- (categorize_lower b), Hab. reflexivity.
Qed.

Lemma X2_categorize_ignores_case_witness :
  categorizePackage "@MyOrg/JsonWebToken" = categorizePackage "@myorg/jsonwebtoken".
Proof.
  apply X2_categorize_ignores_case. vm_compute. reflexivity.
Defined.

(** X4: a listed package under a scope, [@scope/pkg], gets the category
    of the package, unless the scoped name is itself a key of the map. *)
Theorem X4_scoped_listed_package (category scope pkg : string) (packages : list string) :
  getCategoryPackages category = Packages packages ->
  In pkg packages ->
  scope <> "" -> includes scope "/" = false ->
  JsMap.get (toLowerCase ("@" +:+ scope +:+ "/" +:+ pkg)) _packageToCategory = None ->
  categorizePackage ("@" +:+ scope +:+ "/" +:+ pkg) = Some category.
Proof.
  intros Hget Hp Hne Hno Hfresh.
  pose proof (getCategoryPackages_In _ _ _ Hget Hp) as Hc.
  rewrite categorizePackage_refines. unfold CategorizerSpec.categorize.
  rewrite <- direct_is_exact, Hfresh. cbn [truthyGet].
  rewrite (scoped_append scope pkg Hne Hno).
  rewrite (exact_listed category pkg pkg packages Hc Hp eq_refl). reflexivity.
Qed.

Lemma X4_scoped_listed_package_witness :
  categorizePackage ("@" +:+ "acme" +:+ "/" +:+ "stripe") = Some "Payments".
Proof.
  apply (X4_scoped_listed_package "Payments" "acme" "stripe"
           ["stripe"; "@stripe/stripe-js"; "paypal"; "square"; "braintree";
            "lemonsqueezy"; "@lemonsqueezy/lemonsqueezy.js"]).
  - vm_compute. reflexivity.
  - left. reflexivity.
  - discriminate.
  - vm_compute. reflexivity.
  - vm_compute. reflexivity.
Defined.

(** ** Further properties of the detector *)

Lemma fold_left_filter {A B : Type} (f : A -> B -> A) (p : B -> bool) (l : list B) :
  (forall a x, p x = false -> f a x = a) ->
  forall a, fold_left f (List.filter p l) a = fold_left f l a.
Proof.
  intros Hskip. induction l as [|x l IH]; intros a; cbn [List.filter fold_left].
  - reflexivity.
  - destruct (p x) eqn:Hp; cbn [fold_left].
    + apply IH.
    + rewrite (Hskip a x Hp). apply IH.
Qed.

Lemma addEvent_irrelevant (inst : gset string) (ev : RawEvent) :
  relevant ev = false -> addEvent inst ev = inst.
Proof.
  unfold relevant, addEvent. intros H. apply orb_false_iff in H as [-> _]. reflexivity.
Qed.

Lemma detectStep_irrelevant (inst : gset string) (results : list CustomBuildEvent)
  (ev : RawEvent) :
  relevant ev = false -> detectStep inst results ev = results.
Proof.
  unfold relevant, detectStep. intros H. apply orb_false_iff in H as [_ ->]. reflexivity.
Qed.

(** X5: events that are neither [bash] nor [file_write] (reads, searches,
    anything else an agent logs) have no influence on the result: dropping
    them from the list gives the same detections. *)
Theorem X5_other_actions_ignored (events : list RawEvent) :
  detectCustomImplementation (List.filter relevant events) =
  detectCustomImplementation events.
Proof.
  unfold detectCustomImplementation, collectInstalled. cbv zeta.
  rewrite (fold_left_filter addEvent relevant events)
    by (intros; apply addEvent_irrelevant; assumption).
  apply fold_left_filter. intros; apply detectStep_irrelevant; assumption.
Qed.

Section SameForDetector.

Lemma addEvent_same (inst : gset string) (e1 e2 : RawEvent) :
  sameForDetector e1 e2 -> addEvent inst e1 = addEvent inst e2.
Proof. intros (Ea & Er & _). unfold addEvent. rewrite Ea, Er. reflexivity. Qed.

Lemma collectLoop_same (es1 es2 : list RawEvent) :
  Forall2 sameForDetector es1 es2 ->
  forall inst, fold_left addEvent es1 inst = fold_left addEvent es2 inst.
Proof.
  induction 1 as [|e1 e2 es1 es2 He _ IH]; intros inst; cbn [fold_left].
  - reflexivity.
  - rewrite (addEvent_same inst e1 e2 He). apply IH.
Qed.

Lemma matchedKeywordsOf_lower (c1 c2 : string) (keywords : list string) :
  toLowerCase c1 = toLowerCase c2 ->
  matchedKeywordsOf c1 keywords = matchedKeywordsOf c2 keywords.
Proof. intros E. unfold matchedKeywordsOf. rewrite E. reflexivity. Qed.

Lemma keywordStep_lower (inst : gset string) (c1 c2 : string) ds entry :
  toLowerCase c1 = toLowerCase c2 ->
  keywordStep inst c1 ds entry = keywordStep inst c2 ds entry.
Proof.
  intros E. destruct entry as [c keywords]. unfold keywordStep.
  rewrite (matchedKeywordsOf_lower c1 c2 keywords E). reflexivity.
Qed.

Lemma keywordLoop_lower (inst : gset string) (c1 c2 : string) tbl :
  toLowerCase c1 = toLowerCase c2 ->
  forall ds, fold_left (keywordStep inst c1) tbl ds = fold_left (keywordStep inst c2) tbl ds.
Proof.
  intros E. induction tbl as [|entry tbl IH]; intros ds; cbn [fold_left].
  - reflexivity.
  - rewrite (keywordStep_lower inst c1 c2 ds entry E). apply IH.
Qed.

Lemma detectionsOf_same (inst : gset string) (e1 e2 : RawEvent) :
  sameForDetector e1 e2 -> detectionsOf inst e1 = detectionsOf inst e2.
Proof.
  intros (_ & Er & Ec). unfold detectionsOf. cbv zeta. rewrite Er.
  apply keywordLoop_lower, Ec.
Qed.

Lemma resultsOf_same (inst : gset string) (e1 e2 : RawEvent) :
  sameForDetector e1 e2 ->
  map finding (resultsOf inst e1) = map finding (resultsOf inst e2).
Proof.
  intros He. unfold resultsOf. rewrite (detectionsOf_same inst e1 e2 He).
  destruct He as (-> & _ & _). destruct (String.eqb (action e2) "file_write").
  - rewrite !map_map. reflexivity.
  - reflexivity.
Qed.

End SameForDetector.

(** X6: the detector reads three things of an event: its action, its
    [raw] text and its content up to letter case.  Two event lists that
    agree on these, event by event, give the same categories, matched
    keywords and confidences, in the same order. *)
Theorem X6_content_case_insensitive (es1 es2 : list RawEvent) :
  Forall2 sameForDetector es1 es2 ->
  map finding (detectCustomImplementation es1) =
  map finding (detectCustomImplementation es2).
Proof.
  intros Hsame. rewrite !detect_flat_map. unfold collectInstalled.
  rewrite (collectLoop_same es1 es2 Hsame ∅).
  generalize (fold_left addEvent es2 ∅). intros inst.
  induction Hsame as [|e1 e2 es1 es2 He _ IH]; cbn [flat_map].
  - reflexivity.
  - rewrite !map_app, IH, (resultsOf_same inst e1 e2 He). reflexivity.
Qed.

Lemma X6_content_case_insensitive_witness :
  let upper := mkRawEvent "e1" "s1" 0 "claude-code" "file_write" "src/store.ts"
                 (Some "const CACHE = new Map(); const TTL = 60;") None None in
  let lower := mkRawEvent "e7" "s2" 5 "cursor" "file_write" "src/store.ts"
                 (Some "const cache = new Map(); const ttl = 60;") (Some 0%Z) None in
  map finding (detectCustomImplementation [upper]) =
  map finding (detectCustomImplementation [lower]).
Proof.
  cbn zeta. apply X6_content_case_insensitive.
  constructor; [|constructor].
  split; [reflexivity|]. split; [reflexivity|]. vm_compute. reflexivity.
Defined.

(** *** The shape of a detection *)

Lemma file_pattern_categories_have_keywords (c : string) :
  In c (map fst DOMAIN_FILE_PATTERNS) -> In c (map fst DOMAIN_KEYWORDS).
Proof.
  assert (H : forallb (fun c => existsb (String.eqb c) (map fst DOMAIN_KEYWORDS))
                (map fst DOMAIN_FILE_PATTERNS) = true) by (vm_compute; reflexivity).
  intros Hin. rewrite forallb_forall in H. specialize (H c Hin).
  apply existsb_exists in H as (c' & Hin' & E). apply String.eqb_eq in E. subst c'.
  exact Hin'.
Qed.

Lemma keyword_categories_in_taxonomy (c : string) :
  In c (map fst DOMAIN_KEYWORDS) -> In c getCategories.
Proof.
  assert (H : forallb (fun c => existsb (String.eqb c) getCategories)
                (map fst DOMAIN_KEYWORDS) = true) by (vm_compute; reflexivity).
  intros Hin. rewrite forallb_forall in H. specialize (H c Hin).
  apply existsb_exists in H as (c' & Hin' & E). apply String.eqb_eq in E. subst c'.
  exact Hin'.
Qed.

Lemma keyword_lists_short (c : string) (keywords : list string) :
  In (c, keywords) DOMAIN_KEYWORDS -> length keywords <= 11.
Proof.
  assert (H : forallb (fun entry => length (snd entry) <=? 11) DOMAIN_KEYWORDS = true)
    by (vm_compute; reflexivity).
  intros Hin. rewrite forallb_forall in H. specialize (H _ Hin).
  apply Nat.leb_le in H. exact H.
Qed.

Lemma matchedKeywordsOf_length (content : string) (keywords : list string) :
  length (matchedKeywordsOf content keywords) <= length keywords.
Proof. apply List.filter_length_le. Qed.

(** The path stage leaves nothing for a category, or the one detection of
    confidence 60. *)
Lemma pathDetections_forCategory (inst : gset string) (path c : string) :
  forCategory c (pathDetections inst path) = [] \/
  forCategory c (pathDetections inst path) = [mkDetection c [path] 60].
Proof.
  unfold pathDetections.
  destruct (in_dec string_dec c (map fst DOMAIN_FILE_PATTERNS)) as [Hin|Hnot].
  - apply in_map_iff in Hin as ([c' patterns] & E & Hin). cbn [fst] in E. subst c'.
    rewrite (pathLoop_same inst c _ path _ [] file_pattern_categories_distinct Hin).
    rewrite pathStep_same. cbn [forCategory List.filter app].
    destruct (has inst (catKey c)); [left; reflexivity|].
    destruct (firstPatternHit patterns path); [right|left]; reflexivity.
  - left. rewrite pathLoop_other by exact Hnot. reflexivity.
Qed.

(** No detection outside the keyword domains. *)
Lemma detectionsOf_other (inst : gset string) (ev : RawEvent) (c : string) :
  ~ In c (map fst DOMAIN_KEYWORDS) -> forCategory c (detectionsOf inst ev) = [].
Proof.
  intros Hnot. unfold detectionsOf, pathDetections. cbv zeta.
  rewrite keywordLoop_other by exact Hnot. rewrite pathLoop_other; [reflexivity|].
  intros Hfp. apply Hnot, file_pattern_categories_have_keywords, Hfp.
Qed.

Lemma detectionsOf_content (inst : gset string) (ev : RawEvent) (c : string)
  (keywords : list string) :
  In (c, keywords) DOMAIN_KEYWORDS -> has inst (catKey c) = false ->
  forCategory c (detectionsOf inst ev) =
  if 2 <=? length (matchedKeywordsOf (contentOf ev) keywords)
  then match forCategory c (pathDetections inst (raw ev)) with
       | [] => [mkDetection c (matchedKeywordsOf (contentOf ev) keywords)
                  (40 + Z.of_nat (length (matchedKeywordsOf (contentOf ev) keywords)) * 10)]
       | d :: tl => merged (matchedKeywordsOf (contentOf ev) keywords) d :: tl
       end
  else forCategory c (pathDetections inst (raw ev)).
Proof. intros Hin Hs. unfold contentOf. exact (detectionsOf_category inst ev c keywords Hin Hs). Qed.

Lemma shape_cases (c path : string) (matched : list string) (fromPath : list Detection)
  (d : Detection) :
  fromPath = [] \/ fromPath = [mkDetection c [path] 60] ->
  In d (if 2 <=? length matched
        then match fromPath with
             | [] => [mkDetection c matched (40 + Z.of_nat (length matched) * 10)]
             | d0 :: tl => merged matched d0 :: tl
             end
        else fromPath) ->
  (length matched < 2 /\ d = mkDetection c [path] 60) \/
  (2 <= length matched /\
   d = mkDetection c (path :: matched) (Z.min 95 (60 + Z.of_nat (length matched) * 10))) \/
  (2 <= length matched /\
   d = mkDetection c matched (40 + Z.of_nat (length matched) * 10)).
Proof.
  intros Hpath Hin.
  destruct (Nat.leb_spec 2 (length matched)) as [Hlen|Hlen];
    destruct Hpath as [->| ->]; cbn [In] in Hin.
  - destruct Hin as [<-|[]]. right. right. split; [exact Hlen|reflexivity].
  - destruct Hin as [<-|[]]. right. left. split; [exact Hlen|reflexivity].
  - destruct Hin.
  - destruct Hin as [<-|[]]. left. split; [exact Hlen|reflexivity].
Qed.

(** Every detection of one event has one of three shapes. *)
Lemma detection_shape (inst : gset string) (ev : RawEvent) (d : Detection) :
  In d (detectionsOf inst ev) ->
  exists keywords,
    In (d_category d, keywords) DOMAIN_KEYWORDS /\
    has inst (catKey (d_category d)) = false /\
    ((length (matchedKeywordsOf (contentOf ev) keywords) < 2 /\
      d = mkDetection (d_category d) [raw ev] 60) \/
     (2 <= length (matchedKeywordsOf (contentOf ev) keywords) /\
      d = mkDetection (d_category d) (raw ev :: matchedKeywordsOf (contentOf ev) keywords)
            (Z.min 95 (60 + Z.of_nat (length (matchedKeywordsOf (contentOf ev) keywords)) * 10))) \/
     (2 <= length (matchedKeywordsOf (contentOf ev) keywords) /\
      d = mkDetection (d_category d) (matchedKeywordsOf (contentOf ev) keywords)
            (40 + Z.of_nat (length (matchedKeywordsOf (contentOf ev) keywords)) * 10))).
Proof.
  intros Hd. pose proof (forCategory_In _ _ d Hd eq_refl) as Hin.
  destruct (in_dec string_dec (d_category d) (map fst DOMAIN_KEYWORDS)) as [Hkw|Hnot].
  - apply in_map_iff in Hkw as ([c' keywords] & E & Hkw). cbn [fst] in E. subst c'.
    exists keywords. split; [exact Hkw|].
    destruct (has inst (catKey (d_category d))) eqn:Hs.
    { rewrite detectionsOf_suppressed in Hin by exact Hs. destruct Hin. }
    split; [reflexivity|].
    rewrite (detectionsOf_content inst ev _ keywords Hkw Hs) in Hin.
    exact (shape_cases _ _ _ _ d (pathDetections_forCategory inst (raw ev) _) Hin).
  - rewrite detectionsOf_other in Hin by exact Hnot. destruct Hin.
Qed.

(** X7: where a result comes from and what it holds.  Every element of
    the result belongs to a [file_write] event of the input, its category
    is one of the ten keyword domains (all of them taxonomy categories)
    and is not suppressed, and it has one of three shapes: a path match
    alone (confidence 60, the path as only keyword), a path match merged
    with [n >= 2] keyword hits (confidence [min(95, 60 + 10 n)], the path
    first), or [n >= 2] keyword hits alone (confidence [40 + 10 n]).  So
    the confidence lies between 60 and 150. *)
Theorem X7_result_shape (events : list RawEvent) (b : CustomBuildEvent) :
  In b (detectCustomImplementation events) ->
  In (event b) events /\ action (event b) = "file_write" /\
  In (category b) getCategories /\
  has (collectInstalled events) (catKey (category b)) = false /\
  (exists keywords,
     In (category b, keywords) DOMAIN_KEYWORDS /\
     let matched := matchedKeywordsOf (contentOf (event b)) keywords in
     let n := Z.of_nat (length matched) in
     (length matched < 2 /\
      matchedKeywords b = [raw (event b)] /\ confidence b = 60%Z) \/
     (2 <= length matched /\
      matchedKeywords b = raw (event b) :: matched /\
      confidence b = Z.min 95 (60 + 10 * n)) \/
     (2 <= length matched /\
      matchedKeywords b = matched /\ confidence b = (40 + 10 * n)%Z)) /\
  (60 <= confidence b <= 150)%Z.
Proof.
  intros Hb. apply detect_In in Hb as (ev & d & Hev & Hact & Hd & ->).
  cbn [customBuildOf event category matchedKeywords confidence].
  apply detection_shape in Hd as (keywords & Hkw & Hs & Hshape).
  pose proof (keyword_lists_short _ _ Hkw) as Hshort.
  pose proof (matchedKeywordsOf_length (contentOf ev) keywords) as Hlen.
  split; [exact Hev|]. split; [exact Hact|]. split.
  { apply keyword_categories_in_taxonomy, in_map_iff.
    exists (d_category d, keywords). split; [reflexivity|exact Hkw]. }
  split; [exact Hs|]. split.
  - exists keywords. split; [exact Hkw|]. cbv zeta.
    destruct Hshape as [[Hn E]|[[Hn E]|[Hn E]]]; rewrite E;
      cbn [d_keywords d_confidence d_category].
    + left. auto.
    + right. left. split; [exact Hn|]. split; [reflexivity|]. f_equal. lia.
    + right. right. split; [exact Hn|]. split; [reflexivity|]. lia.
  - destruct Hshape as [[Hn E]|[[Hn E]|[Hn E]]]; rewrite E; cbn [d_confidence]; lia.
Qed.

Lemma X7_result_shape_witness :
  let ev := mkRawEvent "e1" "s1" 0 "claude-code" "file_write" "src/lib/cache.ts"
              (Some "const cache = new Map(); const TTL = 60;") None None in
  let b := mkCustomBuildEvent ev "Caching" ["src/lib/cache.ts"; "cache"; "ttl"] 80 in
  In b (detectCustomImplementation [ev]) /\ (60 <= confidence b <= 150)%Z.
Proof.
  cbn zeta.
  assert (Hin : In (mkCustomBuildEvent
                      (mkRawEvent "e1" "s1" 0 "claude-code" "file_write" "src/lib/cache.ts"
                         (Some "const cache = new Map(); const TTL = 60;") None None)
                      "Caching" ["src/lib/cache.ts"; "cache"; "ttl"] 80)
                   (detectCustomImplementation
                      [mkRawEvent "e1" "s1" 0 "claude-code" "file_write" "src/lib/cache.ts"
                         (Some "const cache = new Map(); const TTL = 60;") None None]))
    by (vm_compute; left; reflexivity).
  split; [exact Hin|].
  exact (proj2 (proj2 (proj2 (proj2 (proj2 (X7_result_shape _ _ Hin)))))).
Defined.

(** ** Further properties of the summary *)

Section SummaryTotals.

Variables (customBuilds : list CustomBuildEvent) (installEvents : list InstallEvent).

Lemma list_sum_cons (x : nat) (l : list nat) : list_sum (x :: l) = x + list_sum l.
Proof. reflexivity. Qed.

Ltac sums := rewrite ?list_sum_cons; change (list_sum []) with 0.

Lemma list_sum_perm (l l' : list nat) : Permutation l l' -> list_sum l = list_sum l'.
Proof. induction 1; sums; lia. Qed.

(** Rows left out by the loop have nothing to count. *)
Lemma sum_nonzero (f g : string -> nat) (cats : list string) :
  list_sum (map f (List.filter (fun cat => negb (g cat + f cat =? 0)) cats)) =
  list_sum (map f cats).
Proof.
  induction cats as [|cat cats IH]; cbn [List.filter map]; sums; [reflexivity|].
  destruct (Nat.eqb_spec (g cat + f cat) 0) as [E|_]; cbn [negb map]; sums; lia.
Qed.

(** Counting per key sums to the length when every element has its key in
    a duplicate-free key list. *)
Lemma sum_one_hot (c : string) (cats : list string) :
  List.NoDup cats -> In c cats ->
  list_sum (map (fun cat => if String.eqb c cat then 1 else 0) cats) = 1.
Proof.
  induction 1 as [|cat cats Hnotin _ IH]; intros Hin; [destruct Hin|].
  cbn [map]; sums. destruct (String.eqb_spec c cat) as [->|Hne].
  - assert (E : list_sum (map (fun cat0 => if String.eqb cat cat0 then 1 else 0) cats) = 0).
    { clear IH Hin. induction cats as [|x cats IH]; [reflexivity|].
      cbn [map]; sums. destruct (String.eqb_spec cat x) as [->|_].
      - exfalso. apply Hnotin. left. reflexivity.
      - rewrite IH; [reflexivity|]. intros Hx. apply Hnotin. right. exact Hx. }
    rewrite E. reflexivity.
  - destruct Hin as [->|Hin]; [contradiction Hne; reflexivity|].
    rewrite (IH Hin). reflexivity.
Qed.

Lemma sum_counts (cats : list string) (builds : list CustomBuildEvent) :
  List.NoDup cats -> (forall b, In b builds -> In (category b) cats) ->
  list_sum (map (customCountOf builds) cats) = length builds.
Proof.
  intros Hnodup. induction builds as [|b builds IH]; intros Hcats.
  - unfold customCountOf. cbn [List.filter length].
    clear. induction cats as [|cat cats IHc]; [reflexivity|]. cbn [map]; sums.
    exact IHc.
  - transitivity
      (list_sum (map (fun cat => if String.eqb (category b) cat then 1 else 0) cats)
       + list_sum (map (customCountOf builds) cats)).
    + clear. induction cats as [|cat cats IHc]; [reflexivity|]. cbn [map]; sums.
      rewrite IHc. unfold customCountOf at 1 3. cbn [List.filter].
      destruct (String.eqb (category b) cat); cbn [length]; lia.
    + rewrite (sum_one_hot _ _ Hnodup (Hcats b (or_introl eq_refl))).
      rewrite IH; [reflexivity|]. intros b' Hb'. apply Hcats. right. exact Hb'.
Qed.

Lemma summary_custom_total :
  (forall b, In b customBuilds -> In (category b) getCategories) ->
  list_sum (map customBuildCount (getBuildVsBuySummary customBuilds installEvents)) =
  length customBuilds.
Proof.
  intros Hcats.
  rewrite (list_sum_perm _ _ (Permutation_map customBuildCount
                                (summary_perm customBuilds installEvents))).
  rewrite map_map.
  change (fun x => customBuildCount (rowFor customBuilds installEvents x))
    with (customCountOf customBuilds).
  unfold totalOf. cbn [rowFor installCount customBuildCount].
  rewrite (sum_nonzero (customCountOf customBuilds) (instCountOf installEvents)).
  apply sum_counts; [apply categories_distinct | exact Hcats].
Qed.

(** An install event counts for its [category] field and for the category
    of its package name: for two categories at most. *)
Lemma countsAsInstall_cases (e : InstallEvent) (cat : string) :
  countsAsInstall cat e = true ->
  i_category e = Some cat \/
  exists p, i_packageName e = Some p /\ categorizePackage p = Some cat.
Proof.
  unfold countsAsInstall. destruct (i_category e) as [c|].
  - destruct (String.eqb_spec c cat) as [->|_]; [left; reflexivity|].
    destruct (i_packageName e) as [p|]; [|discriminate].
    destruct (truthy p); [|discriminate].
    destruct (categorizePackage p) as [c'|] eqn:Ep; [|discriminate].
    intros E. apply String.eqb_eq in E. subst c'. right. exists p. split; [reflexivity|exact Ep].
  - destruct (i_packageName e) as [p|]; [|discriminate].
    destruct (truthy p); [|discriminate].
    destruct (categorizePackage p) as [c'|] eqn:Ep; [|discriminate].
    intros E. apply String.eqb_eq in E. subst c'. right. exists p. split; [reflexivity|exact Ep].
Qed.

Lemma sum_indicator_le (cats : list string) (f : string -> bool) (a b : option string) :
  List.NoDup cats ->
  (forall cat, f cat = true -> a = Some cat \/ b = Some cat) ->
  list_sum (map (fun cat => if f cat then 1 else 0) cats) <=
  match a with Some _ => 1 | None => 0 end + match b with Some _ => 1 | None => 0 end.
Proof.
  intros Hnodup Hf.
  assert (Hle : list_sum (map (fun cat => if f cat then 1 else 0) cats) <=
                list_sum (map (fun cat => (match a with Some c => if String.eqb c cat then 1 else 0 | None => 0 end)
                                          + (match b with Some c => if String.eqb c cat then 1 else 0 | None => 0 end)) cats)).
  { clear Hnodup. induction cats as [|cat cats IH]; cbn [map]; sums; [lia|].
    destruct (f cat) eqn:Ef; [|lia].
    destruct (Hf cat Ef) as [->| ->]; rewrite String.eqb_refl; lia. }
  eapply Nat.le_trans; [exact Hle|]. clear Hle Hf.
  assert (Hone : forall o : option string,
             list_sum (map (fun cat => match o with Some c => if String.eqb c cat then 1 else 0 | None => 0 end) cats)
             <= match o with Some _ => 1 | None => 0 end).
  { intros [c|].
    - destruct (in_dec string_dec c cats) as [Hin|Hnot].
      + rewrite (sum_one_hot c cats Hnodup Hin). lia.
      + clear Hnodup. induction cats as [|x cats IH]; cbn [map]; sums; [lia|].
        destruct (String.eqb_spec c x) as [->|_].
        * exfalso. apply Hnot. left. reflexivity.
        * cbn [Nat.add]. apply IH. intros Hx. apply Hnot. right. exact Hx.
    - clear. induction cats as [|x cats IH]; cbn [map]; sums; lia. }
  pose proof (Hone a) as Ha. pose proof (Hone b) as Hb. clear Hone Hnodup.
  enough (E : list_sum (map (fun cat => (match a with Some c => if String.eqb c cat then 1 else 0 | None => 0 end)
                                         + (match b with Some c => if String.eqb c cat then 1 else 0 | None => 0 end)) cats)
              = list_sum (map (fun cat => match a with Some c => if String.eqb c cat then 1 else 0 | None => 0 end) cats)
                + list_sum (map (fun cat => match b with Some c => if String.eqb c cat then 1 else 0 | None => 0 end) cats))
    by lia.
  clear. induction cats as [|x cats IH]; cbn [map]; sums; lia.
Qed.

Lemma sum_install_counts (cats : list string) (events : list InstallEvent) :
  List.NoDup cats ->
  list_sum (map (instCountOf events) cats) <= 2 * length events.
Proof.
  intros Hnodup. induction events as [|e events IH].
  - unfold instCountOf. cbn [List.filter length].
    clear. induction cats as [|cat cats IHc]; cbn [map]; sums; lia.
  - assert (E : list_sum (map (instCountOf (e :: events)) cats) =
                list_sum (map (fun cat => if countsAsInstall cat e then 1 else 0) cats)
                + list_sum (map (instCountOf events) cats)).
    { clear. induction cats as [|cat cats IHc]; [reflexivity|]. cbn [map]; sums.
      rewrite IHc. unfold instCountOf at 1 3. cbn [List.filter].
      destruct (countsAsInstall cat e); cbn [length]; lia. }
    rewrite E. cbn [length].
    pose proof (sum_indicator_le cats (fun cat => countsAsInstall cat e)
                  (i_category e)
                  (match i_packageName e with Some p => categorizePackage p | None => None end)
                  Hnodup) as Hle.
    assert (Hcases : forall cat, countsAsInstall cat e = true ->
              i_category e = Some cat \/
              match i_packageName e with Some p => categorizePackage p | None => None end = Some cat).
    { intros cat Hc. apply countsAsInstall_cases in Hc as [Hc|(p & Hp & Hc)].
      - left. exact Hc.
      - right. rewrite Hp. exact Hc. }
    specialize (Hle Hcases).
    destruct (i_category e); destruct (match i_packageName e with Some p => categorizePackage p | None => None end); lia.
Qed.

Lemma summary_total (row : SummaryRow -> nat) (count : string -> nat) :
  (forall cat, row (rowFor customBuilds installEvents cat) = count cat) ->
  list_sum (map row (getBuildVsBuySummary customBuilds installEvents)) <=
  list_sum (map count getCategories).
Proof.
  intros Hrow.
  rewrite (list_sum_perm _ _ (Permutation_map row (summary_perm customBuilds installEvents))).
  rewrite map_map.
  generalize (fun cat => negb (totalOf (rowFor customBuilds installEvents cat) =? 0)).
  intros keep. generalize getCategories. intros cats.
  induction cats as [|cat cats IH]; cbn [List.filter map]; sums; [lia|].
  destruct (keep cat); cbn [map]; sums; rewrite <- ?(Hrow cat); lia.
Qed.

(** Insertion keeps the order among rows of the same total. *)
Lemma insertRow_stable (t : nat) (x : SummaryRow) (l : list SummaryRow) :
  List.filter (fun r => totalOf r =? t) (insertRow x l) =
  List.filter (fun r => totalOf r =? t) (x :: l).
Proof.
  induction l as [|y l IH]; cbn [insertRow]; [reflexivity|].
  destruct (Nat.leb_spec (totalOf y) (totalOf x)) as [_|Hgt]; [reflexivity|].
  cbn [List.filter] in *. rewrite IH.
  destruct (Nat.eqb_spec (totalOf x) t) as [Ex|_]; [|reflexivity].
  destruct (Nat.eqb_spec (totalOf y) t) as [Ey|_]; [lia|reflexivity].
Qed.

Lemma sortRows_stable (t : nat) (l : list SummaryRow) :
  List.filter (fun r => totalOf r =? t) (sortRows l) =
  List.filter (fun r => totalOf r =? t) l.
Proof.
  induction l as [|x l IH]; cbn [sortRows]; [reflexivity|].
  rewrite insertRow_stable. cbn [List.filter]. rewrite IH. reflexivity.
Qed.

End SummaryTotals.

(** X8: the detector and the summary fit together.  Whatever the install
    events are, the custom-build counts of the summary rows of a
    detector result add up to the number of detections: every detection
    is counted in exactly one row. *)
Theorem X8_summary_counts_every_detection (events : list RawEvent)
  (installEvents : list InstallEvent) :
  list_sum
    (map customBuildCount
       (getBuildVsBuySummary (detectCustomImplementation events) installEvents)) =
  length (detectCustomImplementation events).
Proof.
  apply summary_custom_total. intros b Hb.
  apply detect_In in Hb as (ev & d & _ & _ & Hd & ->). cbn [customBuildOf category].
  apply detection_shape in Hd as (keywords & Hkw & _).
  apply keyword_categories_in_taxonomy, in_map_iff.
  exists (d_category d, keywords). split; [reflexivity|exact Hkw].
Qed.

(** X9: an install event is counted in the row of its [category] field
    and in the row of the category of its package name, so in two rows at
    most: the install counts of the summary add up to no more than twice
    the number of install events. *)
Theorem X9_install_counted_at_most_twice (customBuilds : list CustomBuildEvent)
  (installEvents : list InstallEvent) :
  list_sum (map installCount (getBuildVsBuySummary customBuilds installEvents)) <=
  2 * length installEvents.
Proof.
  eapply Nat.le_trans.
  - apply (summary_total customBuilds installEvents installCount (instCountOf installEvents)).
    intros cat. reflexivity.
  - apply sum_install_counts, categories_distinct.
Qed.

(** X10: the sort is stable: among the rows of one total, the order is
    the order of the categories in [TOOL_CATEGORIES]. *)
Theorem X10_ties_in_taxonomy_order (customBuilds : list CustomBuildEvent)
  (installEvents : list InstallEvent) (t : nat) :
  List.filter (fun r => totalOf r =? t) (getBuildVsBuySummary customBuilds installEvents) =
  map (rowFor customBuilds installEvents)
    (List.filter
       (fun cat =>
          negb (totalOf (rowFor customBuilds installEvents cat) =? 0)
          && (totalOf (rowFor customBuilds installEvents cat) =? t))
       getCategories).
Proof.
  unfold getBuildVsBuySummary. cbv zeta. rewrite sortRows_stable, summaryLoop_rows.
  cbn [app]. fold getCategories. generalize getCategories. intros cats.
  induction cats as [|cat cats IH]; cbn [List.filter map]; [reflexivity|].
  destruct (negb (totalOf (rowFor customBuilds installEvents cat) =? 0));
    cbn [andb map List.filter]; [|exact IH].
  destruct (totalOf (rowFor customBuilds installEvents cat) =? t);
    cbn [map]; rewrite IH; reflexivity.
Qed.

(** ** What [split(/\s+/)] and the version patterns leave of a token *)

Section Tokens.

Import Re.



















End Tokens.



(** ** The detector and the set of installs *)

Section Installs.

Lemma keyword_categories_capital (c : string) :
  In c (map fst DOMAIN_KEYWORDS) -> hasCapital (catKey c) = true.
Proof.
  assert (H : forallb (fun c => hasCapital (catKey c)) (map fst DOMAIN_KEYWORDS) = true)
    by (vm_compute; reflexivity).
  intros Hin. rewrite forallb_forall in H. exact (H c Hin).
Qed.

(** For a keyword domain, what [installedPackages] answers depends on the
    bash events as a set. *)
Lemma suppressed_incl (events events' : list RawEvent) (c : string) :
  In c (map fst DOMAIN_KEYWORDS) ->
  (forall ev, In ev events -> In ev events') ->
  has (collectInstalled events) (catKey c) = true ->
  has (collectInstalled events') (catKey c) = true.
Proof.
  intros Hc Hincl Hs. pose proof (keyword_categories_capital c Hc) as Hcap.
  apply (suppressed_iff events c Hcap) in Hs as (ev & pkg & Hin & Hrest).
  apply (suppressed_iff events' c Hcap). exists ev, pkg. split; [apply Hincl, Hin|exact Hrest].
Qed.

Lemma suppressed_same (events events' : list RawEvent) (c : string) :
  In c (map fst DOMAIN_KEYWORDS) ->
  (forall ev, In ev events <-> In ev events') ->
  has (collectInstalled events) (catKey c) = has (collectInstalled events') (catKey c).
Proof.
  intros Hc Hsame.
  destruct (has (collectInstalled events) (catKey c)) eqn:E;
    destruct (has (collectInstalled events') (catKey c)) eqn:E'; try reflexivity.
  - rewrite (suppressed_incl events events' c Hc (fun ev => proj1 (Hsame ev)) E) in E'.
    discriminate.
  - rewrite (suppressed_incl events' events c Hc (fun ev => proj2 (Hsame ev)) E') in E.
    discriminate.
Qed.

Variables inst inst' : gset string.

Lemma pathLoop_ext (path : string) (tbl : list (string * list Re.regex)) :
  (forall c, In c (map fst tbl) -> has inst (catKey c) = has inst' (catKey c)) ->
  forall ds, fold_left (pathStep inst path) tbl ds = fold_left (pathStep inst' path) tbl ds.
Proof.
  induction tbl as [|[c patterns] tbl IH]; intros Hsame ds; cbn [fold_left]; [reflexivity|].
  unfold pathStep at 2 4. rewrite (Hsame c (or_introl eq_refl)).
  apply IH. intros c' Hc'. apply Hsame. right. exact Hc'.
Qed.

Lemma keywordLoop_ext (content : string) (tbl : list (string * list string)) :
  (forall c, In c (map fst tbl) -> has inst (catKey c) = has inst' (catKey c)) ->
  forall ds,
    fold_left (keywordStep inst content) tbl ds =
    fold_left (keywordStep inst' content) tbl ds.
Proof.
  induction tbl as [|[c keywords] tbl IH]; intros Hsame ds; cbn [fold_left]; [reflexivity|].
  unfold keywordStep at 2 4. rewrite (Hsame c (or_introl eq_refl)).
  apply IH. intros c' Hc'. apply Hsame. right. exact Hc'.
Qed.

(** The detections of an event depend on the set only through the keys of
    the keyword domains. *)
Lemma detectionsOf_ext (ev : RawEvent) :
  (forall c, In c (map fst DOMAIN_KEYWORDS) ->
             has inst (catKey c) = has inst' (catKey c)) ->
  detectionsOf inst ev = detectionsOf inst' ev.
Proof.
  intros Hsame. unfold detectionsOf, pathDetections. cbv zeta.
  rewrite (pathLoop_ext (raw ev) DOMAIN_FILE_PATTERNS)
    by (intros c Hc; apply Hsame, file_pattern_categories_have_keywords, Hc).
  apply keywordLoop_ext, Hsame.
Qed.

Lemma pathDetections_category (s : gset string) (path c : string) :
  has s (catKey c) = false ->
  forCategory c (pathDetections s path) =
  match List.find (fun entry => String.eqb (fst entry) c) DOMAIN_FILE_PATTERNS with
  | Some (_, patterns) =>
      if firstPatternHit patterns path then [mkDetection c [path] 60] else []
  | None => []
  end.
Proof.
  intros Hs. unfold pathDetections.
  destruct (List.find (fun entry => String.eqb (fst entry) c) DOMAIN_FILE_PATTERNS)
    as [[c' patterns]|] eqn:Efind.
  - apply List.find_some in Efind as [Hin E]. cbn [fst] in E.
    apply String.eqb_eq in E. subst c'.
    rewrite (pathLoop_same s c _ path _ [] file_pattern_categories_distinct Hin).
    rewrite pathStep_same, Hs. destruct (firstPatternHit patterns path); reflexivity.
  - rewrite pathLoop_other; [reflexivity|]. intros Hin.
    apply in_map_iff in Hin as ([c' patterns] & E & Hin). cbn [fst] in E. subst c'.
    pose proof (List.find_none _ _ Efind _ Hin) as Hno. cbn [fst] in Hno.
    rewrite String.eqb_refl in Hno. discriminate.
Qed.

(** A larger set of installs leaves fewer detections, and leaves them as
    they were. *)
Lemma detectionsOf_antitone (ev : RawEvent) (d : Detection) :
  (forall c, In c (map fst DOMAIN_KEYWORDS) ->
             has inst (catKey c) = true -> has inst' (catKey c) = true) ->
  In d (detectionsOf inst' ev) -> In d (detectionsOf inst ev).
Proof.
  intros Hmono Hd. pose proof (forCategory_In _ _ d Hd eq_refl) as Hin.
  apply (forCategory_subset (d_category d)).
  destruct (in_dec string_dec (d_category d) (map fst DOMAIN_KEYWORDS)) as [Hkw|Hnot].
  - destruct (has inst' (catKey (d_category d))) eqn:Hs'.
    { rewrite detectionsOf_suppressed in Hin by exact Hs'. destruct Hin. }
    destruct (has inst (catKey (d_category d))) eqn:Hs.
    { rewrite (Hmono _ Hkw Hs) in Hs'. discriminate. }
    pose proof Hkw as Hkw'.
    apply in_map_iff in Hkw' as ([c' keywords] & E & Hentry). cbn [fst] in E. subst c'.
    rewrite (detectionsOf_content inst' ev _ keywords Hentry Hs') in Hin.
    rewrite (detectionsOf_content inst ev _ keywords Hentry Hs).
    rewrite (pathDetections_category inst' _ _ Hs') in Hin.
    rewrite (pathDetections_category inst _ _ Hs). exact Hin.
  - rewrite detectionsOf_other in Hin by exact Hnot. destruct Hin.
Qed.

End Installs.

(** X25: an install suppresses a category wherever it stands in the
    list.  [installedPackages] is collected from all the events before any
    file is looked at, so that the order of the events matters only for
    the order of the results: a permutation of the events gives a
    permutation of the detections. *)
Theorem X25_order_of_events (events events' : list RawEvent) :
  Permutation events events' ->
  Permutation (detectCustomImplementation events) (detectCustomImplementation events').
Proof.
  intros Hperm. rewrite !detect_flat_map.
  assert (Hsame : forall ev,
             resultsOf (collectInstalled events) ev = resultsOf (collectInstalled events') ev).
  { intros ev. unfold resultsOf.
    rewrite (detectionsOf_ext (collectInstalled events) (collectInstalled events') ev);
      [reflexivity|].
    intros c Hc. apply (suppressed_same events events' c Hc).
    intros e. split; apply Permutation_in; [exact Hperm | symmetry; exact Hperm]. }
  rewrite (flat_map_ext _ _ Hsame). apply Permutation_flat_map, Hperm.
Qed.

Lemma X25_order_of_events_witness :
  let install := mkRawEvent "e2" "s1" 1 "claude-code" "bash" "npm install redis" None None None in
  let write := mkRawEvent "e1" "s1" 0 "claude-code" "file_write" "src/lib/cache.ts"
                 (Some "const cache = new Map(); const ttl = 5;") None None in
  Permutation (detectCustomImplementation [write; install])
              (detectCustomImplementation [install; write]).
Proof.
  cbv zeta. apply X25_order_of_events. apply perm_swap.
Defined.

(** X26: more events never add a detection to a file that was there.
    When every event of a list is also in a second list, each result of
    the second list for an event of the first is a result of the first
    list too: further events can only suppress. *)
Theorem X26_more_events_only_suppress (events events' : list RawEvent)
  (b : CustomBuildEvent) :
  (forall ev, In ev events -> In ev events') ->
  In b (detectCustomImplementation events') -> In (event b) events ->
  In b (detectCustomImplementation events).
Proof.
  intros Hincl Hb Hev.
  apply detect_In in Hb as (ev & d & _ & Hact & Hd & ->).
  cbn [customBuildOf event] in Hev. apply detect_In. exists ev, d.
  split; [exact Hev|]. split; [exact Hact|]. split; [|reflexivity].
  apply (detectionsOf_antitone (collectInstalled events) (collectInstalled events') ev d);
    [|exact Hd].
  intros c Hc. apply (suppressed_incl events events' c Hc Hincl).
Qed.

Lemma X26_more_events_only_suppress_witness :
  let write := mkRawEvent "e1" "s1" 0 "claude-code" "file_write" "src/lib/cache.ts"
                 (Some "const cache = new Map(); const ttl = 5; // jwt login") None None in
  let install := mkRawEvent "e2" "s1" 1 "claude-code" "bash" "npm install redis" None None None in
  let b := mkCustomBuildEvent write "Authentication" ["jwt"; "login"] 60 in
  In b (detectCustomImplementation [write]).
Proof.
  cbv zeta.
  apply (X26_more_events_only_suppress
           [mkRawEvent "e1" "s1" 0 "claude-code" "file_write" "src/lib/cache.ts"
              (Some "const cache = new Map(); const ttl = 5; // jwt login") None None]
           [mkRawEvent "e1" "s1" 0 "claude-code" "file_write" "src/lib/cache.ts"
              (Some "const cache = new Map(); const ttl = 5; // jwt login") None None;
            mkRawEvent "e2" "s1" 1 "claude-code" "bash" "npm install redis" None None None]).
  - intros ev [<-|[]]. left. reflexivity.
  - vm_compute. left. reflexivity.
  - left. reflexivity.
Defined.

(** ** Further properties of the hook *)

Module HookFilesProps.
Import Hook HookFiles HookProps.

Section WithPlatform.
Context `{Platform}.

(** The hook of the first part is the one whose card can always be
    formatted. *)
Lemma run_is_runCard (env : Env) (fs : files) :
  run env fs = runCard (fun _ => true) env fs.
Proof. reflexivity. Qed.

Ltac early :=
  try (left; eexists; split; [intros; reflexivity|];
       intros c0' [= ]; subst; reflexivity).

(** [main] ends before the API call, with the files as they are and code
    0 if it exits, or it runs the [try] block and then exits with code
    0. *)
Lemma mainWith_cases (env : Env) (fs : files) :
  (exists o : outcome unit,
      (forall tryBlock, mainWith tryBlock env fs = (o, fs)) /\
      (forall code, o = Exit code -> code = 0%Z)) \/
  (exists command im sessionId cfg,
      reachesApi env fs command im sessionId cfg /\
      forall tryBlock,
        mainWith tryBlock env fs =
        bind (tryCatch (tryBlock env cfg im command sessionId) (ret tt))
             (fun _ => exit (A := unit) 0%Z) fs).
Proof.
  unfold mainWith, reachesApi, attempt, commandValue.
  destruct (stdin env) as [| |hookData] eqn:Estdin;
    cbn [bind exit ret lift]; early.
  destruct (getProp hookData "tool_name") as [tool_name| |c0] eqn:Etool;
    cbn [bind exit ret lift]; early;
    [|destruct (getProp_exit _ _ _ Etool)].
  destruct tool_name as [[| | |t| |]|]; cbn [negb]; early.
  destruct (String.eqb_spec t "Bash") as [->|_]; cbn [negb]; early.
  destruct (getProp hookData "tool_input") as [toolInput| |c0] eqn:Einput;
    cbn [bind exit ret lift]; early;
    [|destruct (getProp_exit _ _ _ Einput)].
  destruct (getPropOpt toolInput "command") as [command| |c0] eqn:Ecommand;
    cbn [bind exit ret lift]; early;
    [|destruct (getPropOpt_exit _ _ _ Ecommand)].
  destruct (truthyValue command) eqn:Etruthy; cbn [negb]; early.
  destruct command as [command|]; [|discriminate].
  destruct (callMatchInstallCommand command) as [installMatch| |c0] eqn:Ematch;
    cbn [bind exit ret lift]; early;
    [|destruct (callMatchInstallCommand_exit _ _ Ematch)].
  destruct installMatch as [im|]; early.
  destruct command as [| | |c| |]; cbn [callMatchInstallCommand] in Ematch;
    try (destruct (existsb _ INSTALL_PATTERNS); discriminate).
  injection Ematch as Ematch.
  destruct (getSessionId hookData) as [sessionId| |c0] eqn:Esession;
    cbn [bind exit ret lift]; early;
    [|destruct (getSessionId_exit _ _ Esession)].
  destruct (isAlreadyAllowed_pure sessionId (packageName im) fs) as [allowed Eallowed].
  unfold bind at 1 3. rewrite Eallowed. destruct allowed; early.
  destruct (config env) as [cfg|] eqn:Econfig; cbn [bind exit ret]; early.
  right. exists c, im, sessionId, cfg. split; [|intros; reflexivity].
  split.
  { exists hookData, c, im. rewrite Einput.
    repeat (split; [first [reflexivity | assumption]|]). reflexivity. }
  split; [exact Ematch|]. split; [|split; [exact Eallowed | reflexivity]].
  exists hookData. rewrite Einput. split; [reflexivity | exact Ecommand].
Qed.

Lemma isAlreadyAllowed_list (fs : files) (sessionId name : string) :
  isAlreadyAllowed sessionId name fs =
  (Ret (arrayIncludes (allowedList fs sessionId) (toLowerCase name)), fs).
Proof.
  unfold isAlreadyAllowed, allowedList.
  destruct (fs !! getAllowedPath sessionId) as [[|[]]|]; reflexivity.
Qed.

Lemma markAllowed_list (fs : files) (sessionId name : string) :
  markAllowed true sessionId name fs =
  (Ret tt, <[getAllowedPath sessionId :=
               Json (JArr (allowedList fs sessionId ++ [JStr (toLowerCase name)]))]> fs).
Proof. reflexivity. Qed.

(** How the [try] block and the exit after it end. *)
Lemma evaluateCard_cases (formattable : EvaluationResponse -> bool) (env : Env)
  (cfg : SightglassHookConfig) (im : InstallMatch) (command sessionId : string)
  (fs : files) :
  let result :=
    bind (tryCatch (evaluateCard formattable env cfg im command sessionId) (ret tt))
         (fun _ => exit (A := unit) 0%Z) fs in
  let marked :=
    <[getAllowedPath sessionId :=
        Json (JArr (allowedList fs sessionId ++ [JStr (toLowerCase (packageName im))]))]> fs in
  result = (Exit 0%Z, fs) \/
  (exists evaluation,
      fetch env cfg im command = Response true (Body evaluation) /\
      verdict evaluation <> "PROCEED" /\
      ((formattable evaluation = true /\ result = (Exit 2%Z, marked)) \/
       (formattable evaluation = false /\ result = (Exit 0%Z, marked)))).
Proof.
  cbv zeta. unfold tryCatch, evaluateCard, bind.
  destruct (fetch env cfg im command) as [|ok body]; cbn [throw ret exit];
    [left; reflexivity|].
  destruct ok; cbn [ret exit]; [|left; reflexivity].
  destruct body as [|evaluation]; cbn [throw ret exit]; [left; reflexivity|].
  destruct (String.eqb_spec (verdict evaluation) "PROCEED") as [Ev|Ev];
    cbn [exit]; [left; reflexivity|].
  destruct (writable env).
  - rewrite markAllowed_list. right. exists evaluation.
    split; [reflexivity|]. split; [exact Ev|].
    destruct (formattable evaluation); cbn [exit throw ret];
      [left|right]; split; reflexivity.
  - left. reflexivity.
Qed.

Lemma arrayIncludes_In (data : list json) (x : string) :
  arrayIncludes data x = false -> ~ In (JStr x) data.
Proof.
  unfold arrayIncludes. intros Hnone Hin.
  assert (Hsome : existsb (fun j => match j with JStr s => String.eqb s x | _ => false end)
                    data = true).
  { apply existsb_exists. exists (JStr x). split; [exact Hin | apply String.eqb_refl]. }
  rewrite Hsome in Hnone. discriminate.
Qed.

(** The ways a run ends, with the files it leaves. *)
Lemma runCard_cases (formattable : EvaluationResponse -> bool) (env : Env)
  (fs fs' : files) (code : Z) :
  runCard formattable env fs = (code, fs') ->
  (code = 0%Z /\ fs' = fs) \/
  (exists command im sessionId cfg evaluation,
     reachesApi env fs command im sessionId cfg /\
     fetch env cfg im command = Response true (Body evaluation) /\
     verdict evaluation <> "PROCEED" /\
     fs' = <[getAllowedPath sessionId :=
               Json (JArr (allowedList fs sessionId
                           ++ [JStr (toLowerCase (packageName im))]))]> fs /\
     ((formattable evaluation = true /\ code = 2%Z) \/
      (formattable evaluation = false /\ code = 0%Z))).
Proof.
  unfold runCard.
  destruct (mainWith_cases env fs) as [(o & Hearly & Hcode)|
                                       (command & im & sid & cfg & Hreach & Hmain)].
  - rewrite Hearly. intros Hrun. left.
    destruct o as [a| |c]; injection Hrun as <- <-; (split; [|reflexivity]);
      try reflexivity.
    apply Hcode. reflexivity.
  - rewrite Hmain.
    destruct (evaluateCard_cases formattable env cfg im command sid fs)
      as [E|(evaluation & Efetch & Ev & [[Hf E]|[Hf E]])];
      cbv zeta in E; rewrite E; intros [= <- <-].
    + left. split; reflexivity.
    + right. exists command, im, sid, cfg, evaluation. auto 10.
    + right. exists command, im, sid, cfg, evaluation. auto 10.
Qed.

Lemma allowedList_insert_same (fs : files) (sessionId sessionId' : string)
  (data : list json) :
  getAllowedPath sessionId = getAllowedPath sessionId' ->
  allowedList (<[getAllowedPath sessionId := Json (JArr data)]> fs) sessionId' = data.
Proof. intros E. unfold allowedList. rewrite E, lookup_insert_eq. reflexivity. Qed.

Lemma allowedList_path (fs : files) (sessionId sessionId' : string) :
  getAllowedPath sessionId = getAllowedPath sessionId' ->
  allowedList fs sessionId = allowedList fs sessionId'.
Proof. intros E. unfold allowedList. rewrite E. reflexivity. Qed.

Lemma allowedList_insert_other (fs : files) (sessionId sessionId' : string) (f : file) :
  getAllowedPath sessionId <> getAllowedPath sessionId' ->
  allowedList (<[getAllowedPath sessionId := f]> fs) sessionId' = allowedList fs sessionId'.
Proof. intros Hne. unfold allowedList. rewrite lookup_insert_ne by exact Hne. reflexivity. Qed.

Lemma arrayIncludes_app (a b : list json) (x : string) :
  arrayIncludes (a ++ b) x = arrayIncludes a x || arrayIncludes b x.
Proof. unfold arrayIncludes. apply existsb_app. Qed.

Lemma reachesApi_new (env : Env) (fs : files) (command : string) (im : InstallMatch)
  (sessionId : string) (cfg : SightglassHookConfig) :
  reachesApi env fs command im sessionId cfg ->
  arrayIncludes (allowedList fs sessionId) (toLowerCase (packageName im)) = false.
Proof.
  intros (_ & _ & _ & Hallowed & _). rewrite isAlreadyAllowed_list in Hallowed.
  injection Hallowed as Hallowed. exact Hallowed.
Qed.

(** One run keeps what is allowed. *)
Lemma runCard_keeps_allowed (formattable : EvaluationResponse -> bool) (env : Env)
  (fs fs' : files) (code : Z) (sessionId name : string) :
  runCard formattable env fs = (code, fs') ->
  arrayIncludes (allowedList fs sessionId) (toLowerCase name) = true ->
  arrayIncludes (allowedList fs' sessionId) (toLowerCase name) = true.
Proof.
  intros Hrun Hallowed.
  destruct (runCard_cases formattable env fs fs' code Hrun)
    as [[_ ->]|(command & im & sid & cfg & evaluation & _ & _ & _ & -> & _)];
    [exact Hallowed|].
  destruct (string_dec (getAllowedPath sid) (getAllowedPath sessionId)) as [E|Hne].
  - rewrite (allowedList_insert_same fs sid sessionId _ E), arrayIncludes_app.
    rewrite (allowedList_path fs sid sessionId E), Hallowed. reflexivity.
  - rewrite allowedList_insert_other by exact Hne. exact Hallowed.
Qed.

Lemma runs_keep_allowed (inputs : list ((EvaluationResponse -> bool) * Env))
  (sessionId name : string) : forall fs,
  arrayIncludes (allowedList fs sessionId) (toLowerCase name) = true ->
  arrayIncludes (allowedList (runs inputs fs) sessionId) (toLowerCase name) = true.
Proof.
  induction inputs as [|[formattable env] inputs IH]; intros fs Hallowed; [exact Hallowed|].
  unfold runs. cbn [fold_left fst snd]. apply IH.
  apply (runCard_keeps_allowed formattable env fs _ (fst (runCard formattable env fs)));
    [|exact Hallowed].
  destruct (runCard formattable env fs); reflexivity.
Qed.

Lemma reachesApi_attempt (env : Env) (fs : files) (command : string) (im : InstallMatch)
  (sessionId sessionId' : string) (cfg : SightglassHookConfig) (name : string) :
  reachesApi env fs command im sessionId cfg -> attempt env sessionId' name ->
  sessionId' = sessionId /\ name = packageName im.
Proof.
  intros (Hattempt & _) Hother. exact (attempt_unique env _ _ _ _ Hother Hattempt).
Qed.

(** A run that finds the package allowed exits with code 0 and leaves the
    files as they are. *)
Lemma runCard_allowed (formattable : EvaluationResponse -> bool) (env : Env) (fs : files)
  (sessionId name : string) :
  attempt env sessionId name ->
  arrayIncludes (allowedList fs sessionId) (toLowerCase name) = true ->
  runCard formattable env fs = (0%Z, fs).
Proof.
  intros Hattempt Hallowed.
  destruct (runCard formattable env fs) as [code fs'] eqn:Hrun.
  destruct (runCard_cases formattable env fs fs' code Hrun)
    as [[-> ->]|(command & im & sid & cfg & evaluation & Hreach & _)]; [reflexivity|].
  destruct (reachesApi_attempt _ _ _ _ _ _ _ _ Hreach Hattempt) as [-> ->].
  rewrite (reachesApi_new _ _ _ _ _ _ Hreach) in Hallowed. discriminate.
Qed.


(** X13: a session file never lists a package twice.  If the list of a
    session has no duplicates before a run, it has none after it: the hook
    appends a name only when [isAlreadyAllowed] has just answered that it
    is not there. *)
Theorem X13_no_duplicate_entries (formattable : EvaluationResponse -> bool) (env : Env)
  (fs fs' : files) (code : Z) (sessionId : string) :
  runCard formattable env fs = (code, fs') ->
  List.NoDup (allowedList fs sessionId) ->
  List.NoDup (allowedList fs' sessionId).
Proof.
  intros Hrun Hnodup.
  destruct (runCard_cases formattable env fs fs' code Hrun)
    as [[_ ->]|(command & im & sid & cfg & evaluation & Hreach & _ & _ & -> & _)];
    [exact Hnodup|].
  pose proof (reachesApi_new _ _ _ _ _ _ Hreach) as Hnew.
  destruct (string_dec (getAllowedPath sid) (getAllowedPath sessionId)) as [E|Hne].
  - rewrite (allowedList_insert_same fs sid sessionId _ E).
    rewrite (allowedList_path fs sid sessionId E) in Hnew |- *.
    apply List.NoDup_app; [exact Hnodup | repeat constructor; intros [] |].
    intros x Hx [<-|[]]. exact (arrayIncludes_In _ _ Hnew Hx).
  - rewrite allowedList_insert_other by exact Hne. exact Hnodup.
Qed.

(** X14: the bypass lasts.  When a run has blocked the install of a
    package, any number of later runs of the hook, for any inputs and in
    any sessions, leave the package allowed in its session: a later
    attempt to install it there, in any letter case, exits with code 0
    and changes no file. *)
Theorem X14_bypass_survives_later_runs
  (formattable formattable' : EvaluationResponse -> bool) (env env' : Env)
  (between : list ((EvaluationResponse -> bool) * Env))
  (fs fs1 : files) (sessionId name name' : string) :
  runCard formattable env fs = (2%Z, fs1) ->
  attempt env sessionId name ->
  attempt env' sessionId name' ->
  toLowerCase name' = toLowerCase name ->
  runCard formattable' env' (runs between fs1) = (0%Z, runs between fs1).
Proof.
  intros Hrun Hfirst Hsecond Hcase.
  apply (runCard_allowed formattable' env' _ sessionId name' Hsecond).
  apply runs_keep_allowed.
  destruct (runCard_cases formattable env fs fs1 2%Z Hrun)
    as [[E _]|(command & im & sid & cfg & evaluation & Hreach & _ & _ & -> & _)];
    [discriminate E|].
  destruct (reachesApi_attempt _ _ _ _ _ _ _ _ Hreach Hfirst) as [-> ->].
  rewrite (allowedList_insert_same fs sid sid _ eq_refl), arrayIncludes_app, Hcase.
  unfold arrayIncludes at 2. cbn [existsb]. rewrite String.eqb_refl.
  rewrite orb_true_r. reflexivity.
Qed.




End WithPlatform.


Lemma X13_no_duplicate_entries_witness :
  let env := exampleEnv "npm install left-pad" "CAUTION" in
  List.NoDup (allowedList (H := examplePlatform)
                (snd (runCard (H := examplePlatform) (fun _ => true) env ∅))
                (take 12 "session-1")).
Proof.
  cbv zeta.
  apply (X13_no_duplicate_entries (H := examplePlatform) (fun _ => true)
           (exampleEnv "npm install left-pad" "CAUTION") ∅ _ 2%Z).
  - vm_compute. reflexivity.
  - vm_compute. constructor.
Defined.

Lemma X14_bypass_survives_later_runs_witness :
  let first := exampleEnv "npm install left-pad" "CAUTION" in
  let other := ((fun _ : EvaluationResponse => false), exampleEnv "npm install request" "SWITCH") in
  let again := exampleEnv "npm install  Left-Pad" "SWITCH" in
  let fs1 := snd (runCard (H := examplePlatform) (fun _ => true) first ∅) in
  runCard (H := examplePlatform) (fun _ => true) again
    (runs (H := examplePlatform) [other; other] fs1)
  = (0%Z, runs (H := examplePlatform) [other; other] fs1).
Proof.
  cbv zeta.
  apply (X14_bypass_survives_later_runs (H := examplePlatform)
           (fun _ => true) (fun _ => true)
           (exampleEnv "npm install left-pad" "CAUTION")
           (exampleEnv "npm install  Left-Pad" "SWITCH")
           [((fun _ : EvaluationResponse => false), exampleEnv "npm install request" "SWITCH");
            ((fun _ : EvaluationResponse => false), exampleEnv "npm install request" "SWITCH")]
           ∅ _ (take 12 "session-1") "left-pad" "Left-Pad").
  - vm_compute. reflexivity.
  - exists (exampleInput "npm install left-pad"), "npm install left-pad",
      (mkInstallMatch "left-pad" "npm").
    repeat (split; [vm_compute; reflexivity|]). reflexivity.
  - exists (exampleInput "npm install  Left-Pad"), "npm install  Left-Pad",
      (mkInstallMatch "Left-Pad" "npm").
    repeat (split; [vm_compute; reflexivity|]). reflexivity.
  - vm_compute. reflexivity.
Defined.


End HookFilesProps.

(** ** The [hook] commands *)

Module CliProps.
Import Hook Cli.

Lemma includes_append_l (a b sub : string) :
  includes b sub = true -> includes (a +:+ b) sub = true.
Proof.
  intros Hb. induction a as [|c a IH]; [rewrite append_nil_l; exact Hb|].
  rewrite append_cons, includes_unfold. cbn iota. rewrite IH. apply orb_true_r.
Qed.

(** The command pushed names the script under [.sightglass], whatever the
    home directory is. *)
Lemma hookEntry_isHook (env : Host) : isSightglassHook (hookEntry env) = Ret true.
Proof.
  assert (Hc : includes ("node " +:+ hookScriptPath env) "sightglass" = true).
  { unfold hookScriptPath. apply includes_append_l, includes_append_l. reflexivity. }
  unfold hookEntry. generalize dependent ("node " +:+ hookScriptPath env).
  intros c Hc. cbv - [includes]. rewrite Hc. reflexivity.
Qed.

Lemma someHook_snoc (items : list json) (h : json) :
  someHook items = Ret false -> someHook (items ++ [h]) = someHook [h].
Proof.
  induction items as [|x items IH]; [reflexivity|]. cbn [someHook app].
  destruct (isSightglassHook x) as [[]| |]; try discriminate. exact IH.
Qed.

Lemma filterHooks_none (items : list json) :
  someHook items = Ret false -> filterHooks items = Ret items.
Proof.
  induction items as [|x items IH]; [reflexivity|]. cbn [someHook filterHooks].
  destruct (isSightglassHook x) as [[]| |]; try discriminate.
  intros Hnone. rewrite (IH Hnone). reflexivity.
Qed.

Lemma filterHooks_snoc (items : list json) (h : json) :
  someHook items = Ret false -> isSightglassHook h = Ret true ->
  filterHooks (items ++ [h]) = Ret items.
Proof.
  intros Hnone Hh. induction items as [|x items IH]; cbn [app filterHooks].
  - rewrite Hh. reflexivity.
  - cbn [someHook] in Hnone.
    destruct (isSightglassHook x) as [[]| |]; try discriminate.
    rewrite (IH Hnone). reflexivity.
Qed.

(** What [filter] keeps holds no hook, and it keeps everything only when
    there was none. *)
Lemma filterHooks_kept (items kept : list json) :
  filterHooks items = Ret kept ->
  someHook kept = Ret false /\ length kept <= length items /\
  (length kept = length items -> someHook items = Ret false) /\
  kept = List.filter
           (fun h => match isSightglassHook h with Ret true => false | _ => true end) items.
Proof.
  revert kept. induction items as [|x items IH]; intros kept; cbn [filterHooks].
  - intros [= <-]. cbn [someHook length List.filter]. repeat split; lia.
  - destruct (isSightglassHook x) as [isHook| |] eqn:Ex; try discriminate.
    destruct (filterHooks items) as [kept'| |]; try discriminate.
    destruct (IH kept' eq_refl) as (Hnone & Hlen & Hall & Hfilter).
    intros [= <-]. cbn [List.filter someHook]. rewrite Ex.
    destruct isHook; cbn [someHook length].
    + split; [exact Hnone|]. split; [lia|]. split; [lia|exact Hfilter].
    + rewrite Ex. split; [exact Hnone|]. split; [lia|].
      split; [intros E; apply Hall; lia | f_equal; exact Hfilter].
Qed.

Lemma someHook_true_filter (items kept : list json) :
  someHook items = Ret true -> filterHooks items = Ret kept ->
  length kept < length items.
Proof.
  intros Hsome Hkept.
  destruct (filterHooks_kept items kept Hkept) as (_ & Hlen & Hall & _).
  destruct (Nat.eq_dec (length kept) (length items)) as [E|Hne]; [|lia].
  rewrite (Hall E) in Hsome. discriminate.
Qed.

(** *** Fields *)

Lemma lookupField_setField_same (k : string) (v : json) (fields : list (string * json)) :
  lookupField k (setField k v fields) = Some v.
Proof.
  induction fields as [|[k' v'] fields IH]; cbn [setField lookupField].
  - rewrite String.eqb_refl. reflexivity.
  - destruct (String.eqb k' k) eqn:E; cbn [lookupField]; rewrite E; [reflexivity|exact IH].
Qed.

Lemma lookupField_setField_other (k k0 : string) (v : json)
  (fields : list (string * json)) :
  k0 <> k -> lookupField k0 (setField k v fields) = lookupField k0 fields.
Proof.
  intros Hne. induction fields as [|[k' v'] fields IH]; cbn [setField lookupField].
  - destruct (String.eqb_spec k k0) as [E|_]; [congruence|reflexivity].
  - destruct (String.eqb_spec k' k) as [->|_]; cbn [lookupField].
    + destruct (String.eqb_spec k k0) as [E|_]; [congruence|reflexivity].
    + rewrite IH. reflexivity.
Qed.

Lemma setField_same (k : string) (v : json) (fields : list (string * json)) :
  lookupField k fields = Some v -> setField k v fields = fields.
Proof.
  induction fields as [|[k' v'] fields IH]; cbn [setField lookupField]; [discriminate|].
  destruct (String.eqb k' k).
  - intros [= ->]. reflexivity.
  - intros Hl. rewrite (IH Hl). reflexivity.
Qed.

Lemma setField_setField (k : string) (v v' : json) (fields : list (string * json)) :
  setField k v (setField k v' fields) = setField k v fields.
Proof.
  induction fields as [|[k0 v0] fields IH]; cbn [setField].
  - rewrite String.eqb_refl. reflexivity.
  - destruct (String.eqb k0 k) eqn:E; cbn [setField]; rewrite E; [reflexivity|].
    rewrite IH. reflexivity.
Qed.

(** *** The commands on settings that hold a [PreToolUse] array *)

Lemma preToolUseOf_Some (j : json) (items : list json) :
  preToolUseOf j = Some items ->
  exists fields hfields,
    j = JObj fields /\ lookupField "hooks" fields = Some (JObj hfields) /\
    lookupField "PreToolUse" hfields = Some (JArr items).
Proof.
  unfold preToolUseOf. destruct j as [| | | | |fields]; try discriminate.
  destruct (lookupField "hooks" fields) as [[| | | | |hfields]|] eqn:Eh; try discriminate.
  destruct (lookupField "PreToolUse" hfields) as [[| | | |its|]|] eqn:Ep; try discriminate.
  intros [= ->]. exists fields, hfields. split; [reflexivity|]. split; assumption.
Qed.

Lemma preToolUseOf_pushed (items : list json) (hfields fields : list (string * json)) :
  preToolUseOf
    (JObj (setField "hooks" (JObj (setField "PreToolUse" (JArr items) hfields)) fields))
  = Some items.
Proof.
  unfold preToolUseOf. rewrite lookupField_setField_same, lookupField_setField_same.
  reflexivity.
Qed.

Lemma preToolUseOf_set (j : json) (items filtered : list json) :
  preToolUseOf j = Some items -> preToolUseOf (setPreToolUse j filtered) = Some filtered.
Proof.
  intros Hj. apply preToolUseOf_Some in Hj as (fields & hfields & -> & Hh & _).
  unfold setPreToolUse. rewrite Hh. apply preToolUseOf_pushed.
Qed.

Lemma register_found (env : Host) (fields hfields : list (string * json))
  (items : list json) :
  lookupField "hooks" fields = Some (JObj hfields) ->
  lookupField "PreToolUse" hfields = Some (JArr items) ->
  register env (JObj fields) =
  match someHook items with
  | Ret true => Ret None
  | Ret false =>
      Ret (Some (JObj (setField "hooks"
                         (JObj (setField "PreToolUse" (JArr (items ++ [hookEntry env]))
                                  hfields))
                         fields)))
  | Throw => Throw
  | Exit code => Exit code
  end.
Proof.
  intros Hh Hp. unfold register. rewrite Hh. cbn [truthyValue]. cbv zeta.
  rewrite Hp. cbn [truthyValue]. reflexivity.
Qed.

Lemma status_found (w : World) (j : json) (items : list json) :
  settings w = HasFile (Json j) -> preToolUseOf j = Some items ->
  status w =
  match someHook items with
  | Ret true => Ret IsInstalled
  | Ret false => Ret IsNotInstalled
  | Throw => Throw
  | Exit code => Exit code
  end.
Proof.
  intros Hw Hj. apply preToolUseOf_Some in Hj as (fields & hfields & -> & Hh & Hp).
  unfold status. rewrite Hw. cbn [getProp]. rewrite Hh. cbn [getPropOpt getProp].
  rewrite Hp. reflexivity.
Qed.

Lemma uninstall_found (w : World) (j : json) (items : list json) :
  settings w = HasFile (Json j) -> preToolUseOf j = Some items ->
  uninstall w =
  match filterHooks items with
  | Ret filtered =>
      if length filtered =? length items then (Ret NotFound, w)
      else (Ret Removed,
            mkWorld (HasFile (Json (setPreToolUse j filtered))) (canonicalHook w))
  | Throw => (Throw, w)
  | Exit code => (Exit code, w)
  end.
Proof.
  intros Hw Hj. apply preToolUseOf_Some in Hj as (fields & hfields & -> & Hh & Hp).
  unfold uninstall. rewrite Hw. cbn [getProp]. rewrite Hh. cbn [getPropOpt getProp].
  rewrite Hp. cbn [truthyValue negb]. reflexivity.
Qed.

Ltac by_value v :=
  destruct v as [[|[]|?z|?s|?its|?o]|];
  cbn [truthyValue lookupField]; cbv zeta;
  try (destruct (negb (_ =? 0)%Z)); try (destruct (truthy _));
  try discriminate.

Lemma status_at (j : json) (c : bool) (items : list json) :
  preToolUseOf j = Some items ->
  status (mkWorld (HasFile (Json j)) c) =
  match someHook items with
  | Ret true => Ret IsInstalled
  | Ret false => Ret IsNotInstalled
  | Throw => Throw
  | Exit code => Exit code
  end.
Proof. apply status_found. reflexivity. Qed.

Lemma uninstall_at (j : json) (c : bool) (items : list json) :
  preToolUseOf j = Some items ->
  uninstall (mkWorld (HasFile (Json j)) c) =
  match filterHooks items with
  | Ret filtered =>
      if length filtered =? length items
      then (Ret NotFound, mkWorld (HasFile (Json j)) c)
      else (Ret Removed, mkWorld (HasFile (Json (setPreToolUse j filtered))) c)
  | Throw => (Throw, mkWorld (HasFile (Json j)) c)
  | Exit code => (Exit code, mkWorld (HasFile (Json j)) c)
  end.
Proof. apply uninstall_found. reflexivity. Qed.

(** What [register] writes on plain settings. *)
Lemma register_plain (env : Host) (j j' : json) :
  plainSettings j = true -> register env j = Ret (Some j') ->
  exists fields hfields items,
    j = JObj fields /\
    j' = JObj (setField "hooks"
                 (JObj (setField "PreToolUse" (JArr (items ++ [hookEntry env])) hfields))
                 fields) /\
    someHook items = Ret false /\
    (forall hf, lookupField "hooks" fields = Some (JObj hf) -> hf = hfields) /\
    (forall its, lookupField "PreToolUse" hfields = Some (JArr its) -> its = items).
Proof.
  unfold plainSettings, register.
  destruct j as [| | | | |fields]; try discriminate.
  remember (lookupField "hooks" fields) as hooks eqn:Eh. by_value hooks.
  all: intros _.
  all: match goal with
       | |- context [lookupField "PreToolUse" ?hf] =>
           remember (lookupField "PreToolUse" hf) as preToolUse eqn:Ep; by_value preToolUse
       | _ => idtac
       end.
  all: match goal with
       | |- context [someHook ?l] => destruct (someHook l) as [[]| |] eqn:Esome
       end; try discriminate; intros [= <-].
  all: match goal with
       | Esome : someHook ?l = Ret false |- _ =>
           first
             [ exists fields, [], l; split; [reflexivity|]; split; [reflexivity|];
               split; [exact Esome|]; split; cbn [lookupField]; intros ? ?; congruence
             | match goal with
               | o : list (string * json) |- _ =>
                   exists fields, o, l; split; [reflexivity|]; split; [reflexivity|];
                   split; [exact Esome|]; split; cbn [lookupField]; intros ? ?; congruence
               end ]
       end.
Qed.

(** When [register] finds a hook, the settings hold a [PreToolUse] array
    with one. *)
Lemma register_None (env : Host) (j : json) :
  register env j = Ret None ->
  exists items, preToolUseOf j = Some items /\ someHook items = Ret true.
Proof.
  unfold register, preToolUseOf.
  destruct j as [| | | | |fields]; try discriminate.
  remember (lookupField "hooks" fields) as hooks eqn:Eh. by_value hooks.
  all: match goal with
       | |- context [lookupField "PreToolUse" ?hf] =>
           remember (lookupField "PreToolUse" hf) as preToolUse eqn:Ep; by_value preToolUse
       | _ => idtac
       end.
  all: match goal with
       | |- context [someHook ?l] => destruct (someHook l) as [[]| |] eqn:Esome
       end; try discriminate.
  all: intros _; eexists; split; [reflexivity | exact Esome].
Qed.

Lemma isSightglassHook_exit (h : json) (c : Z) : isSightglassHook h <> Exit c.
Proof.
  destruct h as [| | | | |fields]; cbn [isSightglassHook]; try discriminate.
  destruct (lookupField "type" fields) as [[| | |t| |]|]; try discriminate.
  destruct (String.eqb t "command"); try discriminate.
  destruct (lookupField "command" fields) as [[| | | | |]|]; discriminate.
Qed.

Lemma filterHooks_exit (items : list json) (c : Z) : filterHooks items <> Exit c.
Proof.
  revert c. induction items as [|x items IH]; intros c; cbn [filterHooks]; [discriminate|].
  destruct (isSightglassHook x) as [b| |c'] eqn:Ex; try discriminate.
  - destruct (filterHooks items) as [kept| |c''] eqn:Ef; try discriminate.
    destruct (IH c'' eq_refl).
  - destruct (isSightglassHook_exit _ _ Ex).
Qed.

(** How [uninstall] can return. *)
Lemma uninstall_Ret (w w' : World) (r : report) :
  uninstall w = (Ret r, w') ->
  (w' = w /\ (r = NoSettings \/ r = NoPreToolUse)) \/
  exists j items, settings w = HasFile (Json j) /\ preToolUseOf j = Some items.
Proof.
  unfold uninstall, preToolUseOf.
  destruct (settings w) as [| |[|j]] eqn:Ew; try discriminate;
    try (intros [= <- <-]; left; split; [reflexivity|left; reflexivity]).
  destruct j as [| | | | |fields]; cbn [getProp getPropOpt truthyValue negb];
    try discriminate;
    try (intros [= <- <-]; left; split; [reflexivity|right; reflexivity]).
  remember (lookupField "hooks" fields) as hooks eqn:Eh.
  destruct hooks as [[| | | | |hfields]|]; cbn [getProp getPropOpt truthyValue negb];
    try discriminate;
    try (intros [= <- <-]; left; split; [reflexivity|right; reflexivity]).
  remember (lookupField "PreToolUse" hfields) as preToolUse eqn:Ep.
  destruct preToolUse as [[|[]|z|s|items|o]|]; cbn [truthyValue negb];
    try (destruct (negb (z =? 0)%Z)); try (destruct (truthy s)); cbn [negb];
    try discriminate;
    try (intros [= <- <-]; left; split; [reflexivity|right; reflexivity]).
  intros _. right. exists (JObj fields), items. rewrite <- Eh, <- Ep.
  split; reflexivity.
Qed.

Lemma readSettings_found (s : settingsState) (items : list json) :
  preToolUseOf (readSettings s) = Some items -> s = HasFile (Json (readSettings s)).
Proof. destruct s as [| |[|j]]; cbn [readSettings]; try discriminate. reflexivity. Qed.

(** X16: after [sightglass hook install] has returned, whether it has
    just pushed the hook or found it there, [sightglass hook status]
    reports the hook as installed, and a second [hook install] finds it
    and changes nothing.  This holds on settings that are not a JSON
    array and have no array under [hooks]; on those, the command says
    "Installed" and writes back what it has read. *)
Theorem X16_install_then_installed (env : Host) (w w' : World) (r : report) :
  install env w = (Ret r, w') ->
  plainSettings (readSettings (settings w)) = true ->
  status w' = Ret IsInstalled /\
  install env w' = (Ret AlreadyInstalled, w').
Proof.
  unfold install at 1.
  destruct (negb (packageHook env || canonicalHook w)); [discriminate|].
  destruct (register env (readSettings (settings w))) as [[j'|]| |] eqn:Ereg;
    try discriminate; intros [= <- <-] Hplain.
  - destruct (register_plain env _ _ Hplain Ereg)
      as (fields & hfields & items & _ & -> & Hnone & _ & _).
    assert (Hsome : someHook (items ++ [hookEntry env]) = Ret true).
    { rewrite (someHook_snoc _ _ Hnone). cbn [someHook].
      rewrite hookEntry_isHook. reflexivity. }
    split.
    + rewrite (status_at _ _ _ (preToolUseOf_pushed _ _ _)), Hsome. reflexivity.
    + unfold install. cbn [canonicalHook settings readSettings].
      rewrite orb_true_r. cbn [negb].
      rewrite (register_found env _ _ (items ++ [hookEntry env])
                 (lookupField_setField_same _ _ _) (lookupField_setField_same _ _ _)).
      rewrite Hsome. reflexivity.
  - destruct (register_None env _ Ereg) as (items & Hitems & Hsome).
    pose proof (readSettings_found _ _ Hitems) as Hw.
    split.
    + rewrite (status_found (mkWorld (mkdirSettings (settings w)) true)
                 (readSettings (settings w)) items); [rewrite Hsome; reflexivity| |exact Hitems].
      cbn [settings]. rewrite Hw. reflexivity.
    + unfold install. cbn [canonicalHook settings]. rewrite orb_true_r. cbn [negb].
      rewrite Hw. cbn [mkdirSettings readSettings]. rewrite <- Hw, Ereg.
      rewrite Hw. reflexivity.
Qed.

Lemma X16_install_then_installed_witness :
  let env := mkHost true "/home/dev" in
  let w' := snd (install env (mkWorld (HasFile (Json exampleSettings)) false)) in
  status w' = Ret IsInstalled /\ install env w' = (Ret AlreadyInstalled, w').
Proof.
  cbv zeta.
  apply (X16_install_then_installed (mkHost true "/home/dev")
           (mkWorld (HasFile (Json exampleSettings)) false) _ Installed).
  - vm_compute. reflexivity.
  - vm_compute. reflexivity.
Defined.

(** X17: [hook uninstall] undoes [hook install].  After an install that
    has pushed the hook (on settings that are not an array and have no
    array under [hooks]), uninstall removes it, and status then reports
    the hook as not installed.  When the settings file had a
    [hooks.PreToolUse] array before the install, the file is, after the
    uninstall, what it was before the install. *)
Theorem X17_uninstall_undoes_install (env : Host) (w w' : World) :
  install env w = (Ret Installed, w') ->
  plainSettings (readSettings (settings w)) = true ->
  exists w'',
    uninstall w' = (Ret Removed, w'') /\
    status w'' = Ret IsNotInstalled /\
    (forall j items,
        settings w = HasFile (Json j) -> preToolUseOf j = Some items ->
        settings w'' = settings w).
Proof.
  unfold install.
  destruct (negb (packageHook env || canonicalHook w)); [discriminate|].
  destruct (register env (readSettings (settings w))) as [[j'|]| |] eqn:Ereg;
    try discriminate; intros [= <-] Hplain.
  destruct (register_plain env _ _ Hplain Ereg)
    as (fields & hfields & items & Ej & -> & Hnone & Hhooks & Hitems).
  eexists. split; [|split].
  - rewrite (uninstall_at _ _ _ (preToolUseOf_pushed _ _ _)).
    rewrite (filterHooks_snoc _ _ Hnone (hookEntry_isHook env)).
    destruct (Nat.eqb_spec (length items) (length (items ++ [hookEntry env]))) as [E|_];
      [rewrite length_app in E; cbn [length] in E; lia|].
    reflexivity.
  - rewrite (status_at _ _ _ (preToolUseOf_set _ _ items (preToolUseOf_pushed _ _ _))).
    rewrite Hnone. reflexivity.
  - intros j items0 Hw Hj. cbn [settings]. rewrite Hw in Ej |- *. cbn [readSettings] in Ej.
    subst j. apply preToolUseOf_Some in Hj as (fields0 & hfields0 & [= <-] & Hh & Hp).
    rewrite (Hhooks _ Hh) in Hp. rewrite (Hitems _ Hp) in Hp.
    rewrite (Hhooks _ Hh) in Hh.
    unfold setPreToolUse. rewrite lookupField_setField_same, !setField_setField.
    rewrite (setField_same _ _ _ Hp), (setField_same _ _ _ Hh). reflexivity.
Qed.

Lemma X17_uninstall_undoes_install_witness :
  let env := mkHost true "/home/dev" in
  let w := mkWorld (HasFile (Json exampleSettings)) false in
  exists w'',
    uninstall (snd (install env w)) = (Ret Removed, w'') /\
    status w'' = Ret IsNotInstalled /\ settings w'' = settings w.
Proof.
  cbv zeta.
  destruct (X17_uninstall_undoes_install (mkHost true "/home/dev")
              (mkWorld (HasFile (Json exampleSettings)) false)
              (snd (install (mkHost true "/home/dev")
                      (mkWorld (HasFile (Json exampleSettings)) false))))
    as (w'' & Hun & Hst & Hsame).
  - vm_compute. reflexivity.
  - vm_compute. reflexivity.
  - exists w''. split; [exact Hun|]. split; [exact Hst|].
    apply (Hsame exampleSettings
             [JObj [("type", JStr "command"); ("command", JStr "lint.sh")]]);
      vm_compute; reflexivity.
Defined.

(** X18: after an uninstall that has removed the hook, status reports
    the hook as not installed, and a second uninstall finds no hook and
    leaves the file as it is. *)
Theorem X18_uninstall_then_not_installed (w w' : World) :
  uninstall w = (Ret Removed, w') ->
  status w' = Ret IsNotInstalled /\ uninstall w' = (Ret NotFound, w').
Proof.
  intros Hun.
  destruct (uninstall_Ret w w' Removed Hun) as [[_ [E|E]]|(j & items & Hw & Hj)];
    try discriminate.
  rewrite (uninstall_found w j items Hw Hj) in Hun.
  destruct (filterHooks items) as [filtered| |] eqn:Ef; try discriminate.
  destruct (length filtered =? length items); [discriminate|]. injection Hun as <-.
  destruct (filterHooks_kept items filtered Ef) as (Hnone & _).
  split.
  - rewrite (status_at _ _ _ (preToolUseOf_set _ _ filtered Hj)), Hnone. reflexivity.
  - rewrite (uninstall_at _ _ _ (preToolUseOf_set _ _ filtered Hj)).
    rewrite (filterHooks_none _ Hnone), Nat.eqb_refl. reflexivity.
Qed.

Lemma X18_uninstall_then_not_installed_witness :
  let w := snd (install (mkHost true "/home/dev") (mkWorld NoDirectory false)) in
  let w' := snd (uninstall w) in
  status w' = Ret IsNotInstalled /\ uninstall w' = (Ret NotFound, w').
Proof.
  cbv zeta.
  apply (X18_uninstall_then_not_installed
           (snd (install (mkHost true "/home/dev") (mkWorld NoDirectory false)))).
  vm_compute. reflexivity.
Defined.

Lemma sameElsewhere_set (fields hfields : list (string * json)) (items : list json) :
  (forall hf, lookupField "hooks" fields = Some (JObj hf) -> hf = hfields) ->
  sameElsewhere (JObj fields)
    (JObj (setField "hooks" (JObj (setField "PreToolUse" (JArr items) hfields)) fields)).
Proof.
  intros Hhooks. eexists fields, _. split; [reflexivity|]. split; [reflexivity|]. split.
  - intros k Hk. apply lookupField_setField_other. exact Hk.
  - intros hf hf' k Hh Hh' Hk. rewrite lookupField_setField_same in Hh'.
    injection Hh' as <-. rewrite (Hhooks hf Hh).
    apply lookupField_setField_other. exact Hk.
Qed.

(** X19: [hook install] touches nothing but [hooks.PreToolUse].  When it
    pushes the hook into a settings object, every other top-level setting
    and every other key of [hooks] keeps its value, and the entries that
    [PreToolUse] had stay in front of the new one, in order. *)
Theorem X19_install_keeps_other_settings (env : Host) (w w' : World) (j : json) :
  install env w = (Ret Installed, w') ->
  settings w = HasFile (Json j) -> plainSettings j = true ->
  exists j',
    settings w' = HasFile (Json j') /\ sameElsewhere j j' /\
    (forall items, preToolUseOf j = Some items ->
                   preToolUseOf j' = Some (items ++ [hookEntry env])).
Proof.
  unfold install. intros Hinstall Hw Hplain. rewrite Hw in Hinstall.
  cbn [readSettings] in Hinstall.
  destruct (negb (packageHook env || canonicalHook w)); [discriminate|].
  destruct (register env j) as [[j'|]| |] eqn:Ereg; try discriminate.
  injection Hinstall as <-.
  destruct (register_plain env _ _ Hplain Ereg)
    as (fields & hfields & items & -> & -> & Hnone & Hhooks & Hitems).
  eexists. split; [reflexivity|]. split; [exact (sameElsewhere_set _ _ _ Hhooks)|].
  intros items0 Hj. apply preToolUseOf_Some in Hj as (fields0 & hfields0 & [= <-] & Hh & Hp).
  rewrite (Hhooks _ Hh) in Hp. rewrite (Hitems _ Hp). apply preToolUseOf_pushed.
Qed.

Lemma X19_install_keeps_other_settings_witness :
  exists j',
    settings (snd (install (mkHost true "/home/dev")
                     (mkWorld (HasFile (Json exampleSettings)) false)))
    = HasFile (Json j') /\
    sameElsewhere exampleSettings j'.
Proof.
  destruct (X19_install_keeps_other_settings (mkHost true "/home/dev")
              (mkWorld (HasFile (Json exampleSettings)) false)
              (snd (install (mkHost true "/home/dev")
                      (mkWorld (HasFile (Json exampleSettings)) false)))
              exampleSettings)
    as (j' & Hw & Hsame & _).
  - vm_compute. reflexivity.
  - reflexivity.
  - vm_compute. reflexivity.
  - exists j'. split; [exact Hw | exact Hsame].
Defined.

(** X20: [hook uninstall] touches nothing but [hooks.PreToolUse] either.
    When it removes the hook, every other top-level setting and every
    other key of [hooks] keeps its value, and [PreToolUse] keeps, in
    order, exactly the entries that are not a command naming
    "sightglass". *)
Theorem X20_uninstall_keeps_other_settings (w w' : World) :
  uninstall w = (Ret Removed, w') ->
  exists j j' items,
    settings w = HasFile (Json j) /\ settings w' = HasFile (Json j') /\
    sameElsewhere j j' /\
    preToolUseOf j = Some items /\
    preToolUseOf j' =
    Some (List.filter
            (fun h => match isSightglassHook h with Ret true => false | _ => true end)
            items).
Proof.
  intros Hun.
  destruct (uninstall_Ret w w' Removed Hun) as [[_ [E|E]]|(j & items & Hw & Hj)];
    try discriminate.
  rewrite (uninstall_found w j items Hw Hj) in Hun.
  destruct (filterHooks items) as [filtered| |] eqn:Ef; try discriminate.
  destruct (length filtered =? length items); [discriminate|]. injection Hun as <-.
  destruct (filterHooks_kept items filtered Ef) as (_ & _ & _ & Hfilter).
  exists j, (setPreToolUse j filtered), items.
  split; [exact Hw|]. split; [reflexivity|]. split.
  - pose proof Hj as Hj'.
    apply preToolUseOf_Some in Hj' as (fields & hfields & -> & Hh & Hp).
    unfold setPreToolUse. rewrite Hh. apply sameElsewhere_set.
    intros hf Hhf. congruence.
  - split; [exact Hj|]. rewrite <- Hfilter. apply (preToolUseOf_set _ _ _ Hj).
Qed.

Lemma X20_uninstall_keeps_other_settings_witness :
  exists j',
    settings (snd (uninstall (snd (install (mkHost true "/home/dev")
                                     (mkWorld (HasFile (Json exampleSettings)) false)))))
    = HasFile (Json j') /\
    preToolUseOf j' = Some [JObj [("type", JStr "command"); ("command", JStr "lint.sh")]].
Proof.
  destruct (X20_uninstall_keeps_other_settings
              (snd (install (mkHost true "/home/dev")
                      (mkWorld (HasFile (Json exampleSettings)) false)))
              (snd (uninstall (snd (install (mkHost true "/home/dev")
                                      (mkWorld (HasFile (Json exampleSettings)) false))))))
    as (j & j' & items & Hw & Hw' & _ & Hj & Hj').
  - vm_compute. reflexivity.
  - exists j'. split; [exact Hw'|]. rewrite Hj'.
    injection Hw as <-. injection Hj as <-. vm_compute. reflexivity.
Defined.

(** X21: the three commands agree on what "installed" means.  When
    status reports the hook as installed, install (with the script
    available) answers "already installed" and leaves the settings as they
    are, and uninstall removes the hook, unless an entry of [PreToolUse]
    after the hook makes its [filter] throw.  When status reports the hook
    as not installed, uninstall answers that there are no [PreToolUse]
    hooks or that the hook was not found, and changes nothing. *)
Theorem X21_commands_agree (env : Host) (w : World) :
  (status w = Ret IsInstalled ->
   packageHook env || canonicalHook w = true ->
   install env w = (Ret AlreadyInstalled, mkWorld (settings w) true) /\
   ((exists w', uninstall w = (Ret Removed, w')) \/ uninstall w = (Throw, w))) /\
  (status w = Ret IsNotInstalled ->
   uninstall w = (Ret NoPreToolUse, w) \/ uninstall w = (Ret NotFound, w)).
Proof.
  split.
  - intros Hstatus Hscript.
    assert (Hfound : exists j items, settings w = HasFile (Json j) /\
                                     preToolUseOf j = Some items /\
                                     someHook items = Ret true).
    { revert Hstatus. unfold status, preToolUseOf.
      destruct (settings w) as [| |[|j]]; try discriminate.
      destruct j as [| | | | |fields]; cbn [getProp getPropOpt]; try discriminate.
      remember (lookupField "hooks" fields) as hooks eqn:Eh.
      destruct hooks as [[| | | | |hfields]|]; cbn [getProp getPropOpt]; try discriminate.
      remember (lookupField "PreToolUse" hfields) as preToolUse eqn:Ep.
      destruct preToolUse as [[| | | |items|]|]; cbn [someHook]; try discriminate.
      destruct (someHook items) as [[]| |] eqn:Esome; try discriminate.
      intros _. exists (JObj fields), items. rewrite <- Eh, <- Ep. auto. }
    destruct Hfound as (j & items & Hw & Hj & Hsome). split.
    + unfold install. rewrite Hscript, Hw. cbn [negb readSettings mkdirSettings].
      pose proof Hj as Hj'.
      apply preToolUseOf_Some in Hj' as (fields & hfields & -> & Hh & Hp).
      rewrite (register_found env _ _ _ Hh Hp), Hsome. reflexivity.
    + rewrite (uninstall_found w j items Hw Hj).
      destruct (filterHooks items) as [filtered| |c] eqn:Ef.
      * pose proof (someHook_true_filter _ _ Hsome Ef) as Hlt.
        destruct (Nat.eqb_spec (length filtered) (length items)) as [E|_]; [lia|].
        left. eexists. reflexivity.
      * right. reflexivity.
      * destruct (filterHooks_exit _ _ Ef).
  - unfold status, uninstall.
    destruct (settings w) as [| |[|j]]; try discriminate.
    destruct j as [| | | | |fields]; cbn [getProp getPropOpt truthyValue negb someHook];
      try discriminate; try (intros _; left; reflexivity).
    destruct (lookupField "hooks" fields) as [[| | | | |hfields]|];
      cbn [getProp getPropOpt truthyValue negb someHook];
      try discriminate; try (intros _; left; reflexivity).
    destruct (lookupField "PreToolUse" hfields) as [[| | | |items|]|];
      cbn [truthyValue negb someHook];
      try discriminate; try (intros _; left; reflexivity).
    destruct (someHook items) as [[]| |] eqn:Esome; try discriminate.
    intros _. rewrite (filterHooks_none _ Esome), Nat.eqb_refl. right. reflexivity.
Qed.

Lemma X21_commands_agree_witness :
  let env := mkHost false "/home/dev" in
  let w := snd (install (mkHost true "/home/dev") (mkWorld NoFile false)) in
  install env w = (Ret AlreadyInstalled, mkWorld (settings w) true) /\
  (uninstall (mkWorld (HasFile (Json exampleSettings)) false)
   = (Ret NoPreToolUse, mkWorld (HasFile (Json exampleSettings)) false) \/
   uninstall (mkWorld (HasFile (Json exampleSettings)) false)
   = (Ret NotFound, mkWorld (HasFile (Json exampleSettings)) false)).
Proof.
  cbv zeta. split.
  - apply (X21_commands_agree (mkHost false "/home/dev")
             (snd (install (mkHost true "/home/dev") (mkWorld NoFile false)))).
    + vm_compute. reflexivity.
    + vm_compute. reflexivity.
  - apply (X21_commands_agree (mkHost false "/home/dev")
             (mkWorld (HasFile (Json exampleSettings)) false)).
    vm_compute. reflexivity.
Defined.

(** X22: the hook step of [sightglass setup] and [sightglass hook
    install].  With the hook script in the package and [~/.claude] in
    place, both leave the same settings and the same script, and one
    throws exactly when the other does.  Without [~/.claude], [hook
    install] creates the directory and writes the settings, while [setup]
    throws on the write and leaves no settings. *)
Theorem X22_setup_registers_like_install (env : Host) (w : World) :
  packageHook env = true ->
  (settings w <> NoDirectory ->
   snd (setupHook env w) = snd (install env w) /\
   (fst (setupHook env w) = Throw <-> fst (install env w) = Throw) /\
   (fst (setupHook env w) = Ret SetupInstalled <->
    fst (install env w) = Ret Installed \/ fst (install env w) = Ret AlreadyInstalled)) /\
  (settings w = NoDirectory ->
   setupHook env w = (Throw, mkWorld NoDirectory true) /\
   install env w =
   (Ret Installed,
    mkWorld (HasFile (Json (JObj [("hooks", JObj [("PreToolUse", JArr [hookEntry env])])])))
            true)).
Proof.
  intros Hpackage. unfold setupHook, install. rewrite Hpackage. cbn [orb negb]. split.
  - intros Hdir.
    assert (Hmk : mkdirSettings (settings w) = settings w)
      by (destruct (settings w); [contradiction Hdir|..]; reflexivity).
    rewrite Hmk.
    destruct (register env (readSettings (settings w))) as [[j'|]| |code]; cbn [fst snd].
    + destruct (settings w) as [| |f]; [contradiction Hdir; reflexivity|..]; cbn [fst snd];
        (split; [reflexivity|]); (split; split; try discriminate; auto);
        intros [E|E]; discriminate E || reflexivity.
    + split; [reflexivity|]. split; split; try discriminate; auto.
    + split; [reflexivity|]. split; split; try discriminate; auto.
      intros [E|E]; discriminate E.
    + split; [reflexivity|]. split; split; try discriminate.
      intros [E|E]; discriminate E.
  - intros ->. cbn [readSettings]. split; reflexivity.
Qed.

Lemma X22_setup_registers_like_install_witness :
  let env := mkHost true "/home/dev" in
  snd (setupHook env (mkWorld (HasFile (Json exampleSettings)) false))
  = snd (install env (mkWorld (HasFile (Json exampleSettings)) false)) /\
  setupHook env (mkWorld NoDirectory false) = (Throw, mkWorld NoDirectory true).
Proof.
  cbv zeta.
  destruct (X22_setup_registers_like_install (mkHost true "/home/dev")
              (mkWorld (HasFile (Json exampleSettings)) false) eq_refl) as [Hsame _].
  destruct (X22_setup_registers_like_install (mkHost true "/home/dev")
              (mkWorld NoDirectory false) eq_refl) as [_ Hmissing].
  split.
  - apply Hsame. discriminate.
  - apply Hmissing. reflexivity.
Defined.

End CliProps.

(** ** The change handler of [watch] *)

Module WatcherProps.
Import Watcher.





End WatcherProps.

(** ** The counts of the report of [analyze] *)

Module ReportProps.
Import Report.

Lemma sameType_eq (a b : DiscoveryType) : sameType a b = true <-> a = b.
Proof. destruct a, b; cbn; split; intros E; congruence. Qed.

Lemma total_increment (d : distribution) (event : ClassifiedEvent) :
  list_sum (map (increment d event) allTypes) = S (list_sum (map d allTypes)).
Proof.
  unfold increment, allTypes. destruct (classification event); cbn; lia.
Qed.

Lemma distributionLoop_total (events : list ClassifiedEvent) : forall d,
  list_sum (map (fold_left increment events d) allTypes) =
  list_sum (map d allTypes) + length events.
Proof.
  induction events as [|e events IH]; intros d; cbn [fold_left length]; [lia|].
  rewrite IH, total_increment. lia.
Qed.

Lemma distributionLoop_recall (events : list ClassifiedEvent) : forall d,
  fold_left increment events d TRAINING_RECALL =
  d TRAINING_RECALL +
  length (List.filter (fun e => sameType (classification e) TRAINING_RECALL) events).
Proof.
  induction events as [|e events IH]; intros d; cbn [fold_left List.filter length]; [lia|].
  rewrite IH. unfold increment.
  destruct (classification e); cbn [sameType length]; lia.
Qed.

(** X24: the counts of the report of [analyze] fit together.  The six
    entries of the classification distribution add up to the number of
    install events, and [alternativesNeverConsidered] never exceeds the
    entry of [TRAINING_RECALL]. *)
Theorem X24_report_counts (classified : list ClassifiedEvent) :
  let installEvents := installEventsOf classified in
  list_sum (map (distributionOf installEvents) allTypes) = length installEvents /\
  alternativesNeverConsidered installEvents <= distributionOf installEvents TRAINING_RECALL /\
  length installEvents <= length classified.
Proof.
  cbv zeta. unfold distributionOf. split; [|split].
  - rewrite distributionLoop_total. reflexivity.
  - rewrite distributionLoop_recall. unfold alternativesNeverConsidered. cbn [Nat.add].
    generalize (installEventsOf classified). intros events.
    induction events as [|e events IH]; cbn [List.filter length]; [lia|].
    destruct (sameType (classification e) TRAINING_RECALL);
      rewrite ?andb_true_r, ?andb_false_r;
      destruct (negb (abandoned e) && (length (alternatives e) =? 0));
      cbn [length]; lia.
  - apply List.filter_length_le.
Qed.

End ReportProps.
